(** * YOLOv8-qat: the network of [nets/nn.py]

    A shallow embedding of the architecture file of the repository: the
    activation gate [SiLU], the convolution block [Conv], [Residual], [CSP],
    [SPP], the backbone [DarkNet], the pyramid [DarkFPN], the detection
    [Head], the model [YOLO], the wrapper [QAT] and the six factories.

    The tensor library is outside the repository.  A tensor is embedded as
    what the architecture code can observe of it: its shape, its quantization
    parameters (when it is a quantized tensor) and the expression that
    computed it.  Learned parameters and running statistics are not
    modelled, so two layers of the same configuration are the same layer.
    Python exceptions are values of the error type [exn]. *)

From Stdlib Require Import String ZArith QArith List Bool Lia.
Import ListNotations.
Open Scope Z_scope.

(** ** Python values and exceptions *)

Inductive exn : Type :=
| AttributeError
| IndexError
| RuntimeError
| ValueError
| ZeroDivisionError.

Inductive result (A : Type) : Type :=
| Ok (a : A)
| Raise (e : exn).

Arguments Ok {A} a.
Arguments Raise {A} e.

Definition bind {A B : Type} (m : result A) (k : A -> result B) : result B :=
  match m with
  | Ok a => k a
  | Raise e => Raise e
  end.

Notation "'let*' x ':=' m 'in' k" := (bind m (fun x => k))
  (at level 10, x pattern, m at level 100, k at level 200).

Fixpoint mapM {A B : Type} (f : A -> result B) (l : list A) : result (list B) :=
  match l with
  | [] => Ok []
  | a :: l' =>
      let* b := f a in
      let* bs := mapM f l' in
      Ok (b :: bs)
  end.

(** [l[i]] on a Python list or tuple: a negative index counts from the end. *)
Definition getitem {A : Type} (l : list A) (i : Z) : result A :=
  let n := Z.of_nat (length l) in
  let j := if i <? 0 then i + n else i in
  if (j <? 0) || (n <=? j) then Raise IndexError
  else match nth_error l (Z.to_nat j) with
       | Some a => Ok a
       | None => Raise IndexError
       end.

(** [a / b] on Python integers: true division.  The quotient is kept as an
    exact rational in lowest terms. *)
Definition truediv (a b : Z) : result Q :=
  if b =? 0 then Raise ZeroDivisionError
  else Ok (Qred (inject_Z a / inject_Z b)).

(** [max(a, b)] and [max(a, b, c)] on Python integers. *)
Definition max2 (a b : Z) : Z := Z.max a b.
Definition max3 (a b c : Z) : Z := Z.max (Z.max a b) c.

(** ** The tensor library *)

Module torch.

(** Quantization parameters of a per-tensor quantized tensor. *)
Definition QParams : Type := (Q * Z)%type.

(** The computation that produced a tensor. *)
#[warnings="-register-all"]
Inductive Expr : Type :=
| Input (name : string)
| Zeros (size : list Z)
| Conv2dOp (in_ch out_ch k s p : Z) (bias : bool) (x : Expr)
| BatchNormOp (num_features : Z) (eps momentum : Q) (x : Expr)
| SigmoidOp (x : Expr)
| ReluOp (x : Expr)
| MulOp (a b : Expr)
| AddOp (a b : Expr)
| QuantizedMulOp (a b : Expr) (scale : Q) (zero_point : Z)
| QuantizedAddOp (a b : Expr) (scale : Q) (zero_point : Z)
| ChunkOp (x : Expr) (chunks : Z) (dim : nat) (index : nat)
| CatOp (xs : list Expr) (dim : nat)
| DequantizeOp (x : Expr)
| QuantizePerTensorOp (x : Expr) (scale : Q) (zero_point : Z)
| MaxPool2dOp (k s p : Z) (x : Expr)
| UpsampleNearestOp (scale_factor : Z) (x : Expr).

Record Tensor : Type := mkTensor {
  shape : list Z;
  qparams : option QParams;
  data : Expr
}.

Definition is_quantized (x : Tensor) : bool :=
  match qparams x with
  | Some _ => true
  | None => false
  end.

Definition q_scale (x : Tensor) : result Q :=
  match qparams x with
  | Some (s, _) => Ok s
  | None => Raise RuntimeError
  end.

Definition q_zero_point (x : Tensor) : result Z :=
  match qparams x with
  | Some (_, z) => Ok z
  | None => Raise RuntimeError
  end.

(** [torch.zeros] of a given size. *)
Definition zeros (size : list Z) : Tensor :=
  {| shape := size; qparams := None; data := Zeros size |}.

Fixpoint shape_eqb (a b : list Z) : bool :=
  match a, b with
  | [], [] => true
  | x :: a', y :: b' => (x =? y) && shape_eqb a' b'
  | _, _ => false
  end.

(** Broadcasting of two shapes, aligned at the last dimension. *)
Fixpoint broadcast_rev (a b : list Z) : result (list Z) :=
  match a, b with
  | [], _ => Ok b
  | _, [] => Ok a
  | x :: a', y :: b' =>
      let* r := broadcast_rev a' b' in
      if x =? y then Ok (x :: r)
      else if x =? 1 then Ok (y :: r)
      else if y =? 1 then Ok (x :: r)
      else Raise RuntimeError
  end.

Definition broadcast_shapes (a b : list Z) : result (list Z) :=
  let* r := broadcast_rev (rev a) (rev b) in
  Ok (rev r).

(** [a * b] and [a + b]: real-valued operands only. *)
Definition mul (a b : Tensor) : result Tensor :=
  if is_quantized a || is_quantized b then Raise RuntimeError
  else
    let* s := broadcast_shapes (shape a) (shape b) in
    Ok {| shape := s; qparams := None; data := MulOp (data a) (data b) |}.

Definition add (a b : Tensor) : result Tensor :=
  if is_quantized a || is_quantized b then Raise RuntimeError
  else
    let* s := broadcast_shapes (shape a) (shape b) in
    Ok {| shape := s; qparams := None; data := AddOp (data a) (data b) |}.

(** [torch.ops.quantized.mul] and [torch.ops.quantized.add]: quantized
    operands only; the result carries the scale and zero point passed in. *)
Definition quantized_mul (a b : Tensor) (scale : Q) (zero_point : Z)
  : result Tensor :=
  if is_quantized a && is_quantized b then
    let* s := broadcast_shapes (shape a) (shape b) in
    Ok {| shape := s; qparams := Some (scale, zero_point);
          data := QuantizedMulOp (data a) (data b) scale zero_point |}
  else Raise RuntimeError.

Definition quantized_add (a b : Tensor) (scale : Q) (zero_point : Z)
  : result Tensor :=
  if is_quantized a && is_quantized b then
    let* s := broadcast_shapes (shape a) (shape b) in
    Ok {| shape := s; qparams := Some (scale, zero_point);
          data := QuantizedAddOp (data a) (data b) scale zero_point |}
  else Raise RuntimeError.

(** [torch.nn.functional.relu]: keeps shape and representation. *)
Definition relu (x : Tensor) : Tensor :=
  {| shape := shape x; qparams := qparams x; data := ReluOp (data x) |}.

(** [x.dequantize()]: the real-valued tensor; a real-valued tensor stays
    as it is. *)
Definition dequantize (x : Tensor) : Tensor :=
  match qparams x with
  | Some _ => {| shape := shape x; qparams := None;
                 data := DequantizeOp (data x) |}
  | None => x
  end.

(** [torch.quantize_per_tensor(x, scale, zero_point, dtype=torch.quint8)]:
    the operand is real-valued and the zero point fits the 8-bit range. *)
Definition quantize_per_tensor (x : Tensor) (scale : Q) (zero_point : Z)
  : result Tensor :=
  if is_quantized x then Raise RuntimeError
  else if (zero_point <? 0) || (255 <? zero_point) then Raise RuntimeError
  else Ok {| shape := shape x; qparams := Some (scale, zero_point);
             data := QuantizePerTensorOp (data x) scale zero_point |}.

(** Replace the entry at position [dim] of a shape. *)
Fixpoint set_dim (s : list Z) (dim : nat) (v : Z) : list Z :=
  match s, dim with
  | [], _ => []
  | _ :: s', O => v :: s'
  | x :: s', S d => x :: set_dim s' d v
  end.

Definition dim_size (s : list Z) (dim : nat) : Z := nth dim s 0.

(** The sizes of the pieces [x.chunk(chunks, dim)] cuts a dimension of size
    [d] into: pieces of [ceil(d / chunks)], the last one possibly smaller,
    and possibly fewer than [chunks] of them. *)
Definition chunk_sizes (d chunks : Z) : list Z :=
  if d =? 0 then repeat 0 (Z.to_nat chunks)
  else
    let size := (d + chunks - 1) / chunks in
    let count := (d + size - 1) / size in
    map (fun i => Z.min size (d - size * Z.of_nat i)) (seq 0 (Z.to_nat count)).

Definition chunk (x : Tensor) (chunks : Z) (dim : nat) : result (list Tensor) :=
  if chunks <=? 0 then Raise RuntimeError
  else if (length (shape x) <=? dim)%nat then Raise IndexError
  else
    let sizes := chunk_sizes (dim_size (shape x) dim) chunks in
    Ok (map (fun '(i, c) =>
               {| shape := set_dim (shape x) dim c; qparams := qparams x;
                  data := ChunkOp (data x) chunks dim i |})
            (combine (seq 0 (length sizes)) sizes)).

(** [torch.cat(tensors, dim)]: a non-empty list of tensors that agree in
    every dimension but [dim] and are all real-valued or all quantized; the
    result has the representation of the first. *)
Definition cat_compatible (dim : nat) (t u : Tensor) : bool :=
  shape_eqb (set_dim (shape t) dim 0) (set_dim (shape u) dim 0)
  && Bool.eqb (is_quantized t) (is_quantized u).

Definition cat (ts : list Tensor) (dim : nat) : result Tensor :=
  match ts with
  | [] => Raise RuntimeError
  | t :: rest =>
      if (length (shape t) <=? dim)%nat then Raise IndexError
      else if forallb (cat_compatible dim t) rest then
        Ok {| shape := set_dim (shape t) dim
                         (fold_right Z.add 0
                            (map (fun u => dim_size (shape u) dim) ts));
              qparams := qparams t;
              data := CatOp (map data ts) dim |}
      else Raise RuntimeError
  end.

End torch.

(** ** The layers of [torch.nn] the file builds on

    Every layer is the layer as its constructor leaves it: real-valued
    (a quantized operand is refused by the convolution and the
    normalization) and, for the normalization, in training mode. *)

Module Conv2d.

Import torch.

Record t : Type := mk {
  in_channels : Z;
  out_channels : Z;
  kernel_size : Z;
  stride : Z;
  padding : Z;
  bias : bool
}.

(** [torch.nn.Conv2d(in_ch, out_ch, k, s, p, bias=b)].  The record holds
    the arguments as given; the library accepts positive channel counts
    and kernel sizes, and the properties below are stated for those. *)
Definition init (in_ch out_ch k s p : Z) (b : bool) : t :=
  mk in_ch out_ch k s p b.

(** Size of one spatial dimension after a window of [k] moved by [s] over
    the input padded by [p] on both sides. *)
Definition out_size (h k s p : Z) : Z := (h + 2 * p - k) / s + 1.

(** The operand must have the channels the layer was built for; a layer
    without output channels, with an empty kernel, with negative padding
    or with a non-positive stride raises, and so does a padded operand
    smaller than the kernel. *)
Definition out_shape (self : t) (lead : list Z) (c h w : Z)
  : result (list Z) :=
  if negb (c =? in_channels self) then Raise RuntimeError
  else if (out_channels self <? 1) || (kernel_size self <? 1)
          || (padding self <? 0)
  then Raise RuntimeError
  else if stride self <=? 0 then Raise RuntimeError
  else if (h + 2 * padding self <? kernel_size self)
          || (w + 2 * padding self <? kernel_size self)
  then Raise RuntimeError
  else Ok (lead ++ [out_channels self;
                    out_size h (kernel_size self) (stride self) (padding self);
                    out_size w (kernel_size self) (stride self) (padding self)]).

Definition forward (self : t) (x : Tensor) : result Tensor :=
  if is_quantized x then Raise RuntimeError
  else
    let* s := match shape x with
              | [n; c; h; w] => out_shape self [n] c h w
              | [c; h; w] => out_shape self [] c h w
              | _ => Raise RuntimeError
              end in
    Ok {| shape := s; qparams := None;
          data := Conv2dOp (in_channels self) (out_channels self)
                    (kernel_size self) (stride self) (padding self)
                    (bias self) (data x) |}.

End Conv2d.

Module BatchNorm2d.

Import torch.

Record t : Type := mk {
  num_features : Z;
  eps : Q;
  momentum : Q;
  training : bool
}.

(** [torch.nn.BatchNorm2d(num_features, eps=e, momentum=m)] *)
Definition init (num_features : Z) (e m : Q) : t :=
  mk num_features e m true.

(** A 4-dimensional real-valued operand with [num_features] channels and,
    in training mode, more than one value per channel. *)
Definition forward (self : t) (x : Tensor) : result Tensor :=
  if is_quantized x then Raise RuntimeError
  else
    match shape x with
    | [n; c; h; w] =>
        if negb (c =? num_features self) then Raise RuntimeError
        else if training self && (n * h * w =? 1) then Raise ValueError
        else Ok {| shape := shape x; qparams := None;
                   data := BatchNormOp (num_features self) (eps self)
                             (momentum self) (data x) |}
    | _ => Raise ValueError
    end.

End BatchNorm2d.

Module Sigmoid.

Import torch.

Record t : Type := mk { }.

Definition init : t := mk.

(** Elementwise; a quantized operand gives a quantized result on the fixed
    output grid of the 8-bit sigmoid (scale 1/256, zero point 0). *)
Definition forward (self : t) (x : Tensor) : Tensor :=
  {| shape := shape x;
     qparams := match qparams x with
                | Some _ => Some ((1 # 256)%Q, 0)
                | None => None
                end;
     data := SigmoidOp (data x) |}.

End Sigmoid.

Module MaxPool2d.

Import torch.

Record t : Type := mk {
  kernel_size : Z;
  stride : Z;
  padding : Z
}.

(** [torch.nn.MaxPool2d(k, s, p)] *)
Definition init (k s p : Z) : t := mk k s p.

Definition out_shape (self : t) (lead : list Z) (h w : Z) : result (list Z) :=
  if stride self <=? 0 then Raise RuntimeError
  else if kernel_size self <? 2 * padding self then Raise RuntimeError
  else if (h + 2 * padding self <? kernel_size self)
          || (w + 2 * padding self <? kernel_size self)
  then Raise RuntimeError
  else Ok (lead ++
           [Conv2d.out_size h (kernel_size self) (stride self) (padding self);
            Conv2d.out_size w (kernel_size self) (stride self) (padding self)]).

(** Keeps the channels and the representation of the operand. *)
Definition forward (self : t) (x : Tensor) : result Tensor :=
  let* s := match shape x with
            | [n; c; h; w] => out_shape self [n; c] h w
            | [c; h; w] => out_shape self [c] h w
            | _ => Raise RuntimeError
            end in
  Ok {| shape := s; qparams := qparams x;
        data := MaxPool2dOp (kernel_size self) (stride self) (padding self)
                  (data x) |}.

End MaxPool2d.

Module Upsample.

Import torch.

Inductive Mode : Type :=
| nearest.

Record t : Type := mk {
  scale_factor : Z;
  mode : Mode
}.

(** [torch.nn.Upsample(scale_factor=f, mode=m)] *)
Definition init (f : Z) (m : Mode) : t := mk f m.

(** Batch and channel dimensions are kept, the one to three dimensions after
    them are multiplied by the factor; the representation is kept. *)
Definition forward (self : t) (x : Tensor) : result Tensor :=
  match shape x with
  | n :: c :: d :: rest =>
      if (2 <? length rest)%nat then Raise RuntimeError
      else Ok {| shape := n :: c :: map (fun v => v * scale_factor self)
                                        (d :: rest);
                 qparams := qparams x;
                 data := UpsampleNearestOp (scale_factor self) (data x) |}
  | _ => Raise RuntimeError
  end.

End Upsample.

(** [torch.quantization.QuantStub] and [DeQuantStub] mark where tensors
    enter and leave the quantized part of a model.  Each hands its operand
    to the transform the quantization collaborator has put in its place
    (an observer, a fake quantization, a quantize or dequantize step); as
    constructed there is none, and the operand is returned unchanged. *)
Module QuantStub.

Record t : Type := mk {
  transform : torch.Tensor -> result torch.Tensor
}.

Definition init : t := mk (fun x => Ok x).

Definition forward (self : t) (x : torch.Tensor) : result torch.Tensor :=
  transform self x.

End QuantStub.

Module DeQuantStub.

Record t : Type := mk {
  transform : torch.Tensor -> result torch.Tensor
}.

Definition init : t := mk (fun x => Ok x).

Definition forward (self : t) (x : torch.Tensor) : result torch.Tensor :=
  transform self x.

End DeQuantStub.

(** ** [nets/nn.py] *)

(** *** class SiLU *)
Module SiLU.

Import torch.

Record t : Type := mk {
  sigmoid : Sigmoid.t
}.

Definition init : t := mk Sigmoid.init.

Definition forward (self : t) (x : Tensor) : result Tensor :=
  if is_quantized x then
    let* scale := q_scale x in
    let* zero_point := q_zero_point x in
    quantized_mul x (Sigmoid.forward (sigmoid self) x) scale zero_point
  else
    mul (relu x) (Sigmoid.forward (sigmoid self) x).

End SiLU.

(** *** class Conv *)
Module Conv.

Import torch.

Record t : Type := mk {
  conv : Conv2d.t;
  norm : BatchNorm2d.t;
  relu : SiLU.t
}.

(** [Conv(in_ch, out_ch, k, s)]; the source's defaults are [k=1], [s=1]. *)
Definition init (in_ch out_ch k s : Z) : t :=
  {| conv := Conv2d.init in_ch out_ch k s ((k - 1) / 2) false;
     norm := BatchNorm2d.init out_ch (1 # 1000)%Q (3 # 100)%Q;
     relu := SiLU.init |}.

Definition forward (self : t) (x : Tensor) : result Tensor :=
  let* y := Conv2d.forward (conv self) x in
  let* y := BatchNorm2d.forward (norm self) y in
  SiLU.forward (relu self) y.

End Conv.

(** *** class Residual *)
Module Residual.

Import torch.

Record t : Type := mk {
  add_m : bool;
  conv1 : Conv.t;
  conv2 : Conv.t
}.

(** [Residual(ch, add)]; the source's default is [add=True]. *)
Definition init (ch : Z) (add : bool) : t :=
  {| add_m := add;
     conv1 := Conv.init ch ch 3 1;
     conv2 := Conv.init ch ch 3 1 |}.

Definition forward (self : t) (x : Tensor) : result Tensor :=
  let* y := Conv.forward (conv1 self) x in
  let* y := Conv.forward (conv2 self) y in
  if add_m self then
    if is_quantized x && is_quantized y then
      let* scale := q_scale x in
      let* zero_point := q_zero_point x in
      quantized_add x y scale zero_point
    else
      torch.add x y
  else
    Ok y.

End Residual.

(** *** class CSP *)
Module CSP.

Import torch.

Record t : Type := mk {
  conv1 : Conv.t;
  conv2 : Conv.t;
  res_m : list Residual.t
}.

(** [CSP(in_ch, out_ch, n, add)]; the source's defaults are [n=1],
    [add=True].  [range(n)] is empty for a negative [n]. *)
Definition init (in_ch out_ch n : Z) (add : bool) : t :=
  {| conv1 := Conv.init in_ch out_ch 1 1;
     conv2 := Conv.init ((2 + n) * out_ch / 2) out_ch 1 1;
     res_m := repeat (Residual.init (out_ch / 2) add) (Z.to_nat n) |}.

(** The loop [for m in self.res_m: y_list.append(m(y_list[-1]))]. *)
Fixpoint extend (ms : list Residual.t) (y_list : list Tensor)
  : result (list Tensor) :=
  match ms with
  | [] => Ok y_list
  | m :: ms' =>
      let* last := getitem y_list (-1) in
      let* y := Residual.forward m last in
      extend ms' (y_list ++ [y])
  end.

(** The list [y_list] when the loop is over. *)
Definition y_list (self : t) (x : Tensor) : result (list Tensor) :=
  let* y := Conv.forward (conv1 self) x in
  let* halves := chunk y 2 1 in
  extend (res_m self) halves.

(** The tensor [y_out] the list is merged into. *)
Definition y_out (x : Tensor) (y_list : list Tensor) : result Tensor :=
  if existsb is_quantized y_list then
    let dequantized :=
      map (fun t => if is_quantized t then dequantize t else t) y_list in
    let* y_cat := cat dequantized 1 in
    let* scale := if is_quantized x then q_scale x else Ok 1%Q in
    let* zero_point := if is_quantized x then q_zero_point x else Ok 0 in
    quantize_per_tensor y_cat scale zero_point
  else
    cat y_list 1.

Definition forward (self : t) (x : Tensor) : result Tensor :=
  let* ys := y_list self x in
  let* y := y_out x ys in
  Conv.forward (conv2 self) y.

End CSP.

(** *** class SPP *)
Module SPP.

Import torch.

Record t : Type := mk {
  conv1 : Conv.t;
  conv2 : Conv.t;
  res_m : MaxPool2d.t
}.

(** [SPP(in_ch, out_ch, k)]; the source's default is [k=5]. *)
Definition init (in_ch out_ch k : Z) : t :=
  {| conv1 := Conv.init in_ch (in_ch / 2) 1 1;
     conv2 := Conv.init (in_ch * 2) out_ch 1 1;
     res_m := MaxPool2d.init k 1 (k / 2) |}.

Definition forward (self : t) (x : Tensor) : result Tensor :=
  let* x := Conv.forward (conv1 self) x in
  let* y1 := MaxPool2d.forward (res_m self) x in
  let* y2 := MaxPool2d.forward (res_m self) y1 in
  let* y3 := MaxPool2d.forward (res_m self) y2 in
  let* c := cat [x; y1; y2; y3] 1 in
  Conv.forward (conv2 self) c.

End SPP.

(** [torch.nn.Sequential] over the kinds of layer the file puts in one. *)
Module Sequential.

Import torch.

Inductive Layer : Type :=
| LConv (m : Conv.t)
| LCSP (m : CSP.t)
| LSPP (m : SPP.t)
| LConv2d (m : Conv2d.t).

Definition t : Type := list Layer.

Definition apply (l : Layer) (x : Tensor) : result Tensor :=
  match l with
  | LConv m => Conv.forward m x
  | LCSP m => CSP.forward m x
  | LSPP m => SPP.forward m x
  | LConv2d m => Conv2d.forward m x
  end.

Fixpoint forward (self : t) (x : Tensor) : result Tensor :=
  match self with
  | [] => Ok x
  | l :: rest =>
      let* y := apply l x in
      forward rest y
  end.

End Sequential.

(** *** class DarkNet *)
Module DarkNet.

Import torch Sequential.

Record t : Type := mk {
  p1 : Sequential.t;
  p2 : Sequential.t;
  p3 : Sequential.t;
  p4 : Sequential.t;
  p5 : Sequential.t
}.

Definition init (width depth : list Z) : result t :=
  let* w0 := getitem width 0 in
  let* w1 := getitem width 1 in
  let* w2 := getitem width 2 in
  let* d0 := getitem depth 0 in
  let* w3 := getitem width 3 in
  let* d1 := getitem depth 1 in
  let* w4 := getitem width 4 in
  let* d2 := getitem depth 2 in
  let* w5 := getitem width 5 in
  Ok {| p1 := [LConv (Conv.init w0 w1 3 2)];
        p2 := [LConv (Conv.init w1 w2 3 2);
               LCSP (CSP.init w2 w2 d0 true)];
        p3 := [LConv (Conv.init w2 w3 3 2);
               LCSP (CSP.init w3 w3 d1 true)];
        p4 := [LConv (Conv.init w3 w4 3 2);
               LCSP (CSP.init w4 w4 d2 true)];
        p5 := [LConv (Conv.init w4 w5 3 2);
               LCSP (CSP.init w5 w5 d0 true);
               LSPP (SPP.init w5 w5 5)] |}.

Definition forward (self : t) (x : Tensor)
  : result (Tensor * Tensor * Tensor) :=
  let* p1 := Sequential.forward (p1 self) x in
  let* p2 := Sequential.forward (p2 self) p1 in
  let* p3 := Sequential.forward (p3 self) p2 in
  let* p4 := Sequential.forward (p4 self) p3 in
  let* p5 := Sequential.forward (p5 self) p4 in
  Ok (p3, p4, p5).

End DarkNet.

(** *** class DarkFPN *)
Module DarkFPN.

Import torch.

Record t : Type := mk {
  up : Upsample.t;
  h1 : CSP.t;
  h2 : CSP.t;
  h3 : Conv.t;
  h4 : CSP.t;
  h5 : Conv.t;
  h6 : CSP.t
}.

Definition init (width depth : list Z) : result t :=
  let* w4 := getitem width 4 in
  let* w5 := getitem width 5 in
  let* d0 := getitem depth 0 in
  let* w3 := getitem width 3 in
  Ok {| up := Upsample.init 2 Upsample.nearest;
        h1 := CSP.init (w4 + w5) w4 d0 false;
        h2 := CSP.init (w3 + w4) w3 d0 false;
        h3 := Conv.init w3 w3 3 2;
        h4 := CSP.init (w3 + w4) w4 d0 false;
        h5 := Conv.init w4 w4 3 2;
        h6 := CSP.init (w4 + w5) w5 d0 false |}.

Definition forward (self : t) (p3 p4 p5 : Tensor)
  : result (Tensor * Tensor * Tensor) :=
  let* u5 := Upsample.forward (up self) p5 in
  let* c := cat [u5; p4] 1 in
  let* p4 := CSP.forward (h1 self) c in
  let* u4 := Upsample.forward (up self) p4 in
  let* c := cat [u4; p3] 1 in
  let* p3 := CSP.forward (h2 self) c in
  let* d3 := Conv.forward (h3 self) p3 in
  let* c := cat [d3; p4] 1 in
  let* p4 := CSP.forward (h4 self) c in
  let* d4 := Conv.forward (h5 self) p4 in
  let* c := cat [d4; p5] 1 in
  let* p5 := CSP.forward (h6 self) c in
  Ok (p3, p4, p5).

End DarkFPN.

(** *** class Head *)
Module Head.

Import torch Sequential.

Record t : Type := mk {
  nc : Z;
  no : Z;
  stride : list Q;
  box : list Sequential.t;
  cls : list Sequential.t
}.

(** [Head(nc, ch)]; the source's defaults are [nc=80], [ch=()]. *)
Definition init (nc : Z) (ch : list Z) : result t :=
  let* ch0 := getitem ch 0 in
  let box := max2 64 (ch0 / 4) in
  let cls := max3 80 ch0 nc in
  Ok {| nc := nc;
        no := nc + 4;
        stride := repeat 0%Q (length ch);
        box := map (fun x => [LConv (Conv.init x box 3 1);
                              LConv (Conv.init box box 3 1);
                              LConv2d (Conv2d.init box 4 1 1 0 true)]) ch;
        cls := map (fun x => [LConv (Conv.init x cls 3 1);
                              LConv (Conv.init cls cls 3 1);
                              LConv2d (Conv2d.init cls nc 1 1 0 true)]) ch |}.

Definition set_stride (self : t) (s : list Q) : t :=
  {| nc := nc self; no := no self; stride := s;
     box := box self; cls := cls self |}.

(** One scale of the forward pass: [torch.cat((box[i](p), cls[i](p)), 1)]. *)
Definition scale (self : t) (i : Z) (p : Tensor) : result Tensor :=
  let* b := getitem (box self) i in
  let* box_out := Sequential.forward b p in
  let* c := getitem (cls self) i in
  let* cls_out := Sequential.forward c p in
  cat [box_out; cls_out] 1.

Definition forward (self : t) (p3 p4 p5 : Tensor) : result (list Tensor) :=
  let* out0 := scale self 0 p3 in
  let* out1 := scale self 1 p4 in
  let* out2 := scale self 2 p5 in
  Ok [out0; out1; out2].

End Head.

(** *** class YOLO

    The methods of [YOLO] and [QAT] take the object and give it back with
    their result, so that what a call does to the object's attributes is
    part of the embedding.  An attribute that is not assigned yet is
    [None]. *)
Module YOLO.

Import torch.

Record t : Type := mk {
  net : DarkNet.t;
  fpn : DarkFPN.t;
  head : Head.t;
  stride : option (list Q)
}.

(** A pass returns its outputs and the object, whose state is the
    attributes this file assigns: the sub-modules and the stride.  The
    running statistics kept inside the normalization layers are not part
    of it. *)
Definition forward (self : t) (x : Tensor) : result (list Tensor * t) :=
  let* (p3, p4, p5) := DarkNet.forward (net self) x in
  let* (p3, p4, p5) := DarkFPN.forward (fpn self) p3 p4 p5 in
  let* outs := Head.forward (head self) p3 p4 p5 in
  Ok (outs, self).

(** [torch.zeros(1, width[0], 256, 256)] *)
Definition img_dummy (width : list Z) : result Tensor :=
  let* w0 := getitem width 0 in
  Ok (zeros [1; w0; 256; 256]).

(** The object when [__init__] reaches the dummy forward pass. *)
Definition assembled (width depth : list Z) (num_classes : Z) : result t :=
  let* net := DarkNet.init width depth in
  let* fpn := DarkFPN.init width depth in
  let* _ := img_dummy width in
  let* w3 := getitem width 3 in
  let* w4 := getitem width 4 in
  let* w5 := getitem width 5 in
  let* head := Head.init num_classes [w3; w4; w5] in
  Ok {| net := net; fpn := fpn; head := head; stride := None |}.

(** [[256 / x.shape[-2] for x in outs]] *)
Definition strides_of (outs : list Tensor) : result (list Q) :=
  mapM (fun x => let* h := getitem (shape x) (-2) in truediv 256 h) outs.

Definition init (width depth : list Z) (num_classes : Z) : result t :=
  let* self := assembled width depth num_classes in
  let* img := img_dummy width in
  let* (outs, self) := forward self img in
  let* s := strides_of outs in
  let self := {| net := net self; fpn := fpn self;
                 head := Head.set_stride (head self) s;
                 stride := stride self |} in
  Ok {| net := net self; fpn := fpn self; head := head self;
        stride := Some (Head.stride (head self)) |}.

End YOLO.

(** *** class QAT *)
Module QAT.

Import torch.

Record t : Type := mk {
  model : YOLO.t;
  quant : QuantStub.t;
  de_quant : DeQuantStub.t;
  nc : Z;
  no : Z;
  stride : list Q
}.

Definition init (model : YOLO.t) : result t :=
  let* s := match YOLO.stride model with
            | Some s => Ok s
            | None => Raise AttributeError
            end in
  Ok {| model := model;
        quant := QuantStub.init;
        de_quant := DeQuantStub.init;
        nc := Head.nc (YOLO.head model);
        no := Head.no (YOLO.head model);
        stride := s |}.

Definition forward (self : t) (x : Tensor) : result (list Tensor * t) :=
  let* x := QuantStub.forward (quant self) x in
  let* (x, m) := YOLO.forward (model self) x in
  let* ys := mapM (fun f => DeQuantStub.forward (de_quant self) f) x in
  Ok (ys,
      {| model := m; quant := quant self; de_quant := de_quant self;
         nc := nc self; no := no self; stride := stride self |}).

End QAT.

(** *** Factory functions; [num_classes] defaults to 80 in the source. *)

Definition yolo_v8_n (num_classes : Z) : result YOLO.t :=
  let depth := [1; 2; 2] in
  let width := [3; 16; 32; 64; 128; 256] in
  YOLO.init width depth num_classes.

Definition yolo_v8_t (num_classes : Z) : result YOLO.t :=
  let depth := [1; 2; 2] in
  let width := [3; 24; 48; 96; 192; 384] in
  YOLO.init width depth num_classes.

Definition yolo_v8_s (num_classes : Z) : result YOLO.t :=
  let depth := [1; 2; 2] in
  let width := [3; 32; 64; 128; 256; 512] in
  YOLO.init width depth num_classes.

Definition yolo_v8_m (num_classes : Z) : result YOLO.t :=
  let depth := [2; 4; 4] in
  let width := [3; 48; 96; 192; 384; 576] in
  YOLO.init width depth num_classes.

Definition yolo_v8_l (num_classes : Z) : result YOLO.t :=
  let depth := [3; 6; 6] in
  let width := [3; 64; 128; 256; 512; 512] in
  YOLO.init width depth num_classes.

Definition yolo_v8_x (num_classes : Z) : result YOLO.t :=
  let depth := [3; 6; 6] in
  let width := [3; 80; 160; 320; 640; 640] in
  YOLO.init width depth num_classes.

Definition num_classes_default : Z := 80.

(** The six factories with the widths and depths they pass on. *)
Definition factories : list ((Z -> result YOLO.t) * list Z * list Z) :=
  [(yolo_v8_n, [3; 16; 32; 64; 128; 256], [1; 2; 2]);
   (yolo_v8_t, [3; 24; 48; 96; 192; 384], [1; 2; 2]);
   (yolo_v8_s, [3; 32; 64; 128; 256; 512], [1; 2; 2]);
   (yolo_v8_m, [3; 48; 96; 192; 384; 576], [2; 4; 4]);
   (yolo_v8_l, [3; 64; 128; 256; 512; 512], [3; 6; 6]);
   (yolo_v8_x, [3; 80; 160; 320; 640; 640], [3; 6; 6])].

(** ** Observations used in the statements *)

(** Channel count of a 4-dimensional tensor. *)
Definition channels (x : torch.Tensor) : Z := torch.dim_size (torch.shape x) 1.

(** Hidden channel width of a head branch
    [Sequential(Conv(x, c, 3), Conv(c, c, 3), Conv2d(c, out, 1))]: the width
    [c] its first block produces and its last convolution consumes. *)
Definition hidden_width (branch : Sequential.t) : result Z :=
  match branch with
  | [Sequential.LConv a; Sequential.LConv b; Sequential.LConv2d c] =>
      if (Conv2d.out_channels (Conv.conv a) =? Conv2d.in_channels (Conv.conv b))
         && (Conv2d.out_channels (Conv.conv b) =? Conv2d.in_channels c)
         && (Conv2d.out_channels (Conv.conv a) =? Conv2d.in_channels c)
      then Ok (Conv2d.out_channels (Conv.conv a))
      else Raise ValueError
  | _ => Raise ValueError
  end.

(** A real-valued 4-dimensional tensor of the given sizes. *)
Definition real4 (x : torch.Tensor) (N C H W : Z) : Prop :=
  torch.shape x = [N; C; H; W] /\ torch.qparams x = None.

(** [rest] is what a chain of residual units appends to a list that ends
    with [last]: each unit is run on the output of the one before it. *)
Fixpoint chained (ms : list Residual.t) (last : torch.Tensor)
  (rest : list torch.Tensor) : Prop :=
  match ms, rest with
  | [], [] => True
  | m :: ms', y :: rest' =>
      Residual.forward m last = Ok y /\ chained ms' y rest'
  | _, _ => False
  end.

(** The parameters the merged tensor is quantized with: those of the input
    of the group when it is quantized, scale 1.0 and zero point 0 if not. *)
Definition requantize_params (x : torch.Tensor) : torch.QParams :=
  match torch.qparams x with
  | Some p => p
  | None => (1%Q, 0)
  end.

(** The branches [Head.__init__] builds for an input of [x] channels. *)
Definition box_branch (x box : Z) : Sequential.t :=
  [Sequential.LConv (Conv.init x box 3 1);
   Sequential.LConv (Conv.init box box 3 1);
   Sequential.LConv2d (Conv2d.init box 4 1 1 0 true)].

Definition cls_branch (x cls nc : Z) : Sequential.t :=
  [Sequential.LConv (Conv.init x cls 3 1);
   Sequential.LConv (Conv.init cls cls 3 1);
   Sequential.LConv2d (Conv2d.init cls nc 1 1 0 true)].

(** The widths as the specification words them: each scale's hidden widths
    computed from that scale's own input channel count. *)
Definition widths_follow_own_scale (nc : Z) (ch : list Z) : Prop :=
  forall head, Head.init nc ch = Ok head ->
  forall i Ci, getitem ch i = Ok Ci ->
    (exists b, getitem (Head.box head) i = Ok b
               /\ hidden_width b = Ok (max2 64 (Ci / 4)))
    /\ (exists c, getitem (Head.cls head) i = Ok c
                  /\ hidden_width c = Ok (max3 80 Ci nc)).

(** Is [x] a real-valued tensor of shape [s]? *)
Definition real_of_shape (x : torch.Tensor) (s : list Z) : bool :=
  torch.shape_eqb (torch.shape x) s && negb (torch.is_quantized x).

(** The backbone and the pyramid of a configuration, built and run on the
    dummy image: do they return real-valued tensors of the three shapes? *)
Definition trunk_check (width depth s3 s4 s5 : list Z) : bool :=
  match
    (let* net := DarkNet.init width depth in
     let* fpn := DarkFPN.init width depth in
     let* img := YOLO.img_dummy width in
     let* (p3, p4, p5) := DarkNet.forward net img in
     DarkFPN.forward fpn p3 p4 p5)
  with
  | Ok (q3, q4, q5) =>
      real_of_shape q3 s3 && real_of_shape q4 s4 && real_of_shape q5 s5
  | Raise _ => false
  end.

(** The channel counts along a forward pass of the model: after each of
    the five stages of the backbone, after the pyramid, after the head. *)
Definition stage_channels (m : YOLO.t) (x : torch.Tensor)
  : result (list Z * list Z * list Z) :=
  let net := YOLO.net m in
  let* t1 := Sequential.forward (DarkNet.p1 net) x in
  let* t2 := Sequential.forward (DarkNet.p2 net) t1 in
  let* t3 := Sequential.forward (DarkNet.p3 net) t2 in
  let* t4 := Sequential.forward (DarkNet.p4 net) t3 in
  let* t5 := Sequential.forward (DarkNet.p5 net) t4 in
  let* (q3, q4, q5) := DarkFPN.forward (YOLO.fpn m) t3 t4 t5 in
  let* outs := Head.forward (YOLO.head m) q3 q4 q5 in
  Ok (map channels [t1; t2; t3; t4; t5],
      map channels [q3; q4; q5],
      map channels outs).

(** The shapes a forward pass of the model returns. *)
Definition forward_shapes (m : YOLO.t) (x : torch.Tensor)
  : result (list (list Z)) :=
  let* (outs, _) := YOLO.forward m x in
  Ok (map torch.shape outs).

(** The forward pass of the wrapper as the specification words it: apply
    a quantize-entry transform to the input, run the wrapped model, apply
    a dequantize-exit transform independently to every tensor in the
    output list. *)
Definition QAT_forward_spec
  (quantize_entry dequantize_exit : torch.Tensor -> result torch.Tensor)
  (wrapped_model : torch.Tensor -> result (list torch.Tensor))
  (x : torch.Tensor) : result (list torch.Tensor) :=
  let* entered := quantize_entry x in
  let* outs := wrapped_model entered in
  mapM dequantize_exit outs.

(** The output list of a forward pass of the model. *)
Definition YOLO_outputs (m : YOLO.t) (x : torch.Tensor)
  : result (list torch.Tensor) :=
  let* (outs, _) := YOLO.forward m x in
  Ok outs.

(** The stride the constructor derives from one output of the dummy pass:
    256 over the height of the output. *)
Definition stride_of_output (x : torch.Tensor) (q : Q) : Prop :=
  exists h,
    getitem (torch.shape x) (-2) = Ok h
    /\ h <> 0
    /\ q = Qred (inject_Z 256 / inject_Z h).

(** * Properties *)

(** ** Tensor library *)

Section TorchFacts.

Import torch.

Lemma bind_ok {A B : Type} (m : result A) (k : A -> result B) (b : B) :
  bind m k = Ok b -> exists a, m = Ok a /\ k a = Ok b.
Proof.
  destruct m as [a|e]; cbn; intros H; [eauto | discriminate].
Qed.

Lemma getitem_nth {A : Type} (l : list A) (i : Z) (a : A) :
  0 <= i -> nth_error l (Z.to_nat i) = Some a -> getitem l i = Ok a.
Proof.
  intros Hi H. unfold getitem. cbv zeta.
  assert (Hlt : (Z.to_nat i < length l)%nat)
    by (apply nth_error_Some; congruence).
  destruct (i <? 0) eqn:E1; [apply Z.ltb_lt in E1; lia|].
  destruct (Z.of_nat (length l) <=? i) eqn:E2; [apply Z.leb_le in E2; lia|].
  rewrite ?E1, ?E2; cbn. now rewrite H.
Qed.

Lemma broadcast_rev_refl (l : list Z) : broadcast_rev l l = Ok l.
Proof.
  induction l as [|x l IH]; cbn; [reflexivity|].
  rewrite IH; cbn. now rewrite Z.eqb_refl.
Qed.

Lemma broadcast_shapes_refl (s : list Z) : broadcast_shapes s s = Ok s.
Proof.
  unfold broadcast_shapes. rewrite broadcast_rev_refl; cbn.
  now rewrite rev_involutive.
Qed.

Lemma is_quantized_false (x : Tensor) :
  is_quantized x = false <-> qparams x = None.
Proof.
  unfold is_quantized. destruct (qparams x); split; congruence.
Qed.

Lemma dequantize_real (x : Tensor) : is_quantized (dequantize x) = false.
Proof.
  unfold dequantize, is_quantized.
  destruct (qparams x) eqn:E; cbn; [reflexivity | now rewrite E].
Qed.

Lemma dequantize_guarded (x : Tensor) :
  (if is_quantized x then dequantize x else x) = dequantize x.
Proof.
  unfold dequantize, is_quantized. now destruct (qparams x).
Qed.

Lemma quantize_per_tensor_qparams (x y : Tensor) (s : Q) (z : Z) :
  quantize_per_tensor x s z = Ok y -> qparams y = Some (s, z).
Proof.
  unfold quantize_per_tensor.
  destruct (is_quantized x); [discriminate|].
  destruct ((z <? 0) || (255 <? z)); [discriminate|].
  intros H; injection H as <-; reflexivity.
Qed.

End TorchFacts.

(** Reads of a list at a constant index inside its known prefix. *)
Ltac getitems :=
  repeat (erewrite getitem_nth by (first [lia | reflexivity]));
  cbn [bind].

(** ** SiLU *)

Section SiLUFacts.

Import torch.

Lemma SiLU_forward_cases (self : SiLU.t) (x : Tensor) :
  SiLU.forward self x =
  match qparams x with
  | None =>
      Ok {| shape := shape x; qparams := None;
            data := MulOp (ReluOp (data x)) (SigmoidOp (data x)) |}
  | Some (scale, zero_point) =>
      Ok {| shape := shape x; qparams := Some (scale, zero_point);
            data := QuantizedMulOp (data x) (SigmoidOp (data x))
                      scale zero_point |}
  end.
Proof.
  unfold SiLU.forward, is_quantized, q_scale, q_zero_point.
  destruct (qparams x) as [[s z]|] eqn:E; cbn.
  - unfold quantized_mul, is_quantized; cbn. rewrite E; cbn.
    now rewrite broadcast_shapes_refl.
  - unfold mul, is_quantized; cbn. rewrite E; cbn.
    now rewrite broadcast_shapes_refl.
Qed.

(** C6.  On a real-valued tensor the activation gate returns the product of
    the rectified operand and its sigmoid, a real-valued tensor of the same
    shape.  On a quantized tensor it returns the quantized product of the
    operand and its sigmoid, and the scale and zero point of the result are
    those of the operand. *)
Theorem SiLU_forward_gate (self : SiLU.t) (x : Tensor) :
  SiLU.forward self x =
  match qparams x with
  | None =>
      Ok {| shape := shape x; qparams := None;
            data := MulOp (ReluOp (data x)) (SigmoidOp (data x)) |}
  | Some (scale, zero_point) =>
      Ok {| shape := shape x; qparams := Some (scale, zero_point);
            data := QuantizedMulOp (data x) (SigmoidOp (data x))
                      scale zero_point |}
  end.
Proof. exact (SiLU_forward_cases self x). Qed.

End SiLUFacts.

(** ** CSP: the merge of the branch list *)

Section CSPMerge.

Import torch.

Lemma y_out_quantized (x : Tensor) (ys : list Tensor) :
  existsb is_quantized ys = true ->
  CSP.y_out x ys =
  (let* y_cat := cat (map dequantize ys) 1 in
   quantize_per_tensor y_cat (fst (requantize_params x))
     (snd (requantize_params x))).
Proof.
  intros H. unfold CSP.y_out. rewrite H.
  rewrite (map_ext _ dequantize) by apply dequantize_guarded.
  destruct (cat (map dequantize ys) 1) as [c|e]; cbn; [|reflexivity].
  unfold requantize_params, is_quantized, q_scale, q_zero_point.
  now destruct (qparams x) as [[s z]|].
Qed.

(** C5.  The forward pass of the group merges the branch list and projects
    the merged tensor.  When a member of the list is quantized, every
    member is dequantized (so all are real-valued), the dequantized members
    are concatenated along the channels, and the concatenation is quantized
    with the scale and zero point of the input of the group, or with 1.0
    and 0 when that input is real-valued.  When no member is quantized the
    list is concatenated as it is. *)
Theorem CSP_forward_mixed_precision (self : CSP.t) (x : Tensor) :
  CSP.forward self x =
    (let* ys := CSP.y_list self x in
     let* y := CSP.y_out x ys in
     Conv.forward (CSP.conv2 self) y)
  /\ forall ys : list Tensor,
       (existsb is_quantized ys = true ->
          Forall (fun t => is_quantized t = false) (map dequantize ys)
          /\ CSP.y_out x ys =
             (let* y_cat := cat (map dequantize ys) 1 in
              quantize_per_tensor y_cat (fst (requantize_params x))
                (snd (requantize_params x)))
          /\ forall y, CSP.y_out x ys = Ok y ->
               qparams y = Some (requantize_params x)
               /\ data y =
                  QuantizePerTensorOp
                    (CatOp (map data (map dequantize ys)) 1)
                    (fst (requantize_params x)) (snd (requantize_params x)))
       /\ (existsb is_quantized ys = false -> CSP.y_out x ys = cat ys 1).
Proof.
  split; [reflexivity|]. intros ys. split.
  - intros H. split; [|split].
    + apply Forall_forall. intros t Ht. apply in_map_iff in Ht.
      destruct Ht as [u [<- _]]. apply dequantize_real.
    + now apply y_out_quantized.
    + intros y Hy. rewrite (y_out_quantized x ys H) in Hy.
      apply bind_ok in Hy. destruct Hy as [c [Hc Hq]].
      split.
      * apply quantize_per_tensor_qparams in Hq.
        now rewrite Hq, <- surjective_pairing.
      * unfold quantize_per_tensor in Hq.
        destruct (is_quantized c); [discriminate|].
        destruct (_ || _); [discriminate|].
        injection Hq as <-; cbn. f_equal.
        unfold cat in Hc. destruct (map dequantize ys) as [|t r]; [discriminate|].
        destruct (_ <=? _)%nat; [discriminate|].
        destruct (forallb _ _); [|discriminate].
        injection Hc as <-; reflexivity.
  - intros H. unfold CSP.y_out. now rewrite H.
Qed.

(** A quantized input and a list with one real-valued and one quantized
    member: the merged tensor carries the parameters of the input.  A
    real-valued list is concatenated directly. *)
Lemma CSP_forward_mixed_precision_witness :
  let x := mkTensor [1; 8; 4; 4] (Some ((1 # 2)%Q, 3)) (Input "x") in
  let a := mkTensor [1; 4; 4; 4] None (Input "a") in
  let b := mkTensor [1; 4; 4; 4] (Some ((1 # 4)%Q, 7)) (Input "b") in
  (exists y, CSP.y_out x [a; b] = Ok y
             /\ shape y = [1; 8; 4; 4] /\ qparams y = Some ((1 # 2)%Q, 3))
  /\ (exists y, CSP.y_out a [a; b] = Ok y
                /\ shape y = [1; 8; 4; 4] /\ qparams y = Some (1%Q, 0))
  /\ (exists y, CSP.y_out x [a; a] = Ok y
                /\ shape y = [1; 8; 4; 4] /\ qparams y = None).
Proof.
  intros x a b.
  pose (self := CSP.init 8 8 1 true).
  destruct (CSP_forward_mixed_precision self x) as [_ Hx].
  destruct (CSP_forward_mixed_precision self a) as [_ Ha].
  split; [|split].
  - destruct (Hx [a; b]) as [Hq _]. destruct (Hq eq_refl) as [_ [E _]].
    rewrite E. eexists. split; [reflexivity | split; reflexivity].
  - destruct (Ha [a; b]) as [Hq _]. destruct (Hq eq_refl) as [_ [E _]].
    rewrite E. eexists. split; [reflexivity | split; reflexivity].
  - destruct (Hx [a; a]) as [_ Hr]. rewrite (Hr eq_refl).
    eexists. split; [reflexivity | split; reflexivity].
Defined.

End CSPMerge.

(** ** Head: the widths of the branches *)

Section HeadWidths.

Import torch Sequential.

(** With 80 classes and the inputs of the smallest variant, the class
    branch of the second scale is 80 channels wide, not
    max(80, 128, 80) = 128. *)
Lemma widths_follow_own_scale_fails :
  ~ widths_follow_own_scale 80 [64; 128; 256].
Proof.
  intros H.
  destruct (H _ eq_refl 1 128 eq_refl) as [_ [c [Hc Hw]]].
  cbv in Hc. injection Hc as <-. cbv in Hw. discriminate.
Qed.

Lemma hidden_width_box (x box : Z) : hidden_width (box_branch x box) = Ok box.
Proof. cbn. now rewrite Z.eqb_refl. Qed.

Lemma hidden_width_cls (x cls nc : Z) :
  hidden_width (cls_branch x cls nc) = Ok cls.
Proof. cbn. now rewrite Z.eqb_refl. Qed.

(** C1 (amended).  For every class count and every non-empty tuple of input
    channel widths, the head is built; the branches of scale [i] take that
    scale's channels as input, and the hidden width is the same at every
    scale: max(64, C0 / 4) in every box branch and max(80, C0, num_classes)
    in every class branch, where C0 is the input width of the first
    scale. *)
Theorem Head_init_widths (num_classes C0 : Z) (rest : list Z) :
  let box := max2 64 (C0 / 4) in
  let cls := max3 80 C0 num_classes in
  exists head,
    Head.init num_classes (C0 :: rest) = Ok head
    /\ Head.box head = map (fun Ci => box_branch Ci box) (C0 :: rest)
    /\ Head.cls head =
       map (fun Ci => cls_branch Ci cls num_classes) (C0 :: rest)
    /\ Forall (fun b => hidden_width b = Ok box) (Head.box head)
    /\ Forall (fun c => hidden_width c = Ok cls) (Head.cls head).
Proof.
  intros box cls. unfold Head.init. getitems.
  eexists. split; [reflexivity|].
  split; [reflexivity|]. split; [reflexivity|].
  split; apply Forall_forall; intros b Hb; cbn [Head.box Head.cls] in Hb.
  - change (In b (map (fun Ci => box_branch Ci box) (C0 :: rest))) in Hb.
    apply in_map_iff in Hb. destruct Hb as [Ci [<- _]].
    apply hidden_width_box.
  - change (In b (map (fun Ci => cls_branch Ci cls num_classes) (C0 :: rest)))
      in Hb.
    apply in_map_iff in Hb. destruct Hb as [Ci [<- _]].
    apply hidden_width_cls.
Qed.

End HeadWidths.

(** ** DarkNet and DarkFPN: the repetition counts *)

Section Depths.

Import torch Sequential.

(** C7.  For every width list of at least six entries and depth list of at
    least three, the backbone is built with the group of p2 and the group
    of p5 both repeated [depth[0]] times, the group of p3 [depth[1]] times
    and the group of p4 [depth[2]] times; a forward pass that returns gives
    the outputs of the stages p3, p4 and p5, in that order. *)
Theorem DarkNet_depths (w0 w1 w2 w3 w4 w5 d0 d1 d2 : Z) (ws ds : list Z) :
  exists net,
    DarkNet.init (w0 :: w1 :: w2 :: w3 :: w4 :: w5 :: ws)
                 (d0 :: d1 :: d2 :: ds) = Ok net
    /\ DarkNet.p2 net = [LConv (Conv.init w1 w2 3 2);
                         LCSP (CSP.init w2 w2 d0 true)]
    /\ DarkNet.p3 net = [LConv (Conv.init w2 w3 3 2);
                         LCSP (CSP.init w3 w3 d1 true)]
    /\ DarkNet.p4 net = [LConv (Conv.init w3 w4 3 2);
                         LCSP (CSP.init w4 w4 d2 true)]
    /\ DarkNet.p5 net = [LConv (Conv.init w4 w5 3 2);
                         LCSP (CSP.init w5 w5 d0 true);
                         LSPP (SPP.init w5 w5 5)]
    /\ length (CSP.res_m (CSP.init w2 w2 d0 true)) = Z.to_nat d0
    /\ length (CSP.res_m (CSP.init w5 w5 d0 true)) = Z.to_nat d0
    /\ length (CSP.res_m (CSP.init w3 w3 d1 true)) = Z.to_nat d1
    /\ length (CSP.res_m (CSP.init w4 w4 d2 true)) = Z.to_nat d2
    /\ forall x r,
         DarkNet.forward net x = Ok r <->
         exists t1 t2 t3 t4 t5,
           Sequential.forward (DarkNet.p1 net) x = Ok t1
           /\ Sequential.forward (DarkNet.p2 net) t1 = Ok t2
           /\ Sequential.forward (DarkNet.p3 net) t2 = Ok t3
           /\ Sequential.forward (DarkNet.p4 net) t3 = Ok t4
           /\ Sequential.forward (DarkNet.p5 net) t4 = Ok t5
           /\ r = (t3, t4, t5).
Proof.
  unfold DarkNet.init. getitems.
  eexists. split; [reflexivity|].
  repeat (split; [reflexivity|]).
  repeat (split; [apply repeat_length|]).
  intros x r. unfold DarkNet.forward.
  cbn [DarkNet.p1 DarkNet.p2 DarkNet.p3 DarkNet.p4 DarkNet.p5].
  split.
  - intros H.
    apply bind_ok in H; destruct H as [t1 [H1 H]].
    apply bind_ok in H; destruct H as [t2 [H2 H]].
    apply bind_ok in H; destruct H as [t3 [H3 H]].
    apply bind_ok in H; destruct H as [t4 [H4 H]].
    apply bind_ok in H; destruct H as [t5 [H5 H]].
    injection H as <-. exists t1, t2, t3, t4, t5. tauto.
  - intros [t1 [t2 [t3 [t4 [t5 [H1 [H2 [H3 [H4 [H5 ->]]]]]]]]]].
    unfold bind at 1. rewrite H1.
    unfold bind at 1. rewrite H2.
    unfold bind at 1. rewrite H3.
    unfold bind at 1. rewrite H4.
    unfold bind at 1. rewrite H5. reflexivity.
Qed.

(** C10.  For every width list of at least six entries and non-empty depth
    list, the four groups of the pyramid are all built with repetition
    count [depth[0]]; the pyramid built is the same whatever the entries of
    the depth list after the first, for every width list. *)
Theorem DarkFPN_depths (w0 w1 w2 w3 w4 w5 d0 : Z) (ws ds : list Z) :
  (exists fpn,
     DarkFPN.init (w0 :: w1 :: w2 :: w3 :: w4 :: w5 :: ws) (d0 :: ds) = Ok fpn
     /\ DarkFPN.h1 fpn = CSP.init (w4 + w5) w4 d0 false
     /\ DarkFPN.h2 fpn = CSP.init (w3 + w4) w3 d0 false
     /\ DarkFPN.h4 fpn = CSP.init (w3 + w4) w4 d0 false
     /\ DarkFPN.h6 fpn = CSP.init (w4 + w5) w5 d0 false
     /\ Forall (fun g => length (CSP.res_m g) = Z.to_nat d0)
          [DarkFPN.h1 fpn; DarkFPN.h2 fpn; DarkFPN.h4 fpn; DarkFPN.h6 fpn])
  /\ forall (width ds' : list Z),
       DarkFPN.init width (d0 :: ds) = DarkFPN.init width (d0 :: ds').
Proof.
  split.
  - unfold DarkFPN.init. getitems.
    eexists. split; [reflexivity|].
    repeat (split; [reflexivity|]).
    repeat constructor; apply repeat_length.
  - intros width ds'. unfold DarkFPN.init.
    destruct (getitem width 4); [cbn [bind]|reflexivity].
    destruct (getitem width 5); [cbn [bind]|reflexivity].
    now getitems.
Qed.

End Depths.

(** ** Shapes through the blocks *)

Section Shapes.

Import torch.

Lemma Conv2d_forward_real4 (self : Conv2d.t) (x : Tensor) (N H W : Z) :
  real4 x N (Conv2d.in_channels self) H W ->
  1 <= Conv2d.out_channels self ->
  1 <= Conv2d.kernel_size self ->
  0 <= Conv2d.padding self ->
  0 < Conv2d.stride self ->
  Conv2d.kernel_size self <= H + 2 * Conv2d.padding self ->
  Conv2d.kernel_size self <= W + 2 * Conv2d.padding self ->
  exists y,
    Conv2d.forward self x = Ok y
    /\ real4 y N (Conv2d.out_channels self)
         (Conv2d.out_size H (Conv2d.kernel_size self) (Conv2d.stride self)
            (Conv2d.padding self))
         (Conv2d.out_size W (Conv2d.kernel_size self) (Conv2d.stride self)
            (Conv2d.padding self)).
Proof.
  intros [Hs Hq] Ho Hk Hp Hst Hh Hw.
  unfold Conv2d.forward, is_quantized. rewrite Hq, Hs.
  unfold Conv2d.out_shape. rewrite Z.eqb_refl; cbn [negb].
  destruct (Conv2d.out_channels self <? 1) eqn:C1;
    [apply Z.ltb_lt in C1; lia|].
  destruct (Conv2d.kernel_size self <? 1) eqn:C2;
    [apply Z.ltb_lt in C2; lia|].
  destruct (Conv2d.padding self <? 0) eqn:C3;
    [apply Z.ltb_lt in C3; lia|].
  cbn [orb].
  destruct (Conv2d.stride self <=? 0) eqn:E1; [apply Z.leb_le in E1; lia|].
  destruct (H + 2 * Conv2d.padding self <? Conv2d.kernel_size self) eqn:E2;
    [apply Z.ltb_lt in E2; lia|].
  destruct (W + 2 * Conv2d.padding self <? Conv2d.kernel_size self) eqn:E3;
    [apply Z.ltb_lt in E3; lia|].
  cbn. eexists. split; [reflexivity|]. split; reflexivity.
Qed.

Lemma BatchNorm2d_forward_real4 (self : BatchNorm2d.t) (x : Tensor)
  (N H W : Z) :
  real4 x N (BatchNorm2d.num_features self) H W ->
  N * H * W <> 1 ->
  exists y,
    BatchNorm2d.forward self x = Ok y
    /\ real4 y N (BatchNorm2d.num_features self) H W.
Proof.
  intros [Hs Hq] Hn.
  unfold BatchNorm2d.forward, is_quantized. rewrite Hq, Hs.
  rewrite Z.eqb_refl; cbn [negb].
  destruct (N * H * W =? 1) eqn:E; [apply Z.eqb_eq in E; lia|].
  rewrite andb_false_r.
  eexists. split; [reflexivity|]. split; reflexivity.
Qed.

Lemma SiLU_forward_real4 (self : SiLU.t) (x : Tensor) (N C H W : Z) :
  real4 x N C H W ->
  exists y, SiLU.forward self x = Ok y /\ real4 y N C H W.
Proof.
  intros [Hs Hq]. rewrite SiLU_forward_cases, Hq.
  eexists. split; [reflexivity|]. split; [exact Hs | reflexivity].
Qed.

Lemma Conv_forward_real4 (in_ch out_ch k s : Z) (x : Tensor) (N H W : Z) :
  let p := (k - 1) / 2 in
  real4 x N in_ch H W ->
  0 < out_ch ->
  0 < k ->
  0 < s ->
  k <= H + 2 * p ->
  k <= W + 2 * p ->
  N * Conv2d.out_size H k s p * Conv2d.out_size W k s p <> 1 ->
  exists y,
    Conv.forward (Conv.init in_ch out_ch k s) x = Ok y
    /\ real4 y N out_ch (Conv2d.out_size H k s p) (Conv2d.out_size W k s p).
Proof.
  intros p Hx Ho Hk Hs Hh Hw Hn. unfold Conv.forward, Conv.init.
  cbn [Conv.conv Conv.norm Conv.relu].
  assert (Hp : 0 <= p) by (apply Z.div_pos; lia).
  destruct (Conv2d_forward_real4 (Conv2d.init in_ch out_ch k s p false)
              x N H W Hx) as [y1 [E1 R1]];
    cbn [Conv2d.init Conv2d.out_channels Conv2d.kernel_size Conv2d.stride
         Conv2d.padding]; try assumption; try lia.
  fold p. rewrite E1; cbn [bind].
  cbn [Conv2d.init Conv2d.out_channels Conv2d.kernel_size Conv2d.stride
       Conv2d.padding] in R1.
  destruct (BatchNorm2d_forward_real4
              (BatchNorm2d.init out_ch (1 # 1000)%Q (3 # 100)%Q) y1 N _ _
              R1 Hn) as [y2 [E2 R2]].
  rewrite E2; cbn [bind].
  exact (SiLU_forward_real4 SiLU.init y2 N _ _ _ R2).
Qed.

(** A block of kernel 1 or 3 and stride 1 keeps the spatial size. *)
Lemma Conv_forward_same (in_ch out_ch k : Z) (x : Tensor) (N H W : Z) :
  k = 1 \/ k = 3 ->
  0 < out_ch ->
  real4 x N in_ch H W ->
  1 <= H -> 1 <= W -> N * H * W <> 1 ->
  exists y,
    Conv.forward (Conv.init in_ch out_ch k 1) x = Ok y
    /\ real4 y N out_ch H W.
Proof.
  intros Hk Hout Hx Hh Hw Hn.
  assert (Ho : forall h, Conv2d.out_size h k 1 ((k - 1) / 2) = h).
  { intros h. unfold Conv2d.out_size.
    destruct Hk as [-> | ->]; cbn; rewrite Z.div_1_r; lia. }
  assert (Hp : 2 * ((k - 1) / 2) = k - 1)
    by (destruct Hk as [-> | ->]; reflexivity).
  destruct (Conv_forward_real4 in_ch out_ch k 1 x N H W) as [y [E R]];
    try assumption; try lia.
  - rewrite !Ho. exact Hn.
  - rewrite !Ho in R. eauto.
Qed.

Lemma Residual_forward_real4 (ch : Z) (add : bool) (x : Tensor) (N H W : Z) :
  0 < ch ->
  real4 x N ch H W ->
  1 <= H -> 1 <= W -> N * H * W <> 1 ->
  exists y,
    Residual.forward (Residual.init ch add) x = Ok y /\ real4 y N ch H W.
Proof.
  intros Hch Hx Hh Hw Hn. unfold Residual.forward, Residual.init.
  cbn [Residual.conv1 Residual.conv2 Residual.add_m].
  destruct (Conv_forward_same ch ch 3 x N H W) as [y1 [E1 R1]];
    auto.
  rewrite E1; cbn [bind].
  destruct (Conv_forward_same ch ch 3 y1 N H W) as [y2 [E2 R2]];
    auto.
  rewrite E2; cbn [bind].
  destruct add; [|eauto].
  destruct Hx as [Hs Hq], R2 as [Hs2 Hq2].
  unfold is_quantized, torch.add, is_quantized. rewrite Hq, Hq2; cbn.
  rewrite Hs, Hs2, broadcast_shapes_refl; cbn.
  eexists. split; [reflexivity|]. split; reflexivity.
Qed.

Lemma chunk_sizes_even (C : Z) :
  Z.even C = true -> 0 < C -> chunk_sizes C 2 = [C / 2; C / 2].
Proof.
  intros He Hc. apply Z.even_spec in He. destruct He as [h ->].
  unfold chunk_sizes.
  destruct (2 * h =? 0) eqn:E; [apply Z.eqb_eq in E; lia|].
  assert (E1 : (2 * h + 2 - 1) / 2 = h)
    by (symmetry; apply Z.div_unique with (r := 1); lia).
  assert (E2 : (2 * h + h - 1) / h = 2)
    by (symmetry; apply Z.div_unique with (r := h - 1); lia).
  assert (E3 : 2 * h / 2 = h)
    by (symmetry; apply Z.div_unique with (r := 0); lia).
  cbv zeta. rewrite E1, E2, E3.
  change (Z.to_nat 2) with 2%nat. cbn [seq map].
  f_equal; [|f_equal]; lia.
Qed.

Lemma chunk_real4 (y : Tensor) (N C H W : Z) :
  real4 y N C H W -> Z.even C = true -> 0 < C ->
  exists a b,
    chunk y 2 1 = Ok [a; b]
    /\ real4 a N (C / 2) H W /\ real4 b N (C / 2) H W.
Proof.
  intros [Hs Hq] He Hc. unfold chunk. rewrite Hs, Hq.
  cbn [Z.leb Z.compare length Nat.leb dim_size nth].
  rewrite (chunk_sizes_even C He Hc).
  cbn [length seq combine map set_dim].
  do 2 eexists. split; [reflexivity|]. split; split; reflexivity.
Qed.

Lemma getitem_last {A : Type} (l : list A) (a : A) :
  getitem (l ++ [a]) (-1) = Ok a.
Proof.
  unfold getitem. cbv zeta. rewrite length_app. cbn [length Z.ltb Z.compare].
  replace (-1 + Z.of_nat (length l + 1)) with (Z.of_nat (length l)) by lia.
  destruct (Z.of_nat (length l) <? 0) eqn:E1; [apply Z.ltb_lt in E1; lia|].
  destruct (Z.of_nat (length l + 1) <=? Z.of_nat (length l)) eqn:E2;
    [apply Z.leb_le in E2; lia|].
  cbn [orb]. rewrite Nat2Z.id, nth_error_app2, Nat.sub_diag by lia.
  reflexivity.
Qed.

Lemma extend_chain (ch : Z) (add : bool) (N H W : Z) :
  0 < ch -> 1 <= H -> 1 <= W -> N * H * W <> 1 ->
  forall (k : nat) (l : list Tensor) (a : Tensor),
    real4 a N ch H W ->
    exists rest,
      CSP.extend (repeat (Residual.init ch add) k) (l ++ [a])
      = Ok ((l ++ [a]) ++ rest)
      /\ chained (repeat (Residual.init ch add) k) a rest
      /\ length rest = k
      /\ Forall (fun t => real4 t N ch H W) rest.
Proof.
  intros Hch Hh Hw Hn. induction k as [|k IH]; intros l a Ha.
  - exists []. cbn. rewrite app_nil_r. auto.
  - cbn [repeat CSP.extend]. rewrite getitem_last; cbn [bind].
    destruct (Residual_forward_real4 ch add a N H W Hch Ha Hh Hw Hn)
      as [y [Ey Ry]].
    rewrite Ey; cbn [bind].
    destruct (IH (l ++ [a]) y Ry) as [rest [E [Hc [Hl Hf]]]].
    exists (y :: rest). rewrite E. split; [|split; [|split]].
    + now rewrite <- app_assoc.
    + cbn. split; assumption.
    + cbn. now rewrite Hl.
    + constructor; assumption.
Qed.

Lemma dims_of_real4 (ts : list Tensor) (cs : list Z) (N H W : Z) :
  Forall2 (fun t c => real4 t N c H W) ts cs ->
  map (fun u => dim_size (shape u) 1) ts = cs.
Proof.
  induction 1 as [|t c ts cs [Hs _] _ IH]; [reflexivity|].
  cbn [map]. rewrite Hs, IH. reflexivity.
Qed.

(** Concatenation along the channels of real-valued tensors that agree in
    the other three sizes adds the channel counts up. *)
Lemma cat_real4 (ts : list Tensor) (cs : list Z) (N H W : Z) :
  Forall2 (fun t c => real4 t N c H W) ts cs ->
  ts <> [] ->
  exists y,
    cat ts 1 = Ok y
    /\ real4 y N (fold_right Z.add 0 cs) H W
    /\ data y = CatOp (map data ts) 1.
Proof.
  intros HF Hne. pose proof (dims_of_real4 ts cs N H W HF) as Hd.
  destruct HF as [|t c rest cs' [Hs Hq] HF]; [contradiction|].
  unfold cat. rewrite Hs. cbn [length Nat.leb].
  assert (Hc : forallb (cat_compatible 1 t) rest = true).
  { apply forallb_forall. intros u Hu.
    clear Hd. induction HF as [|v d rest cs' [Hsv Hqv] HF IH];
      [contradiction|].
    destruct Hu as [<- | Hu]; [|now apply IH].
    unfold cat_compatible, is_quantized. rewrite Hs, Hq, Hsv, Hqv.
    cbn. now rewrite !Z.eqb_refl. }
  rewrite Hc, Hd. eexists. split; [reflexivity|].
  split; [split; [reflexivity | exact Hq] | reflexivity].
Qed.

Lemma sum_repeat (c : Z) (k : nat) :
  fold_right Z.add 0 (repeat c k) = Z.of_nat k * c.
Proof.
  induction k as [|k IH]; [reflexivity|].
  cbn [repeat fold_right]. rewrite IH. lia.
Qed.

Lemma Forall2_repeat (ts : list Tensor) (c N H W : Z) :
  Forall (fun t => real4 t N c H W) ts ->
  Forall2 (fun t c' => real4 t N c' H W) ts (repeat c (length ts)).
Proof.
  induction 1; cbn; constructor; assumption.
Qed.

Lemma existsb_real (ts : list Tensor) (N c H W : Z) :
  Forall (fun t => real4 t N c H W) ts -> existsb is_quantized ts = false.
Proof.
  induction 1 as [|t ts [_ Hq] _ IH]; [reflexivity|].
  cbn. unfold is_quantized at 1. now rewrite Hq.
Qed.

End Shapes.

(** ** CSP: the width of the concatenation *)

Section CSPWidth.

Import torch.

Lemma half_of_even_product (n out_ch : Z) :
  Z.even out_ch = true -> (2 + n) * out_ch / 2 = (2 + n) * (out_ch / 2).
Proof.
  intros He. apply Z.even_spec in He. destruct He as [h ->].
  replace (2 * h / 2) with h
    by (apply Z.div_unique with (r := 0); lia).
  symmetry. apply Z.div_unique with (r := 0); lia.
Qed.

Lemma half_of_even_positive (out_ch : Z) :
  Z.even out_ch = true -> 0 < out_ch -> 0 < out_ch / 2.
Proof.
  intros He Hc. apply Z.even_spec in He. destruct He as [h ->].
  replace (2 * h / 2) with h
    by (apply Z.div_unique with (r := 0); lia).
  lia.
Qed.

(** C4.  For every group built with positive [in_ch], an even positive
    [out_ch] and a depth [n >= 0], on a real-valued input of [in_ch]
    channels: the first block gives [out_ch] channels, which are split
    into two halves of [out_ch / 2]; the [n] residual units are chained
    from the second half, each appending its output; the list has [2 + n]
    tensors of [out_ch / 2] channels each; its concatenation has
    [(2 + n) * out_ch / 2] channels, the input channel count of the final
    projection block; and the forward pass is that projection block run
    on that concatenation, returning [out_ch] channels. *)
Theorem CSP_concat_width (in_ch out_ch n : Z) (add : bool) (x : Tensor)
  (N H W : Z) :
  0 < in_ch -> Z.even out_ch = true -> 0 < out_ch -> 0 <= n ->
  real4 x N in_ch H W -> 1 <= H -> 1 <= W -> N * H * W <> 1 ->
  let self := CSP.init in_ch out_ch n add in
  exists y0 a b rest y_cat y,
    Conv.forward (CSP.conv1 self) x = Ok y0
    /\ channels y0 = out_ch
    /\ chunk y0 2 1 = Ok [a; b]
    /\ length (CSP.res_m self) = Z.to_nat n
    /\ chained (CSP.res_m self) b rest
    /\ CSP.y_list self x = Ok (a :: b :: rest)
    /\ Z.of_nat (length (a :: b :: rest)) = 2 + n
    /\ Forall (fun t => real4 t N (out_ch / 2) H W) (a :: b :: rest)
    /\ CSP.y_out x (a :: b :: rest) = Ok y_cat
    /\ cat (a :: b :: rest) 1 = Ok y_cat
    /\ data y_cat = CatOp (map data (a :: b :: rest)) 1
    /\ real4 y_cat N ((2 + n) * out_ch / 2) H W
    /\ channels y_cat = (2 + n) * (out_ch / 2)
    /\ channels y_cat = Conv2d.in_channels (Conv.conv (CSP.conv2 self))
    /\ CSP.forward self x = Conv.forward (CSP.conv2 self) y_cat
    /\ CSP.forward self x = Ok y
    /\ real4 y N out_ch H W.
Proof.
  intros Hin He Hc Hn0 Hx Hh Hw Hn self.
  pose proof (half_of_even_positive out_ch He Hc) as Hhalf.
  destruct (Conv_forward_same in_ch out_ch 1 x N H W) as [y0 [E0 R0]]; auto.
  destruct (chunk_real4 y0 N out_ch H W R0 He Hc) as [a [b [Ech [Ra Rb]]]].
  destruct (extend_chain (out_ch / 2) add N H W Hhalf Hh Hw Hn (Z.to_nat n)
              [a] b Rb)
    as [rest [Eext [Hchain [Hlen Hall]]]].
  assert (Hys : Forall (fun t => real4 t N (out_ch / 2) H W) (a :: b :: rest))
    by (constructor; [exact Ra | constructor; [exact Rb | exact Hall]]).
  assert (Hlist : CSP.y_list self x = Ok (a :: b :: rest)).
  { unfold CSP.y_list, self, CSP.init. cbn [CSP.conv1 CSP.res_m].
    rewrite E0; cbn [bind]. rewrite Ech; cbn [bind]. exact Eext. }
  assert (Hcount : Z.of_nat (length (a :: b :: rest)) = 2 + n)
    by (cbn [length]; rewrite Hlen; lia).
  destruct (cat_real4 (a :: b :: rest)
              (repeat (out_ch / 2) (length (a :: b :: rest))) N H W)
    as [y_cat [Ecat [Rcat Dcat]]];
    [now apply Forall2_repeat | discriminate |].
  rewrite sum_repeat, Hcount, <- half_of_even_product in Rcat by assumption.
  assert (Hout : CSP.y_out x (a :: b :: rest) = Ok y_cat).
  { unfold CSP.y_out. now rewrite (existsb_real _ _ _ _ _ Hys). }
  destruct (Conv_forward_same ((2 + n) * out_ch / 2) out_ch 1 y_cat N H W)
    as [y [Ey Ry]]; auto.
  assert (Hfw : CSP.forward self x = Conv.forward (CSP.conv2 self) y_cat).
  { unfold CSP.forward. rewrite Hlist; cbn [bind]. now rewrite Hout. }
  exists y0, a, b, rest, y_cat, y.
  split; [exact E0|].
  split; [unfold channels; destruct R0 as [-> _]; reflexivity|].
  split; [exact Ech|].
  split; [apply repeat_length|].
  split; [exact Hchain|].
  split; [exact Hlist|].
  split; [exact Hcount|].
  split; [exact Hys|].
  split; [exact Hout|].
  split; [exact Ecat|].
  split; [exact Dcat|].
  split; [exact Rcat|].
  split; [unfold channels; destruct Rcat as [-> _]; cbn;
          now apply half_of_even_product|].
  split; [unfold channels; destruct Rcat as [-> _]; reflexivity|].
  split; [exact Hfw|].
  split; [|exact Ry].
  rewrite Hfw. exact Ey.
Qed.

(** A group of 64 channels and depth 3 on an 8 by 8 input: five tensors of
    32 channels, 160 channels after the concatenation, and the forward
    pass is the projection of that concatenation. *)
Lemma CSP_concat_width_witness :
  let x := mkTensor [1; 64; 8; 8] None (Input "x") in
  let self := CSP.init 64 64 3 true in
  exists ys y_cat,
    CSP.y_list self x = Ok ys
    /\ length ys = 5%nat
    /\ CSP.y_out x ys = Ok y_cat
    /\ channels y_cat = 160
    /\ Conv2d.in_channels (Conv.conv (CSP.conv2 self)) = 160
    /\ CSP.forward self x = Conv.forward (CSP.conv2 self) y_cat.
Proof.
  intros x self.
  destruct (CSP_concat_width 64 64 3 true x 1 8 8)
    as [y0 [a [b [rest [y_cat [y H]]]]]];
    [lia | reflexivity | lia | lia | split; reflexivity | lia | lia | lia |].
  destruct H as [_ [_ [_ [_ [_ [Hl [Hc [_ [Ho [_ [_ [_ [Hw [_ [Hf _]]]]]]]]]]]]]]].
  exists (a :: b :: rest), y_cat.
  split; [exact Hl|].
  split; [apply Nat2Z.inj; exact Hc|].
  split; [exact Ho|].
  split; [exact Hw|].
  split; [reflexivity | exact Hf].
Defined.

End CSPWidth.

(** ** Head: shapes of the forward pass *)

Section HeadShapes.

Import torch Sequential.

Lemma Head_init_shared (nc c0 : Z) (rest : list Z) :
  exists head,
    Head.init nc (c0 :: rest) = Ok head
    /\ Head.stride head = repeat 0%Q (length (c0 :: rest)).
Proof.
  unfold Head.init. getitems. eexists. split; reflexivity.
Qed.

Lemma Conv2d_pointwise_real4 (c out : Z) (x : Tensor) (N H W : Z) :
  0 < out -> real4 x N c H W -> 1 <= H -> 1 <= W ->
  exists y,
    Conv2d.forward (Conv2d.init c out 1 1 0 true) x = Ok y
    /\ real4 y N out H W.
Proof.
  intros Hout Hx Hh Hw.
  destruct (Conv2d_forward_real4 (Conv2d.init c out 1 1 0 true) x N H W)
    as [y [E R]]; cbn; try assumption; try lia.
  exists y. split; [exact E|].
  cbn in R. unfold Conv2d.out_size in R.
  replace (H + 2 * 0 - 1) with (H - 1) in R by lia.
  replace (W + 2 * 0 - 1) with (W - 1) in R by lia.
  rewrite !Z.div_1_r in R.
  replace (H - 1 + 1) with H in R by lia.
  replace (W - 1 + 1) with W in R by lia.
  exact R.
Qed.

Lemma branch_forward_real4 (x c out : Z) (p : Tensor) (N H W : Z) :
  0 < c -> 0 < out ->
  real4 p N x H W -> 1 <= H -> 1 <= W -> N * H * W <> 1 ->
  exists y,
    Sequential.forward
      [LConv (Conv.init x c 3 1); LConv (Conv.init c c 3 1);
       LConv2d (Conv2d.init c out 1 1 0 true)] p = Ok y
    /\ real4 y N out H W.
Proof.
  intros Hc Hout Hp Hh Hw Hn. cbn [Sequential.forward Sequential.apply].
  destruct (Conv_forward_same x c 3 p N H W) as [y1 [E1 R1]]; auto.
  rewrite E1; cbn [bind].
  destruct (Conv_forward_same c c 3 y1 N H W) as [y2 [E2 R2]]; auto.
  rewrite E2; cbn [bind].
  destruct (Conv2d_pointwise_real4 c out y2 N H W Hout R2 Hh Hw)
    as [y3 [E3 R3]].
  rewrite E3; cbn [bind]. eauto.
Qed.

Lemma Head_scale_real4 (nc c0 c1 c2 : Z) (head : Head.t) (i Ci : Z)
  (p : Tensor) (N H W : Z) :
  1 <= nc ->
  Head.init nc [c0; c1; c2] = Ok head ->
  (i = 0 /\ Ci = c0) \/ (i = 1 /\ Ci = c1) \/ (i = 2 /\ Ci = c2) ->
  real4 p N Ci H W -> 1 <= H -> 1 <= W -> N * H * W <> 1 ->
  exists o, Head.scale head i p = Ok o /\ real4 o N (4 + nc) H W.
Proof.
  intros Hnc Hi Hc Hp Hh Hw Hn.
  unfold Head.init in Hi. cbn in Hi. injection Hi as <-.
  unfold Head.scale. cbn [Head.box Head.cls map].
  assert (Hb : 0 < max2 64 (c0 / 4)) by (unfold max2; lia).
  assert (Hcl : 0 < max3 80 c0 nc) by (unfold max3; lia).
  set (b := max2 64 (c0 / 4)) in *. set (c := max3 80 c0 nc) in *.
  destruct (branch_forward_real4 Ci b 4 p N H W Hb ltac:(lia) Hp Hh Hw Hn)
    as [bo [Eb Rb]].
  destruct (branch_forward_real4 Ci c nc p N H W Hcl ltac:(lia) Hp Hh Hw Hn)
    as [co [Ec Rc]].
  destruct (cat_real4 [bo; co] [4; nc] N H W) as [o [Eo [Ro _]]];
    [constructor; [exact Rb | constructor; [exact Rc | constructor]]
    | discriminate |].
  cbn [fold_right] in Ro. rewrite Z.add_0_r in Ro.
  exists o. split; [|exact Ro].
  destruct Hc as [[-> ->] | [[-> ->] | [-> ->]]];
    (erewrite getitem_nth by (first [lia | reflexivity]); cbn [bind];
     rewrite Eb; cbn [bind];
     erewrite getitem_nth by (first [lia | reflexivity]); cbn [bind];
     rewrite Ec; cbn [bind]; exact Eo).
Qed.

Lemma Head_forward_real4 (nc c0 c1 c2 : Z) (head : Head.t)
  (p3 p4 p5 : Tensor) (N H3 W3 H4 W4 H5 W5 : Z) :
  1 <= nc ->
  Head.init nc [c0; c1; c2] = Ok head ->
  real4 p3 N c0 H3 W3 -> real4 p4 N c1 H4 W4 -> real4 p5 N c2 H5 W5 ->
  1 <= H3 -> 1 <= W3 -> N * H3 * W3 <> 1 ->
  1 <= H4 -> 1 <= W4 -> N * H4 * W4 <> 1 ->
  1 <= H5 -> 1 <= W5 -> N * H5 * W5 <> 1 ->
  exists o0 o1 o2,
    Head.forward head p3 p4 p5 = Ok [o0; o1; o2]
    /\ real4 o0 N (4 + nc) H3 W3
    /\ real4 o1 N (4 + nc) H4 W4
    /\ real4 o2 N (4 + nc) H5 W5.
Proof.
  intros Hnc Hi R3 R4 R5 ? ? ? ? ? ? ? ? ?.
  destruct (Head_scale_real4 nc c0 c1 c2 head 0 c0 p3 N H3 W3)
    as [o0 [E0 Q0]]; auto.
  destruct (Head_scale_real4 nc c0 c1 c2 head 1 c1 p4 N H4 W4)
    as [o1 [E1 Q1]]; auto.
  destruct (Head_scale_real4 nc c0 c1 c2 head 2 c2 p5 N H5 W5)
    as [o2 [E2 Q2]]; auto.
  exists o0, o1, o2. unfold Head.forward.
  rewrite E0; cbn [bind]. rewrite E1; cbn [bind]. rewrite E2; cbn [bind].
  auto.
Qed.

(** A forward pass of the head that returns gives three tensors. *)
Lemma Head_forward_three (head : Head.t) (p3 p4 p5 : Tensor)
  (outs : list Tensor) :
  Head.forward head p3 p4 p5 = Ok outs -> length outs = 3%nat.
Proof.
  unfold Head.forward. intros H.
  apply bind_ok in H; destruct H as [o0 [_ H]].
  apply bind_ok in H; destruct H as [o1 [_ H]].
  apply bind_ok in H; destruct H as [o2 [_ H]].
  injection H as <-. reflexivity.
Qed.

End HeadShapes.

(** ** YOLO: construction and strides *)

Section Strides.

Import torch.

Lemma shape_eqb_eq (a b : list Z) : shape_eqb a b = true -> a = b.
Proof.
  revert b. induction a as [|x a IH]; intros [|y b] H;
    try discriminate; [reflexivity|].
  cbn in H. apply andb_true_iff in H. destruct H as [H1 H2].
  apply Z.eqb_eq in H1. apply IH in H2. congruence.
Qed.

Lemma real_of_shape_real4 (q : Tensor) (N C H W : Z) :
  real_of_shape q [N; C; H; W] = true -> real4 q N C H W.
Proof.
  unfold real_of_shape. intros E. apply andb_true_iff in E.
  destruct E as [E1 E2]. split; [now apply shape_eqb_eq|].
  apply is_quantized_false. now destruct (is_quantized q).
Qed.

Lemma trunk_check_sound (width depth s3 s4 s5 : list Z) :
  trunk_check width depth s3 s4 s5 = true ->
  exists net fpn img p3 p4 p5 q3 q4 q5,
    DarkNet.init width depth = Ok net
    /\ DarkFPN.init width depth = Ok fpn
    /\ YOLO.img_dummy width = Ok img
    /\ DarkNet.forward net img = Ok (p3, p4, p5)
    /\ DarkFPN.forward fpn p3 p4 p5 = Ok (q3, q4, q5)
    /\ real_of_shape q3 s3 = true
    /\ real_of_shape q4 s4 = true
    /\ real_of_shape q5 s5 = true.
Proof.
  unfold trunk_check.
  destruct (DarkNet.init width depth) as [net|] eqn:En; cbn [bind];
    [|discriminate].
  destruct (DarkFPN.init width depth) as [fpn|] eqn:Ef; cbn [bind];
    [|discriminate].
  destruct (YOLO.img_dummy width) as [img|] eqn:Ei; cbn [bind];
    [|discriminate].
  destruct (DarkNet.forward net img) as [[[p3 p4] p5]|] eqn:Ed; cbn [bind];
    [|discriminate].
  destruct (DarkFPN.forward fpn p3 p4 p5) as [[[q3 q4] q5]|] eqn:Ep;
    [|discriminate].
  intros E. apply andb_true_iff in E. destruct E as [E E5].
  apply andb_true_iff in E. destruct E as [E3 E4].
  exists net, fpn, img, p3, p4, p5, q3, q4, q5.
  repeat (split; [first [reflexivity | assumption]|]). assumption.
Qed.

Lemma height_of_4d (a b h w : Z) : getitem [a; b; h; w] (-2) = Ok h.
Proof. reflexivity. Qed.

(** The forward pass hands the object back as it received it. *)
Lemma YOLO_forward_self (m m' : YOLO.t) (x : Tensor) (outs : list Tensor) :
  YOLO.forward m x = Ok (outs, m') -> m' = m.
Proof.
  unfold YOLO.forward. intros H.
  apply bind_ok in H; destruct H as [[[p3 p4] p5] [_ H]].
  apply bind_ok in H; destruct H as [[[q3 q4] q5] [_ H]].
  apply bind_ok in H; destruct H as [o [_ H]].
  now injection H as _ <-.
Qed.

Lemma YOLO_forward_three (m m' : YOLO.t) (x : Tensor) (outs : list Tensor) :
  YOLO.forward m x = Ok (outs, m') -> length outs = 3%nat.
Proof.
  unfold YOLO.forward. intros H.
  apply bind_ok in H; destruct H as [[[p3 p4] p5] [_ H]].
  apply bind_ok in H; destruct H as [[[q3 q4] q5] [_ H]].
  apply bind_ok in H; destruct H as [o [Ho H]].
  injection H as <- _. exact (Head_forward_three _ _ _ _ _ Ho).
Qed.

(** The list comprehension of the constructor gives, for each output of
    the pass, 256 over its height. *)
Lemma strides_of_spec (outs : list Tensor) (s : list Q) :
  YOLO.strides_of outs = Ok s <-> Forall2 stride_of_output outs s.
Proof.
  unfold YOLO.strides_of. revert s.
  induction outs as [|x outs IH]; intros s; cbn [mapM].
  - split; [intros H; injection H as <-; constructor|].
    intros H; inversion H; reflexivity.
  - split.
    + intros H. apply bind_ok in H. destruct H as [q [Hq H]].
      apply bind_ok in H. destruct H as [qs [Hqs H]]. injection H as <-.
      constructor; [|now apply IH].
      apply bind_ok in Hq. destruct Hq as [h [Hh Hq]].
      unfold truediv in Hq. destruct (h =? 0) eqn:E; [discriminate|].
      injection Hq as <-. apply Z.eqb_neq in E. exists h. auto.
    + intros H. inversion H as [|x' q outs' qs [h [Hh [Hne ->]]] Hrest];
        subst.
      assert (Et : truediv 256 h = Ok (Qred (inject_Z 256 / inject_Z h))).
      { unfold truediv.
        destruct (h =? 0) eqn:E; [apply Z.eqb_eq in E; contradiction|].
        reflexivity. }
      rewrite Hh; cbn [bind]. rewrite Et; cbn [bind].
      apply IH in Hrest. rewrite Hrest. reflexivity.
Qed.

(** What the constructor does, for every configuration: it returns a model
    exactly when the object is assembled and one forward pass on the dummy
    image returns; the model is then the assembled object with the
    strides read off the outputs of that pass. *)
Lemma YOLO_init_spec (width depth : list Z) (nc : Z) (m : YOLO.t) :
  YOLO.init width depth nc = Ok m <->
  exists self0 w0 outs s,
    YOLO.assembled width depth nc = Ok self0
    /\ getitem width 0 = Ok w0
    /\ YOLO.forward self0 (zeros [1; w0; 256; 256]) = Ok (outs, self0)
    /\ Forall2 stride_of_output outs s
    /\ m = {| YOLO.net := YOLO.net self0;
              YOLO.fpn := YOLO.fpn self0;
              YOLO.head := Head.set_stride (YOLO.head self0) s;
              YOLO.stride := Some s |}.
Proof.
  unfold YOLO.init, YOLO.img_dummy. split.
  - intros H.
    apply bind_ok in H. destruct H as [self0 [Ea H]].
    apply bind_ok in H. destruct H as [img [Ei H]].
    apply bind_ok in Ei. destruct Ei as [w0 [G0 Ei]]. injection Ei as <-.
    apply bind_ok in H. destruct H as [[outs self1] [Ef H]].
    pose proof (YOLO_forward_self _ _ _ _ Ef) as ->.
    apply bind_ok in H. destruct H as [s [Es H]]. injection H as <-.
    exists self0, w0, outs, s.
    split; [exact Ea|]. split; [exact G0|]. split; [exact Ef|].
    split; [now apply strides_of_spec | reflexivity].
  - intros [self0 [w0 [outs [s [Ea [G0 [Ef [Es ->]]]]]]]].
    rewrite Ea; cbn [bind]. rewrite G0; cbn [bind]. rewrite Ef; cbn [bind].
    apply strides_of_spec in Es. rewrite Es. reflexivity.
Qed.

(** The forward pass of any model leaves both stride attributes as they
    are. *)
Lemma YOLO_forward_keeps_strides (m m' : YOLO.t) (x : Tensor)
  (outs : list Tensor) :
  YOLO.forward m x = Ok (outs, m') ->
  YOLO.stride m' = YOLO.stride m
  /\ Head.stride (YOLO.head m') = Head.stride (YOLO.head m).
Proof.
  intros H. apply YOLO_forward_self in H. now subst.
Qed.

(** Construction of a configuration whose backbone and pyramid take the
    256 by 256 dummy image to 32 by 32, 16 by 16 and 8 by 8. *)
Lemma YOLO_init_strides (width depth : list Z) (nc w0 w3 w4 w5 : Z) :
  1 <= nc ->
  getitem width 0 = Ok w0 -> getitem width 3 = Ok w3 ->
  getitem width 4 = Ok w4 -> getitem width 5 = Ok w5 ->
  trunk_check width depth [1; w3; 32; 32] [1; w4; 16; 16] [1; w5; 8; 8]
  = true ->
  exists self0 outs m,
    YOLO.assembled width depth nc = Ok self0
    /\ YOLO.stride self0 = None
    /\ Head.stride (YOLO.head self0) = [0%Q; 0%Q; 0%Q]
    /\ YOLO.img_dummy width = Ok (zeros [1; w0; 256; 256])
    /\ YOLO.forward self0 (zeros [1; w0; 256; 256]) = Ok (outs, self0)
    /\ map shape outs =
       [[1; 4 + nc; 32; 32]; [1; 4 + nc; 16; 16]; [1; 4 + nc; 8; 8]]
    /\ YOLO.strides_of outs = Ok [8%Q; 16%Q; 32%Q]
    /\ YOLO.init width depth nc = Ok m
    /\ m = {| YOLO.net := YOLO.net self0;
              YOLO.fpn := YOLO.fpn self0;
              YOLO.head :=
                Head.set_stride (YOLO.head self0) [8%Q; 16%Q; 32%Q];
              YOLO.stride := Some [8%Q; 16%Q; 32%Q] |}.
Proof.
  intros Hnc G0 G3 G4 G5 Hc.
  destruct (trunk_check_sound _ _ _ _ _ Hc)
    as [net [fpn [img [p3 [p4 [p5 [q3 [q4 [q5
         [En [Ef [Ei [Ed [Ep [R3 [R4 R5]]]]]]]]]]]]]]]].
  apply real_of_shape_real4 in R3, R4, R5.
  assert (Eimg : YOLO.img_dummy width = Ok (zeros [1; w0; 256; 256]))
    by (unfold YOLO.img_dummy; now rewrite G0).
  rewrite Eimg in Ei. injection Ei as <-.
  destruct (Head_init_shared nc w3 [w4; w5]) as [head [Eh Sh]].
  destruct (Head_forward_real4 nc w3 w4 w5 head q3 q4 q5 1 32 32 16 16 8 8
              Hnc Eh R3 R4 R5) as [o0 [o1 [o2 [Eo [[S0 _] [[S1 _] [S2 _]]]]]]];
    try lia.
  set (self0 := {| YOLO.net := net; YOLO.fpn := fpn; YOLO.head := head;
                   YOLO.stride := None |}).
  assert (Ea : YOLO.assembled width depth nc = Ok self0).
  { unfold YOLO.assembled. rewrite En, Ef, Eimg, G3, G4, G5; cbn [bind].
    now rewrite Eh. }
  assert (Efw : YOLO.forward self0 (zeros [1; w0; 256; 256])
                = Ok ([o0; o1; o2], self0)).
  { unfold YOLO.forward, self0.
    cbn [YOLO.net YOLO.fpn YOLO.head]. rewrite Ed; cbn [bind].
    rewrite Ep; cbn [bind]. now rewrite Eo. }
  assert (Est : YOLO.strides_of [o0; o1; o2] = Ok [8%Q; 16%Q; 32%Q]).
  { unfold YOLO.strides_of. cbn [mapM]. rewrite S0, S1, S2.
    rewrite !height_of_4d. reflexivity. }
  exists self0, [o0; o1; o2]. eexists.
  split; [exact Ea|]. split; [reflexivity|].
  split; [exact Sh|].
  split; [exact Eimg|]. split; [exact Efw|].
  split; [cbn [map]; now rewrite S0, S1, S2|].
  split; [exact Est|].
  split; [|reflexivity].
  unfold YOLO.init. rewrite Ea; cbn [bind]. rewrite Eimg; cbn [bind].
  rewrite Efw; cbn [bind]. rewrite Est; cbn [bind]. reflexivity.
Qed.

End Strides.

Section Factories.

Import torch.

(** C2.  For every configuration and class count, the constructor returns
    a model exactly when the object is assembled (with no stride of its
    own yet) and one forward pass on the all-zero image of shape
    (1, width[0], 256, 256) returns; the strides are then 256 over the
    height of each output of that pass, stored on the head and mirrored
    on the model.  A forward pass of a constructed model leaves both
    stride attributes as they are.  For each of the six factories and
    every class count of at least one, [width[0]] is 3, the outputs of the
    pass have heights 32, 16 and 8 and the strides are exactly 8, 16 and
    32. *)
Theorem stride_fixed_at_construction (width depth : list Z)
  (num_classes : Z) :
  (forall m,
     YOLO.init width depth num_classes = Ok m <->
     exists self0 w0 outs s,
       YOLO.assembled width depth num_classes = Ok self0
       /\ getitem width 0 = Ok w0
       /\ YOLO.forward self0 (zeros [1; w0; 256; 256]) = Ok (outs, self0)
       /\ Forall2 stride_of_output outs s
       /\ m = {| YOLO.net := YOLO.net self0;
                 YOLO.fpn := YOLO.fpn self0;
                 YOLO.head := Head.set_stride (YOLO.head self0) s;
                 YOLO.stride := Some s |})
  /\ (forall m x outs' m',
        YOLO.init width depth num_classes = Ok m ->
        YOLO.forward m x = Ok (outs', m') ->
        YOLO.stride m' = YOLO.stride m
        /\ Head.stride (YOLO.head m') = Head.stride (YOLO.head m)
        /\ YOLO.stride m' = Some (Head.stride (YOLO.head m')))
  /\ (forall f,
        In (f, width, depth) factories -> 1 <= num_classes ->
        exists self0 outs m,
          YOLO.assembled width depth num_classes = Ok self0
          /\ YOLO.stride self0 = None
          /\ Head.stride (YOLO.head self0) = [0%Q; 0%Q; 0%Q]
          /\ YOLO.img_dummy width = Ok (zeros [1; 3; 256; 256])
          /\ YOLO.forward self0 (zeros [1; 3; 256; 256]) = Ok (outs, self0)
          /\ map shape outs =
             [[1; 4 + num_classes; 32; 32]; [1; 4 + num_classes; 16; 16];
              [1; 4 + num_classes; 8; 8]]
          /\ YOLO.strides_of outs = Ok [8%Q; 16%Q; 32%Q]
          /\ f num_classes = Ok m
          /\ m = {| YOLO.net := YOLO.net self0;
                    YOLO.fpn := YOLO.fpn self0;
                    YOLO.head :=
                      Head.set_stride (YOLO.head self0) [8%Q; 16%Q; 32%Q];
                    YOLO.stride := Some [8%Q; 16%Q; 32%Q] |}
          /\ YOLO.stride m = Some [8%Q; 16%Q; 32%Q]
          /\ Head.stride (YOLO.head m) = [8%Q; 16%Q; 32%Q]
          /\ forall x outs' m',
               YOLO.forward m x = Ok (outs', m') ->
               m' = m
               /\ YOLO.stride m' = Some [8%Q; 16%Q; 32%Q]
               /\ Head.stride (YOLO.head m') = [8%Q; 16%Q; 32%Q]).
Proof.
  split; [intros m; apply YOLO_init_spec|]. split.
  { intros m x outs' m' Hi Hf.
    destruct (YOLO_forward_keeps_strides _ _ _ _ Hf) as [E1 E2].
    split; [exact E1|]. split; [exact E2|].
    rewrite E1, E2. apply YOLO_init_spec in Hi.
    destruct Hi as [self0 [w0 [outs [s [_ [_ [_ [_ ->]]]]]]]]. reflexivity. }
  intros f Hin Hnc.
  assert (G : exists self0 outs m,
             YOLO.assembled width depth num_classes = Ok self0
             /\ YOLO.stride self0 = None
             /\ Head.stride (YOLO.head self0) = [0%Q; 0%Q; 0%Q]
             /\ YOLO.img_dummy width = Ok (zeros [1; 3; 256; 256])
             /\ YOLO.forward self0 (zeros [1; 3; 256; 256]) = Ok (outs, self0)
             /\ map shape outs =
                [[1; 4 + num_classes; 32; 32]; [1; 4 + num_classes; 16; 16];
                 [1; 4 + num_classes; 8; 8]]
             /\ YOLO.strides_of outs = Ok [8%Q; 16%Q; 32%Q]
             /\ YOLO.init width depth num_classes = Ok m
             /\ m = {| YOLO.net := YOLO.net self0;
                       YOLO.fpn := YOLO.fpn self0;
                       YOLO.head :=
                         Head.set_stride (YOLO.head self0)
                           [8%Q; 16%Q; 32%Q];
                       YOLO.stride := Some [8%Q; 16%Q; 32%Q] |}
             /\ f num_classes = YOLO.init width depth num_classes).
  { unfold factories in Hin. cbn [In] in Hin.
    destruct Hin as [H|[H|[H|[H|[H|[H|[]]]]]]]; injection H as <- <- <-;
      (match goal with
       | |- context [YOLO.assembled ?w ?d _] =>
           edestruct (YOLO_init_strides w d num_classes)
             as [self0 [outs [m [H1 [H2 [H3 [H4 [H5 [H6 [H7 [H8 H9]]]]]]]]]]]
       end;
       [exact Hnc | reflexivity | reflexivity | reflexivity | reflexivity
       | vm_compute; reflexivity |];
       exists self0, outs, m;
       repeat (split; [eassumption|]); reflexivity). }
  destruct G as [self0 [outs [m [H1 [H2 [H3 [H4 [H5 [H6 [H7 [H8 [H9 Hf]]]]]]]]]]]].
  exists self0, outs, m.
  repeat (split; [assumption|]).
  split; [now rewrite Hf|].
  split; [assumption|].
  split; [now rewrite H9|].
  split; [now rewrite H9|].
  intros x outs' m' Hfw. apply YOLO_forward_self in Hfw. subst m'.
  now rewrite H9.
Qed.

(** The smallest variant with 80 classes. *)
Lemma stride_fixed_at_construction_witness :
  exists m,
    yolo_v8_n 80 = Ok m
    /\ YOLO.stride m = Some [8%Q; 16%Q; 32%Q]
    /\ Head.stride (YOLO.head m) = [8%Q; 16%Q; 32%Q].
Proof.
  destruct (stride_fixed_at_construction
              [3; 16; 32; 64; 128; 256] [1; 2; 2] 80) as [_ [_ H]].
  destruct (H yolo_v8_n) as [self0 [outs [m Hm]]];
    [left; reflexivity | lia |].
  exists m. tauto.
Defined.

End Factories.

(** ** End to end *)

Section EndToEnd.

Import torch.

Lemma forward_shapes_ok (m : YOLO.t) (x : Tensor) (s0 s1 s2 : list Z) :
  forward_shapes m x = Ok [s0; s1; s2] ->
  exists o0 o1 o2,
    YOLO.forward m x = Ok ([o0; o1; o2], m)
    /\ shape o0 = s0 /\ shape o1 = s1 /\ shape o2 = s2.
Proof.
  unfold forward_shapes. intros H.
  apply bind_ok in H. destruct H as [[outs m'] [E H]].
  pose proof (YOLO_forward_self _ _ _ _ E) as ->.
  injection H as H.
  destruct outs as [|o0 [|o1 [|o2 [|o3 outs]]]]; try discriminate.
  injection H as <- <- <-. exists o0, o1, o2. auto.
Qed.

Lemma yolo_v8_n_shapes (d : Expr) :
  (let* m := yolo_v8_n 80 in
   forward_shapes m (mkTensor [1; 3; 256; 256] None d))
  = Ok [[1; 84; 32; 32]; [1; 84; 16; 16]; [1; 84; 8; 8]].
Proof. vm_compute. reflexivity. Qed.

(** C3.  The smallest variant with 80 classes is built, and its forward
    pass on any real-valued tensor of shape (1, 3, 256, 256) returns a list
    of exactly three tensors, of shapes (1, 84, 32, 32), (1, 84, 16, 16)
    and (1, 84, 8, 8) in that order. *)
Theorem yolo_v8_n_forward (x : Tensor) :
  real4 x 1 3 256 256 ->
  exists m o0 o1 o2,
    yolo_v8_n 80 = Ok m
    /\ YOLO.forward m x = Ok ([o0; o1; o2], m)
    /\ length [o0; o1; o2] = 3%nat
    /\ map channels [o0; o1; o2] = [84; 84; 84]
    /\ shape o0 = [1; 84; 32; 32]
    /\ shape o1 = [1; 84; 16; 16]
    /\ shape o2 = [1; 84; 8; 8].
Proof.
  intros [Hs Hq]. destruct x as [s q d]. cbn in Hs, Hq. subst s q.
  pose proof (yolo_v8_n_shapes d) as L.
  destruct (yolo_v8_n 80) as [m|e]; cbn [bind] in L; [|discriminate].
  destruct (forward_shapes_ok _ _ _ _ _ L) as [o0 [o1 [o2 [E [S0 [S1 S2]]]]]].
  exists m, o0, o1, o2.
  split; [reflexivity|]. split; [exact E|]. split; [reflexivity|].
  split; [unfold channels; cbn [map]; now rewrite S0, S1, S2|].
  auto.
Qed.

(** An input read from outside. *)
Lemma yolo_v8_n_forward_witness :
  exists m outs,
    yolo_v8_n 80 = Ok m
    /\ YOLO.forward m (mkTensor [1; 3; 256; 256] None (Input "image"))
       = Ok (outs, m)
    /\ map shape outs = [[1; 84; 32; 32]; [1; 84; 16; 16]; [1; 84; 8; 8]].
Proof.
  destruct (yolo_v8_n_forward
              (mkTensor [1; 3; 256; 256] None (Input "image")))
    as [m [o0 [o1 [o2 [E [F [_ [_ [S0 [S1 S2]]]]]]]]]];
    [split; reflexivity|].
  exists m, [o0; o1; o2].
  split; [exact E|]. split; [exact F|].
  cbn [map]. now rewrite S0, S1, S2.
Defined.

(** The checks of the embedding are live: an image of four channels is
    refused by the first convolution; a 32 by 32 image reaches the
    normalization of the last stage with one value per channel, which
    training mode refuses; a group of odd width 3 and depth 2 concatenates
    5 channels where its projection expects 6. *)
Example forward_refuses_four_channels :
  (let* m := yolo_v8_n 80 in forward_shapes m (zeros [1; 4; 256; 256]))
  = Raise RuntimeError.
Proof. vm_compute. reflexivity. Qed.

Example forward_refuses_single_value :
  (let* m := yolo_v8_n 80 in forward_shapes m (zeros [1; 3; 32; 32]))
  = Raise ValueError.
Proof. vm_compute. reflexivity. Qed.

Example CSP_odd_width_refused :
  let x := mkTensor [1; 3; 8; 8] None (Input "x") in
  (let* ys := CSP.y_list (CSP.init 3 3 2 true) x in Ok (map channels ys))
  = Ok [2; 1; 1; 1]
  /\ Conv2d.in_channels (Conv.conv (CSP.conv2 (CSP.init 3 3 2 true))) = 6
  /\ (let* y := CSP.forward (CSP.init 3 3 2 true) x in Ok (shape y))
     = Raise RuntimeError.
Proof. repeat split; vm_compute; reflexivity. Qed.

Lemma stage_channels_forward (m : YOLO.t) (x : Tensor)
  (r : list Z * list Z * list Z) :
  stage_channels m x = Ok r ->
  exists t3 t4 t5 q3 q4 q5 outs,
    DarkNet.forward (YOLO.net m) x = Ok (t3, t4, t5)
    /\ DarkFPN.forward (YOLO.fpn m) t3 t4 t5 = Ok (q3, q4, q5)
    /\ Head.forward (YOLO.head m) q3 q4 q5 = Ok outs
    /\ YOLO.forward m x = Ok (outs, m)
    /\ map channels [t3; t4; t5] = skipn 2 (fst (fst r))
    /\ map channels [q3; q4; q5] = snd (fst r)
    /\ map channels outs = snd r.
Proof.
  unfold stage_channels. intros H.
  apply bind_ok in H; destruct H as [t1 [E1 H]].
  apply bind_ok in H; destruct H as [t2 [E2 H]].
  apply bind_ok in H; destruct H as [t3 [E3 H]].
  apply bind_ok in H; destruct H as [t4 [E4 H]].
  apply bind_ok in H; destruct H as [t5 [E5 H]].
  apply bind_ok in H; destruct H as [[[q3 q4] q5] [Ef H]].
  apply bind_ok in H; destruct H as [outs [Eh H]].
  injection H as <-.
  assert (Ed : DarkNet.forward (YOLO.net m) x = Ok (t3, t4, t5)).
  { unfold DarkNet.forward. rewrite E1; cbn [bind]. rewrite E2; cbn [bind].
    rewrite E3; cbn [bind]. rewrite E4; cbn [bind]. now rewrite E5. }
  exists t3, t4, t5, q3, q4, q5, outs.
  split; [exact Ed|]. split; [exact Ef|]. split; [exact Eh|].
  split; [|auto].
  unfold YOLO.forward. rewrite Ed; cbn [bind]. rewrite Ef; cbn [bind].
  now rewrite Eh.
Qed.

Lemma construct_check (f : Z -> result YOLO.t) (width depth : list Z)
  (r : list Z * list Z * list Z) :
  (let* self0 := YOLO.assembled width depth num_classes_default in
   let* ch := stage_channels self0 (zeros [1; 3; 256; 256]) in
   let* _ := f num_classes_default in
   Ok ch) = Ok r ->
  exists self0 m,
    YOLO.assembled width depth num_classes_default = Ok self0
    /\ stage_channels self0 (zeros [1; 3; 256; 256]) = Ok r
    /\ f num_classes_default = Ok m.
Proof.
  intros H.
  apply bind_ok in H; destruct H as [self0 [E0 H]].
  apply bind_ok in H; destruct H as [ch [E1 H]].
  apply bind_ok in H; destruct H as [m [E2 H]].
  injection H as <-. eauto.
Qed.

(** C9.  Each of the six factories, called with the default 80 classes,
    returns a model: neither the constructors nor the dummy forward pass
    raise.  Along that pass on the assembled object the five stages of the
    backbone give the five configured widths [width[1..5]], the pyramid
    gives [width[3..5]] to the head, and the head gives 84 channels at
    each scale. *)
Theorem factories_construct :
  Forall
    (fun '(f, width, depth) =>
       exists self0 m outs,
         YOLO.assembled width depth num_classes_default = Ok self0
         /\ YOLO.img_dummy width = Ok (zeros [1; 3; 256; 256])
         /\ stage_channels self0 (zeros [1; 3; 256; 256])
            = Ok (skipn 1 width, skipn 3 width, [84; 84; 84])
         /\ YOLO.forward self0 (zeros [1; 3; 256; 256]) = Ok (outs, self0)
         /\ map channels outs = [84; 84; 84]
         /\ f num_classes_default = Ok m)
    factories.
Proof.
  unfold factories.
  repeat
    match goal with
    | |- Forall _ ((?f, ?w, ?d) :: _) =>
        constructor;
        [destruct (construct_check f w d (skipn 1 w, skipn 3 w, [84; 84; 84]))
           as [self0 [m [E0 [E1 E2]]]];
         [vm_compute; reflexivity|];
         destruct (stage_channels_forward _ _ _ E1)
           as [t3 [t4 [t5 [q3 [q4 [q5 [outs [_ [_ [_ [Ef [_ [_ Ec]]]]]]]]]]]]];
         exists self0, m, outs;
         split; [exact E0|]; split; [reflexivity|];
         split; [exact E1|]; split; [exact Ef|];
         split; [exact Ec | exact E2]
        |]
    end.
  constructor.
Qed.

End EndToEnd.

(** ** QAT *)

Section Wrapper.

Import torch.

Lemma QAT_init_model (m : YOLO.t) (q : QAT.t) :
  QAT.init m = Ok q ->
  QAT.model q = m
  /\ QAT.nc q = Head.nc (YOLO.head m)
  /\ QAT.no q = Head.no (YOLO.head m)
  /\ YOLO.stride m = Some (QAT.stride q).
Proof.
  unfold QAT.init. destruct (YOLO.stride m) as [s|]; cbn [bind];
    [|discriminate].
  intros H. injection H as <-. cbn. auto.
Qed.

Lemma yolo_v8_n_wrapped :
  (let* m := yolo_v8_n 80 in
   let* q := QAT.init m in
   Ok (QAT.nc q, QAT.no q, QAT.stride q))
  = Ok (80, 84, [8%Q; 16%Q; 32%Q]).
Proof. vm_compute. reflexivity. Qed.

Lemma mapM_Forall2 {A B : Type} (f : A -> result B) (l : list A)
  (r : list B) :
  mapM f l = Ok r <-> Forall2 (fun a b => f a = Ok b) l r.
Proof.
  revert r. induction l as [|a l IH]; intros r; cbn [mapM].
  - split; [intros H; injection H as <-; constructor|].
    intros H; inversion H; reflexivity.
  - split.
    + intros H. apply bind_ok in H. destruct H as [b [Hb H]].
      apply bind_ok in H. destruct H as [bs [Hbs H]]. injection H as <-.
      constructor; [exact Hb | now apply IH].
    + intros H. inversion H as [|a' b l' bs Hb Hrest]; subst.
      rewrite Hb; cbn [bind]. apply IH in Hrest. now rewrite Hrest.
Qed.

(** C8.  For every wrapper, whatever transforms stand in its two stubs,
    the forward pass returns what the specification words: the
    quantize-entry stub applied to the input, the wrapped model run on
    the result, the dequantize-exit stub applied to each tensor of the
    model's output list.  It returns a list exactly when the entry stub,
    the model and the exit stub on every output return; the wrapper is
    then unchanged, and the list has the length of the model's list,
    three. *)
Theorem QAT_forward_wraps (self : QAT.t) (x : Tensor) :
  match QAT.forward self x with
  | Ok (ys, _) => Ok ys
  | Raise e => Raise e
  end
  = QAT_forward_spec (QuantStub.forward (QAT.quant self))
      (DeQuantStub.forward (QAT.de_quant self))
      (YOLO_outputs (QAT.model self)) x
  /\ forall ys self',
       QAT.forward self x = Ok (ys, self') <->
       self' = self
       /\ exists entered outs,
            QuantStub.forward (QAT.quant self) x = Ok entered
            /\ YOLO.forward (QAT.model self) entered
               = Ok (outs, QAT.model self)
            /\ Forall2
                 (fun o y => DeQuantStub.forward (QAT.de_quant self) o = Ok y)
                 outs ys
            /\ length outs = 3%nat
            /\ length ys = 3%nat.
Proof.
  unfold QAT.forward, QAT_forward_spec, YOLO_outputs.
  destruct (QuantStub.forward (QAT.quant self) x) as [entered|e] eqn:Eq;
    cbn [bind].
  2:{ split; [reflexivity|]. intros ys self'. split; [discriminate|].
      intros [_ [en [outs [H _]]]]. discriminate. }
  destruct (YOLO.forward (QAT.model self) entered) as [[outs m']|e] eqn:E;
    cbn [bind].
  2:{ split; [reflexivity|]. intros ys self'. split; [discriminate|].
      intros [_ [en [outs [H [H' _]]]]]. injection H as <-.
      rewrite E in H'. discriminate. }
  pose proof (YOLO_forward_self _ _ _ _ E) as ->.
  pose proof (YOLO_forward_three _ _ _ _ E) as L.
  destruct (mapM (fun f => DeQuantStub.forward (QAT.de_quant self) f) outs)
    as [ys0|e] eqn:Em; cbn [bind].
  - split; [reflexivity|]. intros ys self'.
    pose proof (proj1 (mapM_Forall2 _ _ _) Em) as Ef.
    assert (Ly : length ys0 = 3%nat)
      by (rewrite <- (Forall2_length Ef); exact L).
    split.
    + intros H. injection H as <- <-.
      split; [now destruct self|].
      exists entered, outs. auto.
    + intros [-> [en [outs' [H1 [H2 [H3 _]]]]]].
      injection H1 as <-. rewrite E in H2. injection H2 as <-.
      apply (proj2 (mapM_Forall2 _ _ _)) in H3.
      assert (Ey : Ok ys0 = Ok ys)
        by (etransitivity; [symmetry; exact Em | exact H3]).
      injection Ey as <-. now destruct self.
  - split; [reflexivity|]. intros ys self'. split; [discriminate|].
    intros [_ [en [outs' [H1 [H2 [H3 _]]]]]].
    injection H1 as <-. rewrite E in H2. injection H2 as <-.
    apply (proj2 (mapM_Forall2 _ _ _)) in H3.
    assert (Ey : @Raise (list Tensor) e = Ok ys)
      by (etransitivity; [symmetry; exact Em | exact H3]).
    discriminate.
Qed.

(** The smallest variant in a wrapper whose entry stub quantizes and
    dequantizes its operand (a fake quantization) and whose exit stub
    dequantizes, on an input read from outside. *)
Lemma QAT_forward_wraps_witness :
  let entry := fun t =>
    let* q := quantize_per_tensor t (1 # 8)%Q 128 in Ok (dequantize q) in
  let exit := fun t => Ok (dequantize t) in
  exists m ys,
    yolo_v8_n 80 = Ok m
    /\ let self := {| QAT.model := m;
                      QAT.quant := QuantStub.mk entry;
                      QAT.de_quant := DeQuantStub.mk exit;
                      QAT.nc := 80; QAT.no := 84;
                      QAT.stride := [8%Q; 16%Q; 32%Q] |} in
       QAT.forward self (mkTensor [1; 3; 256; 256] None (Input "image"))
       = Ok (ys, self)
       /\ length ys = 3%nat.
Proof.
  intros entry exit.
  pose proof (yolo_v8_n_shapes
                (DequantizeOp
                   (QuantizePerTensorOp (Input "image") (1 # 8)%Q 128))) as L.
  destruct (yolo_v8_n 80) as [m|e]; cbn [bind] in L; [|discriminate].
  destruct (forward_shapes_ok _ _ _ _ _ L) as [o0 [o1 [o2 [E _]]]].
  exists m, (map dequantize [o0; o1; o2]). split; [reflexivity|].
  intros self. split; [|reflexivity].
  apply (proj2 (QAT_forward_wraps self
                  (mkTensor [1; 3; 256; 256] None (Input "image"))) _ _).
  split; [reflexivity|].
  exists (mkTensor [1; 3; 256; 256] None
            (DequantizeOp
               (QuantizePerTensorOp (Input "image") (1 # 8)%Q 128))),
         [o0; o1; o2].
  split; [reflexivity|]. split; [exact E|].
  split; [repeat constructor | split; reflexivity].
Defined.

End Wrapper.

(** * Further properties of the blocks *)

(** ** Conv: derived padding, stride and channel check *)

Section ConvBlock.

Import torch.

Lemma real4_eq (x : Tensor) (N C H W C' H' W' : Z) :
  real4 x N C H W -> C = C' -> H = H' -> W = W' -> real4 x N C' H' W'.
Proof. intros R <- <- <-. exact R. Qed.

Lemma Conv_forward_odd (in_ch out_ch k : Z) (x : Tensor) (N H W : Z) :
  0 < out_ch -> Z.odd k = true -> 0 < k ->
  real4 x N in_ch H W -> 1 <= H -> 1 <= W -> N * H * W <> 1 ->
  exists y,
    Conv.forward (Conv.init in_ch out_ch k 1) x = Ok y
    /\ real4 y N out_ch H W.
Proof.
  intros Hout Ho Hk Hx Hh Hw Hn.
  apply Z.odd_spec in Ho. destruct Ho as [j ->].
  assert (Ep : (2 * j + 1 - 1) / 2 = j)
    by (symmetry; apply Z.div_unique with (r := 0); lia).
  assert (Es : forall h, Conv2d.out_size h (2 * j + 1) 1 j = h).
  { intros h. unfold Conv2d.out_size. rewrite Z.div_1_r. lia. }
  destruct (Conv_forward_real4 in_ch out_ch (2 * j + 1) 1 x N H W)
    as [y [E R]]; try assumption; rewrite ?Ep, ?Es; try lia.
  rewrite Ep, !Es in R. eauto.
Qed.

Lemma Conv_forward_even (in_ch out_ch k : Z) (x : Tensor) (N H W : Z) :
  0 < out_ch -> Z.even k = true -> 0 < k ->
  real4 x N in_ch H W -> 2 <= H -> 2 <= W -> N * (H - 1) * (W - 1) <> 1 ->
  exists y,
    Conv.forward (Conv.init in_ch out_ch k 1) x = Ok y
    /\ real4 y N out_ch (H - 1) (W - 1).
Proof.
  intros Hout He Hk Hx Hh Hw Hn.
  apply Z.even_spec in He. destruct He as [j ->].
  assert (Ep : (2 * j - 1) / 2 = j - 1)
    by (symmetry; apply Z.div_unique with (r := 1); lia).
  assert (Es : forall h, Conv2d.out_size h (2 * j) 1 (j - 1) = h - 1).
  { intros h. unfold Conv2d.out_size. rewrite Z.div_1_r. lia. }
  destruct (Conv_forward_real4 in_ch out_ch (2 * j) 1 x N H W)
    as [y [E R]]; try assumption; rewrite ?Ep, ?Es; try lia.
  rewrite Ep, !Es in R. eauto.
Qed.

Lemma out_size_halve (h : Z) : Conv2d.out_size h 3 2 1 = (h + 1) / 2.
Proof.
  unfold Conv2d.out_size.
  replace (h + 2 * 1 - 3) with (h + 1 + (-1) * 2) by lia.
  rewrite Z.div_add by lia. lia.
Qed.

Lemma Conv_forward_halve (in_ch out_ch : Z) (x : Tensor) (N H W : Z) :
  0 < out_ch -> real4 x N in_ch H W -> 1 <= H -> 1 <= W ->
  N * ((H + 1) / 2) * ((W + 1) / 2) <> 1 ->
  exists y,
    Conv.forward (Conv.init in_ch out_ch 3 2) x = Ok y
    /\ real4 y N out_ch ((H + 1) / 2) ((W + 1) / 2).
Proof.
  intros Hout Hx Hh Hw Hn.
  destruct (Conv_forward_real4 in_ch out_ch 3 2 x N H W) as [y [E R]];
    try assumption; change ((3 - 1) / 2) with 1; rewrite ?out_size_halve;
    try lia.
  change ((3 - 1) / 2) with 1 in R. rewrite !out_size_halve in R. eauto.
Qed.

Lemma half_of_double (h : Z) : (2 * h + 1) / 2 = h.
Proof. symmetry; apply Z.div_unique with (r := 1); lia. Qed.

(** A stride-2 block on even sizes. *)
Lemma Conv_forward_halve_even (in_ch out_ch : Z) (x : Tensor) (N H W : Z) :
  0 < out_ch ->
  real4 x N in_ch (2 * H) (2 * W) -> 1 <= H -> 1 <= W -> N * H * W <> 1 ->
  exists y,
    Conv.forward (Conv.init in_ch out_ch 3 2) x = Ok y
    /\ real4 y N out_ch H W.
Proof.
  intros Hout Hx Hh Hw Hn.
  destruct (Conv_forward_halve in_ch out_ch x N (2 * H) (2 * W))
    as [y [E R]]; try assumption; rewrite ?half_of_double; try lia.
  rewrite !half_of_double in R. eauto.
Qed.

Lemma Conv_forward_mismatch (in_ch out_ch k s : Z) (x : Tensor)
  (N C H W : Z) :
  real4 x N C H W -> C <> in_ch ->
  Conv.forward (Conv.init in_ch out_ch k s) x = Raise RuntimeError.
Proof.
  intros [Hs Hq] Hc. unfold Conv.forward, Conv.init, Conv2d.forward.
  cbn [Conv.conv Conv2d.init]. unfold is_quantized. rewrite Hq, Hs.
  unfold Conv2d.out_shape, Conv2d.init. cbn [Conv2d.in_channels].
  destruct (C =? in_ch) eqn:E; [apply Z.eqb_eq in E; contradiction|].
  reflexivity.
Qed.

Lemma Conv_forward_quantized (self : Conv.t) (x : Tensor) :
  is_quantized x = true -> Conv.forward self x = Raise RuntimeError.
Proof.
  intros Hq. unfold Conv.forward, Conv2d.forward. now rewrite Hq.
Qed.

End ConvBlock.

(** ** CSP, Residual and SPP on real-valued inputs *)

Section Groups.

Import torch.

Lemma chunk_sizes_two (C : Z) :
  2 <= C -> chunk_sizes C 2 = [(C + 1) / 2; C / 2].
Proof.
  intros Hc. unfold chunk_sizes.
  destruct (C =? 0) eqn:E; [apply Z.eqb_eq in E; lia|].
  replace (C + 2 - 1) with (C + 1) by lia. cbv zeta.
  assert (Hs : 2 * ((C + 1) / 2) <= C + 1 < 2 * ((C + 1) / 2) + 2)
    by (Z.div_mod_to_equations; lia).
  assert (Hd : C / 2 = C - (C + 1) / 2)
    by (Z.div_mod_to_equations; lia).
  set (s := (C + 1) / 2) in *.
  assert (E2 : (C + s - 1) / s = 2)
    by (symmetry; apply Z.div_unique with (r := C - s - 1); lia).
  rewrite E2. change (Z.to_nat 2) with 2%nat. cbn [seq map].
  f_equal; [|f_equal]; lia.
Qed.

Lemma chunk_two_real4 (y : Tensor) (N C H W : Z) :
  real4 y N C H W -> 2 <= C ->
  exists a b,
    chunk y 2 1 = Ok [a; b]
    /\ real4 a N ((C + 1) / 2) H W /\ real4 b N (C / 2) H W.
Proof.
  intros [Hs Hq] Hc. unfold chunk. rewrite Hs, Hq.
  cbn [Z.leb Z.compare length Nat.leb dim_size nth].
  rewrite (chunk_sizes_two C Hc).
  cbn [length seq combine map set_dim].
  do 2 eexists. split; [reflexivity|]. split; split; reflexivity.
Qed.

Lemma half_at_least_one (c : Z) : 2 <= c -> 0 < c / 2.
Proof.
  intros Hc. apply Z.div_str_pos. lia.
Qed.

(** The branch list and its concatenation, for any width of at least 2. *)
Lemma CSP_merge_real4 (in_ch out_ch n : Z) (add : bool) (x : Tensor)
  (N H W : Z) :
  2 <= out_ch -> 0 <= n ->
  real4 x N in_ch H W -> 1 <= H -> 1 <= W -> N * H * W <> 1 ->
  exists y0 a b rest y_cat,
    Conv.forward (Conv.init in_ch out_ch 1 1) x = Ok y0
    /\ chunk y0 2 1 = Ok [a; b]
    /\ real4 a N ((out_ch + 1) / 2) H W
    /\ real4 b N (out_ch / 2) H W
    /\ length rest = Z.to_nat n
    /\ Forall (fun t => real4 t N (out_ch / 2) H W) rest
    /\ CSP.y_list (CSP.init in_ch out_ch n add) x = Ok (a :: b :: rest)
    /\ CSP.y_out x (a :: b :: rest) = Ok y_cat
    /\ real4 y_cat N ((out_ch + 1) / 2 + (1 + n) * (out_ch / 2)) H W
    /\ CSP.forward (CSP.init in_ch out_ch n add) x
       = Conv.forward (Conv.init ((2 + n) * out_ch / 2) out_ch 1 1) y_cat.
Proof.
  intros Hc Hn0 Hx Hh Hw Hn.
  pose proof (half_at_least_one out_ch Hc) as Hhalf.
  destruct (Conv_forward_same in_ch out_ch 1 x N H W) as [y0 [E0 R0]];
    auto; try lia.
  destruct (chunk_two_real4 y0 N out_ch H W R0 Hc) as [a [b [Ech [Ra Rb]]]].
  destruct (extend_chain (out_ch / 2) add N H W Hhalf Hh Hw Hn (Z.to_nat n)
              [a] b Rb)
    as [rest [Eext [_ [Hlen Hall]]]].
  assert (Hys : Forall2 (fun t c => real4 t N c H W) (a :: b :: rest)
                  ((out_ch + 1) / 2 :: repeat (out_ch / 2) (S (Z.to_nat n)))).
  { constructor; [exact Ra|]. cbn [repeat]. constructor; [exact Rb|].
    rewrite <- Hlen. now apply Forall2_repeat. }
  destruct (cat_real4 _ _ N H W Hys) as [y_cat [Ecat [Rcat _]]];
    [discriminate|].
  assert (El : CSP.y_list (CSP.init in_ch out_ch n add) x
               = Ok (a :: b :: rest)).
  { unfold CSP.y_list, CSP.init. cbn [CSP.conv1 CSP.res_m].
    rewrite E0; cbn [bind]. rewrite Ech; cbn [bind]. exact Eext. }
  assert (Eo : CSP.y_out x (a :: b :: rest) = Ok y_cat).
  { unfold CSP.y_out.
    assert (Hr : existsb is_quantized (a :: b :: rest) = false).
    { clear - Hys. induction Hys as [|t c ts cs [_ Hq] _ IH]; [reflexivity|].
      cbn. unfold is_quantized at 1. now rewrite Hq. }
    now rewrite Hr. }
  exists y0, a, b, rest, y_cat.
  split; [exact E0|]. split; [exact Ech|]. split; [exact Ra|].
  split; [exact Rb|]. split; [exact Hlen|]. split; [exact Hall|].
  split; [exact El|]. split; [exact Eo|]. split.
  { eapply real4_eq; [exact Rcat | | reflexivity | reflexivity].
    cbn [fold_right]. rewrite sum_repeat, Nat2Z.inj_succ, Z2Nat.id by lia.
    f_equal. ring. }
  unfold CSP.forward. rewrite El; cbn [bind]. now rewrite Eo.
Qed.

Lemma CSP_forward_real4 (in_ch out_ch n : Z) (add : bool) (x : Tensor)
  (N H W : Z) :
  Z.even out_ch = true -> 0 < out_ch -> 0 <= n ->
  real4 x N in_ch H W -> 1 <= H -> 1 <= W -> N * H * W <> 1 ->
  exists y,
    CSP.forward (CSP.init in_ch out_ch n add) x = Ok y
    /\ real4 y N out_ch H W.
Proof.
  intros He Hc Hn0 Hx Hh Hw Hn.
  assert (H2 : 2 <= out_ch).
  { apply Z.even_spec in He. destruct He as [h ->]. lia. }
  destruct (CSP_merge_real4 in_ch out_ch n add x N H W)
    as [y0 [a [b [rest [y_cat [_ [_ [_ [_ [_ [_ [_ [_ [Rc ->]]]]]]]]]]]]]];
    auto.
  assert (Ew : (out_ch + 1) / 2 + (1 + n) * (out_ch / 2)
               = (2 + n) * out_ch / 2).
  { rewrite half_of_even_product by assumption.
    apply Z.even_spec in He. destruct He as [h ->].
    rewrite half_of_double.
    replace (2 * h / 2) with h
      by (apply Z.div_unique with (r := 0); lia).
    lia. }
  rewrite Ew in Rc.
  apply (Conv_forward_same ((2 + n) * out_ch / 2) out_ch 1 y_cat N H W);
    auto.
Qed.

(** With an odd width the two halves differ by one channel; the projection
    is sized for the concatenation only up to depth 1. *)
Lemma CSP_forward_odd (in_ch out_ch n : Z) (add : bool) (x : Tensor)
  (N H W : Z) :
  Z.odd out_ch = true -> 3 <= out_ch -> 0 <= n ->
  real4 x N in_ch H W -> 1 <= H -> 1 <= W -> N * H * W <> 1 ->
  exists y0 a b rest,
    Conv.forward (Conv.init in_ch out_ch 1 1) x = Ok y0
    /\ chunk y0 2 1 = Ok [a; b]
    /\ channels a = (out_ch + 1) / 2
    /\ channels b = out_ch / 2
    /\ (out_ch + 1) / 2 = out_ch / 2 + 1
    /\ CSP.y_list (CSP.init in_ch out_ch n add) x = Ok (a :: b :: rest)
    /\ length rest = Z.to_nat n
    /\ (n <= 1 ->
        exists y,
          CSP.forward (CSP.init in_ch out_ch n add) x = Ok y
          /\ real4 y N out_ch H W)
    /\ (2 <= n ->
        CSP.forward (CSP.init in_ch out_ch n add) x = Raise RuntimeError).
Proof.
  intros Ho Hc Hn0 Hx Hh Hw Hn.
  destruct (CSP_merge_real4 in_ch out_ch n add x N H W)
    as [y0 [a [b [rest [y_cat
         [E0 [Ech [Ra [Rb [Hlen [_ [El [_ [Rc ->]]]]]]]]]]]]]];
    auto; try lia.
  exists y0, a, b, rest.
  split; [exact E0|]. split; [exact Ech|].
  split; [unfold channels; destruct Ra as [-> _]; reflexivity|].
  split; [unfold channels; destruct Rb as [-> _]; reflexivity|].
  apply Z.odd_spec in Ho. destruct Ho as [h ->].
  assert (Ea : (2 * h + 1 + 1) / 2 = h + 1)
    by (symmetry; apply Z.div_unique with (r := 0); lia).
  rewrite Ea, half_of_double in *.
  split; [reflexivity|]. split; [exact El|]. split; [exact Hlen|].
  assert (Ew : (2 + n) * (2 * h + 1) / 2 = 2 * h + 1 + n * h + n / 2).
  { replace ((2 + n) * (2 * h + 1)) with (n + (2 * h + 1 + n * h) * 2) by lia.
    rewrite Z.div_add by lia. lia. }
  rewrite Ew.
  split; intros Hn1.
  - assert (E1 : n / 2 = 0) by (apply Z.div_small; lia).
    rewrite E1.
    apply (Conv_forward_same _ (2 * h + 1) 1 y_cat N H W); auto; try lia.
    eapply real4_eq; [exact Rc | lia | reflexivity | reflexivity].
  - apply (Conv_forward_mismatch _ _ _ _ y_cat N _ H W Rc).
    assert (1 <= n / 2) by (apply Z.div_le_lower_bound; lia).
    lia.
Qed.

Lemma Residual_forward_sum (ch : Z) (add : bool) (x : Tensor) (N H W : Z) :
  0 < ch ->
  real4 x N ch H W -> 1 <= H -> 1 <= W -> N * H * W <> 1 ->
  exists y1 y2,
    Conv.forward (Conv.init ch ch 3 1) x = Ok y1
    /\ Conv.forward (Conv.init ch ch 3 1) y1 = Ok y2
    /\ real4 y2 N ch H W
    /\ Residual.forward (Residual.init ch add) x
       = Ok (if add
             then {| shape := [N; ch; H; W]; qparams := None;
                     data := AddOp (data x) (data y2) |}
             else y2).
Proof.
  intros Hch Hx Hh Hw Hn.
  destruct (Conv_forward_same ch ch 3 x N H W) as [y1 [E1 R1]]; auto.
  destruct (Conv_forward_same ch ch 3 y1 N H W) as [y2 [E2 R2]]; auto.
  exists y1, y2. split; [exact E1|]. split; [exact E2|]. split; [exact R2|].
  unfold Residual.forward, Residual.init.
  cbn [Residual.conv1 Residual.conv2 Residual.add_m].
  rewrite E1; cbn [bind]. rewrite E2; cbn [bind].
  destruct add; [|reflexivity].
  destruct Hx as [Hs Hq], R2 as [Hs2 Hq2].
  unfold is_quantized, torch.add, is_quantized. rewrite Hq, Hq2; cbn.
  now rewrite Hs, Hs2, broadcast_shapes_refl.
Qed.

End Groups.

Section Pooling.

Import torch.

Lemma MaxPool2d_forward_odd (k : Z) (x : Tensor) (N C H W : Z) :
  Z.odd k = true -> 0 < k ->
  real4 x N C H W -> 1 <= H -> 1 <= W ->
  exists y,
    MaxPool2d.forward (MaxPool2d.init k 1 (k / 2)) x = Ok y
    /\ real4 y N C H W.
Proof.
  intros Ho Hk [Hs Hq] Hh Hw.
  apply Z.odd_spec in Ho. destruct Ho as [j ->].
  rewrite half_of_double.
  unfold MaxPool2d.forward, MaxPool2d.out_shape, MaxPool2d.init.
  rewrite Hs, Hq. cbn [MaxPool2d.stride MaxPool2d.kernel_size
                        MaxPool2d.padding Z.leb Z.compare].
  destruct (2 * j + 1 <? 2 * j) eqn:E1; [apply Z.ltb_lt in E1; lia|].
  destruct (H + 2 * j <? 2 * j + 1) eqn:E2; [apply Z.ltb_lt in E2; lia|].
  destruct (W + 2 * j <? 2 * j + 1) eqn:E3; [apply Z.ltb_lt in E3; lia|].
  cbn [orb bind app]. unfold Conv2d.out_size. rewrite !Z.div_1_r.
  replace (H + 2 * j - (2 * j + 1) + 1) with H by lia.
  replace (W + 2 * j - (2 * j + 1) + 1) with W by lia.
  eexists. split; [reflexivity|]. split; reflexivity.
Qed.

(** The pooled concatenation has [4 * (in_ch / 2)] channels. *)
Lemma SPP_concat (in_ch out_ch k : Z) (x : Tensor) (N H W : Z) :
  2 <= in_ch -> Z.odd k = true -> 0 < k ->
  real4 x N in_ch H W -> 1 <= H -> 1 <= W -> N * H * W <> 1 ->
  exists x1 y1 y2 y3 c,
    Conv.forward (Conv.init in_ch (in_ch / 2) 1 1) x = Ok x1
    /\ MaxPool2d.forward (MaxPool2d.init k 1 (k / 2)) x1 = Ok y1
    /\ MaxPool2d.forward (MaxPool2d.init k 1 (k / 2)) y1 = Ok y2
    /\ MaxPool2d.forward (MaxPool2d.init k 1 (k / 2)) y2 = Ok y3
    /\ Forall (fun t => real4 t N (in_ch / 2) H W) [x1; y1; y2; y3]
    /\ cat [x1; y1; y2; y3] 1 = Ok c
    /\ real4 c N (4 * (in_ch / 2)) H W
    /\ SPP.forward (SPP.init in_ch out_ch k) x
       = Conv.forward (Conv.init (in_ch * 2) out_ch 1 1) c.
Proof.
  intros Hin Ho Hk Hx Hh Hw Hn.
  pose proof (half_at_least_one in_ch Hin) as Hhalf.
  unfold SPP.forward, SPP.init. cbn [SPP.conv1 SPP.conv2 SPP.res_m].
  destruct (Conv_forward_same in_ch (in_ch / 2) 1 x N H W) as [x1 [E1 R1]];
    auto.
  destruct (MaxPool2d_forward_odd k x1 N _ H W Ho Hk R1 Hh Hw)
    as [y1 [F1 Q1]].
  destruct (MaxPool2d_forward_odd k y1 N _ H W Ho Hk Q1 Hh Hw)
    as [y2 [F2 Q2]].
  destruct (MaxPool2d_forward_odd k y2 N _ H W Ho Hk Q2 Hh Hw)
    as [y3 [F3 Q3]].
  destruct (cat_real4 [x1; y1; y2; y3]
              [in_ch / 2; in_ch / 2; in_ch / 2; in_ch / 2] N H W)
    as [c [Ec [Rc _]]];
    [constructor; [exact R1|]; constructor; [exact Q1|];
     constructor; [exact Q2|]; constructor; [exact Q3|]; constructor
    | discriminate |].
  exists x1, y1, y2, y3, c.
  split; [exact E1|]. split; [exact F1|]. split; [exact F2|].
  split; [exact F3|].
  split; [repeat (constructor; [assumption|]); constructor|].
  split; [exact Ec|].
  split.
  { eapply real4_eq; [exact Rc | | reflexivity | reflexivity].
    cbn [fold_right]. lia. }
  rewrite E1; cbn [bind]. rewrite F1; cbn [bind]. rewrite F2; cbn [bind].
  rewrite F3; cbn [bind]. now rewrite Ec.
Qed.

Lemma even_half_twice (c : Z) : Z.even c = true -> 4 * (c / 2) = c * 2.
Proof.
  intros He. apply Z.even_spec in He. destruct He as [h ->].
  replace (2 * h / 2) with h by (apply Z.div_unique with (r := 0); lia).
  lia.
Qed.

Lemma SPP_forward_real4 (in_ch out_ch k : Z) (x : Tensor) (N H W : Z) :
  Z.even in_ch = true -> 0 < in_ch -> 0 < out_ch ->
  Z.odd k = true -> 0 < k ->
  real4 x N in_ch H W -> 1 <= H -> 1 <= W -> N * H * W <> 1 ->
  exists y,
    SPP.forward (SPP.init in_ch out_ch k) x = Ok y
    /\ real4 y N out_ch H W.
Proof.
  intros He Hin Hout Ho Hk Hx Hh Hw Hn.
  assert (H2 : 2 <= in_ch).
  { apply Z.even_spec in He. destruct He as [h Eh]. lia. }
  destruct (SPP_concat in_ch out_ch k x N H W)
    as [x1 [y1 [y2 [y3 [c [_ [_ [_ [_ [_ [_ [Rc ->]]]]]]]]]]]]; auto.
  apply (Conv_forward_same _ out_ch 1 c N H W); auto.
  eapply real4_eq; [exact Rc | | reflexivity | reflexivity].
  now apply even_half_twice.
Qed.

Lemma SPP_forward_odd_width (in_ch out_ch k : Z) (x : Tensor) (N H W : Z) :
  Z.odd in_ch = true -> 3 <= in_ch -> Z.odd k = true -> 0 < k ->
  real4 x N in_ch H W -> 1 <= H -> 1 <= W -> N * H * W <> 1 ->
  SPP.forward (SPP.init in_ch out_ch k) x = Raise RuntimeError.
Proof.
  intros He Hin Ho Hk Hx Hh Hw Hn.
  destruct (SPP_concat in_ch out_ch k x N H W)
    as [x1 [y1 [y2 [y3 [c [_ [_ [_ [_ [_ [_ [Rc ->]]]]]]]]]]]];
    auto; try lia.
  apply (Conv_forward_mismatch _ _ _ _ c N _ H W Rc).
  apply Z.odd_spec in He. destruct He as [h ->].
  rewrite half_of_double. lia.
Qed.

End Pooling.

(** ** Backbone and pyramid for any even widths *)

Section Trunk.

Import torch Sequential.

Lemma scaled_not_one (N a b k : Z) : 2 <= k -> N * (k * a) * (k * b) <> 1.
Proof.
  intros Hk E.
  assert (E' : k * (k * (N * a * b)) = 1) by (rewrite <- E; ring).
  apply Z.eq_mul_1 in E'. lia.
Qed.

Lemma DarkNet_stage (wi wo d : Z) (x : Tensor) (N H W : Z) :
  Z.even wo = true -> 0 < wo -> 0 <= d ->
  real4 x N wi (2 * H) (2 * W) -> 1 <= H -> 1 <= W -> N * H * W <> 1 ->
  exists y,
    Sequential.forward
      [LConv (Conv.init wi wo 3 2); LCSP (CSP.init wo wo d true)] x = Ok y
    /\ real4 y N wo H W.
Proof.
  intros He Hp Hd Hx Hh Hw Hn. cbn [Sequential.forward Sequential.apply].
  destruct (Conv_forward_halve_even wi wo x N H W) as [y1 [E1 R1]]; auto.
  rewrite E1; cbn [bind].
  destruct (CSP_forward_real4 wo wo d true y1 N H W) as [y2 [E2 R2]]; auto.
  rewrite E2; cbn [bind]. eauto.
Qed.

Lemma DarkNet_forward_real4 (w0 w1 w2 w3 w4 w5 d0 d1 d2 : Z)
  (ws ds : list Z) (x : Tensor) (N h w : Z) :
  Z.even w2 = true -> Z.even w3 = true ->
  Z.even w4 = true -> Z.even w5 = true ->
  0 < w1 -> 0 < w2 -> 0 < w3 -> 0 < w4 -> 0 < w5 ->
  0 <= d0 -> 0 <= d1 -> 0 <= d2 ->
  real4 x N w0 (32 * h) (32 * w) -> 1 <= h -> 1 <= w -> N * h * w <> 1 ->
  exists net p3 p4 p5,
    DarkNet.init (w0 :: w1 :: w2 :: w3 :: w4 :: w5 :: ws)
                 (d0 :: d1 :: d2 :: ds) = Ok net
    /\ DarkNet.forward net x = Ok (p3, p4, p5)
    /\ real4 p3 N w3 (4 * h) (4 * w)
    /\ real4 p4 N w4 (2 * h) (2 * w)
    /\ real4 p5 N w5 h w.
Proof.
  intros E2 E3 E4 E5 P1 P2 P3 P4 P5 D0 D1 D2 Hx Hh Hw Hn.
  destruct (Conv_forward_halve_even w0 w1 x N (16 * h) (16 * w))
    as [t1 [F1 R1]]; try lia;
    [eapply real4_eq; [exact Hx | reflexivity | lia | lia]|].
  destruct (DarkNet_stage w1 w2 d0 t1 N (8 * h) (8 * w))
    as [t2 [F2 R2]]; try assumption; try lia;
    [eapply real4_eq; [exact R1 | reflexivity | lia | lia]|].
  destruct (DarkNet_stage w2 w3 d1 t2 N (4 * h) (4 * w))
    as [t3 [F3 R3]]; try assumption; try lia;
    [eapply real4_eq; [exact R2 | reflexivity | lia | lia]|].
  destruct (DarkNet_stage w3 w4 d2 t3 N (2 * h) (2 * w))
    as [t4 [F4 R4]]; try assumption; try lia;
    [eapply real4_eq; [exact R3 | reflexivity | lia | lia]|].
  destruct (DarkNet_stage w4 w5 d0 t4 N h w)
    as [t5 [F5 R5]]; try assumption.
  destruct (SPP_forward_real4 w5 w5 5 t5 N h w) as [t6 [F6 R6]];
    try assumption; try reflexivity.
  cbn [Sequential.forward Sequential.apply] in F5.
  apply bind_ok in F5. destruct F5 as [c5 [G1 F5]].
  apply bind_ok in F5. destruct F5 as [c6 [G2 F5]].
  injection F5 as ->.
  unfold DarkNet.init. getitems.
  eexists. exists t3, t4, t6. split; [reflexivity|].
  split; [|auto].
  unfold DarkNet.forward.
  cbn [DarkNet.p1 DarkNet.p2 DarkNet.p3 DarkNet.p4 DarkNet.p5].
  change (Sequential.forward [LConv (Conv.init w0 w1 3 2)] x)
    with (let* y := Conv.forward (Conv.init w0 w1 3 2) x in Ok y).
  rewrite F1; cbn [bind]. rewrite F2; cbn [bind]. rewrite F3; cbn [bind].
  rewrite F4; cbn [bind].
  cbn [Sequential.forward Sequential.apply].
  rewrite G1; cbn [bind]. rewrite G2; cbn [bind]. rewrite F6; cbn [bind].
  reflexivity.
Qed.

Lemma Upsample_forward_real4 (x : Tensor) (N C H W : Z) :
  real4 x N C H W ->
  exists y,
    Upsample.forward (Upsample.init 2 Upsample.nearest) x = Ok y
    /\ real4 y N C (2 * H) (2 * W).
Proof.
  intros [Hs Hq]. unfold Upsample.forward. rewrite Hs, Hq.
  cbn [length Nat.ltb Nat.leb Upsample.init Upsample.scale_factor map].
  eexists. split; [reflexivity|].
  split; cbn; [now rewrite (Z.mul_comm H), (Z.mul_comm W) | reflexivity].
Qed.

(** Concatenating two real-valued tensors along the channels. *)
Lemma cat_pair_real4 (a b : Tensor) (N ca cb H W : Z) :
  real4 a N ca H W -> real4 b N cb H W ->
  exists y, cat [a; b] 1 = Ok y /\ real4 y N (cb + ca) H W.
Proof.
  intros Ra Rb.
  destruct (cat_real4 [a; b] [ca; cb] N H W) as [y [E [R _]]];
    [constructor; [exact Ra | constructor; [exact Rb | constructor]]
    | discriminate |].
  exists y. split; [exact E|].
  eapply real4_eq; [exact R | | reflexivity | reflexivity].
  cbn [fold_right]. lia.
Qed.

Lemma cat_pair_mismatch (a b : Tensor) (N ca cb H W H' W' : Z) :
  real4 a N ca H W -> real4 b N cb H' W' ->
  H <> H' \/ W <> W' ->
  cat [a; b] 1 = Raise RuntimeError.
Proof.
  intros [Sa Qa] [Sb Qb] Hne. unfold cat.
  rewrite Sa. cbn [length Nat.leb forallb]. unfold cat_compatible.
  rewrite Sa, Sb. cbn [set_dim shape_eqb].
  rewrite !Z.eqb_refl. cbn [andb].
  destruct (H =? H') eqn:E1; [|reflexivity].
  destruct (W =? W') eqn:E2; [|reflexivity].
  apply Z.eqb_eq in E1, E2. lia.
Qed.

Lemma DarkFPN_forward_real4 (w0 w1 w2 w3 w4 w5 d0 : Z) (ws ds : list Z)
  (p3 p4 p5 : Tensor) (N h w : Z) :
  Z.even w3 = true -> Z.even w4 = true -> Z.even w5 = true ->
  0 < w3 -> 0 < w4 -> 0 < w5 -> 0 <= d0 ->
  real4 p3 N w3 (4 * h) (4 * w) ->
  real4 p4 N w4 (2 * h) (2 * w) ->
  real4 p5 N w5 h w ->
  1 <= h -> 1 <= w -> N * h * w <> 1 ->
  exists fpn q3 q4 q5,
    DarkFPN.init (w0 :: w1 :: w2 :: w3 :: w4 :: w5 :: ws) (d0 :: ds) = Ok fpn
    /\ DarkFPN.forward fpn p3 p4 p5 = Ok (q3, q4, q5)
    /\ real4 q3 N w3 (4 * h) (4 * w)
    /\ real4 q4 N w4 (2 * h) (2 * w)
    /\ real4 q5 N w5 h w.
Proof.
  intros E3 E4 E5 P3 P4 P5 D0 R3 R4 R5 Hh Hw Hn.
  assert (N2 : N * (2 * h) * (2 * w) <> 1) by (apply scaled_not_one; lia).
  assert (N4 : N * (4 * h) * (4 * w) <> 1) by (apply scaled_not_one; lia).
  destruct (Upsample_forward_real4 p5 N w5 h w R5) as [u5 [U5 RU5]].
  destruct (cat_pair_real4 u5 p4 N w5 w4 _ _ RU5 R4) as [c1 [C1 RC1]].
  destruct (CSP_forward_real4 (w4 + w5) w4 d0 false c1 N (2 * h) (2 * w))
    as [a4 [A4 RA4]]; try assumption; try lia.
  destruct (Upsample_forward_real4 a4 N w4 _ _ RA4) as [u4 [U4 RU4]].
  assert (RU4' : real4 u4 N w4 (4 * h) (4 * w))
    by (eapply real4_eq; [exact RU4 | reflexivity | lia | lia]).
  destruct (cat_pair_real4 u4 p3 N w4 w3 _ _ RU4' R3) as [c2 [C2 RC2]].
  destruct (CSP_forward_real4 (w3 + w4) w3 d0 false c2 N (4 * h) (4 * w))
    as [a3 [A3 RA3]]; try assumption; try lia.
  destruct (Conv_forward_halve_even w3 w3 a3 N (2 * h) (2 * w))
    as [d3 [D3 RD3]]; try assumption; try lia;
    [eapply real4_eq; [exact RA3 | reflexivity | lia | lia]|].
  destruct (cat_pair_real4 d3 a4 N w3 w4 _ _ RD3 RA4) as [c3 [C3 RC3]].
  destruct (CSP_forward_real4 (w3 + w4) w4 d0 false c3 N (2 * h) (2 * w))
    as [b4 [B4 RB4]]; try assumption; try lia;
    [eapply real4_eq; [exact RC3 | lia | reflexivity | reflexivity]|].
  destruct (Conv_forward_halve_even w4 w4 b4 N h w)
    as [d4 [D4 RD4]]; try assumption.
  destruct (cat_pair_real4 d4 p5 N w4 w5 _ _ RD4 R5) as [c4 [C4 RC4]].
  destruct (CSP_forward_real4 (w4 + w5) w5 d0 false c4 N h w)
    as [b5 [B5 RB5]]; try assumption;
    [eapply real4_eq; [exact RC4 | lia | reflexivity | reflexivity]|].
  unfold DarkFPN.init. getitems.
  eexists. exists a3, b4, b5. split; [reflexivity|].
  split; [|auto].
  unfold DarkFPN.forward.
  cbn [DarkFPN.up DarkFPN.h1 DarkFPN.h2 DarkFPN.h3 DarkFPN.h4 DarkFPN.h5
       DarkFPN.h6].
  rewrite U5; cbn [bind]. rewrite C1; cbn [bind]. rewrite A4; cbn [bind].
  rewrite U4; cbn [bind]. rewrite C2; cbn [bind]. rewrite A3; cbn [bind].
  rewrite D3; cbn [bind]. rewrite C3; cbn [bind]. rewrite B4; cbn [bind].
  rewrite D4; cbn [bind]. rewrite C4; cbn [bind]. rewrite B5; cbn [bind].
  reflexivity.
Qed.

Lemma DarkFPN_forward_mismatch (fpn : DarkFPN.t) (p3 p4 p5 : Tensor)
  (N c4 c5 H4 W4 H5 W5 : Z) :
  DarkFPN.up fpn = Upsample.init 2 Upsample.nearest ->
  real4 p4 N c4 H4 W4 -> real4 p5 N c5 H5 W5 ->
  2 * H5 <> H4 \/ 2 * W5 <> W4 ->
  DarkFPN.forward fpn p3 p4 p5 = Raise RuntimeError.
Proof.
  intros Eu R4 R5 Hne. unfold DarkFPN.forward. rewrite Eu.
  destruct (Upsample_forward_real4 p5 N c5 H5 W5 R5) as [u5 [U5 RU5]].
  rewrite U5; cbn [bind].
  now rewrite (cat_pair_mismatch u5 p4 N c5 c4 _ _ _ _ RU5 R4 Hne).
Qed.

End Trunk.

(** ** Indexing of the configuration lists *)

Section Indexing.

Import torch Sequential.

Lemma getitem_cases {A : Type} (l : list A) (i : Z) :
  0 <= i ->
  (exists a, getitem l i = Ok a /\ (Z.to_nat i < length l)%nat)
  \/ (getitem l i = Raise IndexError /\ (length l <= Z.to_nat i)%nat).
Proof.
  intros Hi. destruct (nth_error l (Z.to_nat i)) as [a|] eqn:E.
  - left. exists a. split; [now apply getitem_nth|].
    apply nth_error_Some. congruence.
  - right. apply nth_error_None in E. split; [|exact E].
    unfold getitem. cbv zeta.
    destruct (i <? 0) eqn:E1; [apply Z.ltb_lt in E1; lia|].
    rewrite ?E1.
    destruct (Z.of_nat (length l) <=? i) eqn:E2; [reflexivity|].
    apply Z.leb_gt in E2. lia.
Qed.

Lemma getitem_map {A B : Type} (f : A -> B) (l : list A) (i : Z) :
  0 <= i ->
  getitem (map f l) i
  = match getitem l i with Ok a => Ok (f a) | Raise e => Raise e end.
Proof.
  intros Hi.
  destruct (getitem_cases l i Hi) as [[a [E Hlt]] | [E Hge]]; rewrite E.
  - apply getitem_nth; [exact Hi|].
    rewrite nth_error_map.
    destruct (nth_error l (Z.to_nat i)) as [a'|] eqn:En.
    + rewrite (getitem_nth l i a' Hi En) in E. now injection E as ->.
    + apply nth_error_None in En. lia.
  - destruct (getitem_cases (map f l) i Hi) as [[b [_ Hlt]] | [E' _]];
      [rewrite length_map in Hlt; lia | exact E'].
Qed.

Ltac index_cases :=
  repeat match goal with
         | |- context [getitem ?l ?i] =>
             destruct (getitem_cases l i ltac:(lia))
               as [[? [-> ?]] | [-> ?]];
             cbn [bind]; try reflexivity
         end.

Lemma DarkNet_init_short (width depth : list Z) :
  (length width < 6)%nat \/ (length depth < 3)%nat ->
  DarkNet.init width depth = Raise IndexError.
Proof.
  intros Hs. unfold DarkNet.init. index_cases.
  change (Z.to_nat 5) with 5%nat in *. change (Z.to_nat 2) with 2%nat in *.
  lia.
Qed.

Lemma DarkNet_init_long (width depth : list Z) :
  (6 <= length width)%nat -> (3 <= length depth)%nat ->
  exists net, DarkNet.init width depth = Ok net.
Proof.
  intros Hw Hd.
  destruct width as [|w0 [|w1 [|w2 [|w3 [|w4 [|w5 ws]]]]]];
    cbn [length] in Hw; try lia.
  destruct depth as [|d0 [|d1 [|d2 ds]]]; cbn [length] in Hd; try lia.
  unfold DarkNet.init. getitems. eexists. reflexivity.
Qed.

Lemma DarkFPN_init_short (width depth : list Z) :
  (length width < 6)%nat \/ depth = [] ->
  DarkFPN.init width depth = Raise IndexError.
Proof.
  intros Hs. unfold DarkFPN.init. index_cases.
  change (Z.to_nat 5) with 5%nat in *. change (Z.to_nat 0) with 0%nat in *.
  destruct Hs as [Hs | ->]; [lia | cbn [length] in *; lia].
Qed.

Lemma Head_forward_set_stride (head : Head.t) (s : list Q)
  (p3 p4 p5 : Tensor) :
  Head.forward (Head.set_stride head s) p3 p4 p5
  = Head.forward head p3 p4 p5.
Proof. reflexivity. Qed.

Lemma Head_scale_any (nc : Z) (ch : list Z) (head : Head.t) (i Ci : Z)
  (p : Tensor) (N H W : Z) :
  1 <= nc ->
  Head.init nc ch = Ok head -> 0 <= i -> getitem ch i = Ok Ci ->
  real4 p N Ci H W -> 1 <= H -> 1 <= W -> N * H * W <> 1 ->
  exists o, Head.scale head i p = Ok o /\ real4 o N (4 + nc) H W.
Proof.
  intros Hnc Hi Hi0 Hg Hp Hh Hw Hn.
  unfold Head.init in Hi. apply bind_ok in Hi. destruct Hi as [c0 [_ Hi]].
  injection Hi as <-.
  unfold Head.scale. cbn [Head.box Head.cls].
  rewrite !getitem_map, Hg by exact Hi0. cbn [bind].
  assert (Hb : 0 < max2 64 (c0 / 4)) by (unfold max2; lia).
  assert (Hcl : 0 < max3 80 c0 nc) by (unfold max3; lia).
  set (b := max2 64 (c0 / 4)) in *. set (c := max3 80 c0 nc) in *.
  destruct (branch_forward_real4 Ci b 4 p N H W Hb ltac:(lia) Hp Hh Hw Hn)
    as [bo [Eb Rb]].
  destruct (branch_forward_real4 Ci c nc p N H W Hcl ltac:(lia) Hp Hh Hw Hn)
    as [co [Ec Rc]].
  rewrite Eb; cbn [bind]. rewrite Ec; cbn [bind].
  destruct (cat_pair_real4 bo co N 4 nc H W Rb Rc) as [o [Eo Ro]].
  exists o. split; [exact Eo|].
  eapply real4_eq; [exact Ro | lia | reflexivity | reflexivity].
Qed.

Lemma Head_scale_missing (nc : Z) (ch : list Z) (head : Head.t) (i : Z)
  (p : Tensor) :
  Head.init nc ch = Ok head -> 0 <= i -> (length ch <= Z.to_nat i)%nat ->
  Head.scale head i p = Raise IndexError.
Proof.
  intros Hi Hi0 Hl.
  unfold Head.init in Hi. apply bind_ok in Hi. destruct Hi as [c0 [_ Hi]].
  injection Hi as <-.
  unfold Head.scale. cbn [Head.box Head.cls].
  rewrite getitem_map by exact Hi0.
  destruct (getitem_cases ch i Hi0) as [[a [_ Hlt]] | [-> _]];
    [lia | reflexivity].
Qed.

End Indexing.

(** ** The model for any even widths *)

Section AnyConfiguration.

Import torch.

(** The forward pass reads neither stride attribute. *)
Lemma YOLO_forward_strides (self : YOLO.t) (s : list Q)
  (t : option (list Q)) (x : Tensor) :
  let self' := {| YOLO.net := YOLO.net self; YOLO.fpn := YOLO.fpn self;
                  YOLO.head := Head.set_stride (YOLO.head self) s;
                  YOLO.stride := t |} in
  YOLO.forward self' x
  = match YOLO.forward self x with
    | Ok (outs, _) => Ok (outs, self')
    | Raise e => Raise e
    end.
Proof.
  intros self'. unfold YOLO.forward, self'.
  cbn [YOLO.net YOLO.fpn YOLO.head].
  destruct (DarkNet.forward (YOLO.net self) x) as [[[p3 p4] p5]|];
    cbn [bind]; [|reflexivity].
  destruct (DarkFPN.forward (YOLO.fpn self) p3 p4 p5) as [[[q3 q4] q5]|];
    cbn [bind]; [|reflexivity].
  rewrite Head_forward_set_stride.
  now destruct (Head.forward (YOLO.head self) q3 q4 q5).
Qed.

Lemma YOLO_assembled_forward (w0 w1 w2 w3 w4 w5 d0 d1 d2 : Z)
  (ws ds : list Z) (nc : Z) (x : Tensor) (N h w : Z) :
  Z.even w2 = true -> Z.even w3 = true ->
  Z.even w4 = true -> Z.even w5 = true ->
  0 < w1 -> 0 < w2 -> 0 < w3 -> 0 < w4 -> 0 < w5 ->
  0 <= d0 -> 0 <= d1 -> 0 <= d2 -> 1 <= nc ->
  real4 x N w0 (32 * h) (32 * w) -> 1 <= h -> 1 <= w -> N * h * w <> 1 ->
  exists self0 o0 o1 o2,
    YOLO.assembled (w0 :: w1 :: w2 :: w3 :: w4 :: w5 :: ws)
      (d0 :: d1 :: d2 :: ds) nc = Ok self0
    /\ YOLO.stride self0 = None
    /\ Head.nc (YOLO.head self0) = nc
    /\ Head.no (YOLO.head self0) = nc + 4
    /\ YOLO.forward self0 x = Ok ([o0; o1; o2], self0)
    /\ real4 o0 N (4 + nc) (4 * h) (4 * w)
    /\ real4 o1 N (4 + nc) (2 * h) (2 * w)
    /\ real4 o2 N (4 + nc) h w.
Proof.
  intros E2 E3 E4 E5 P1 P2 P3 P4 P5 D0 D1 D2 Hnc Hx Hh Hw Hn.
  destruct (DarkNet_forward_real4 w0 w1 w2 w3 w4 w5 d0 d1 d2 ws ds x N h w)
    as [net [p3 [p4 [p5 [En [Ed [R3 [R4 R5]]]]]]]]; try assumption.
  destruct (DarkFPN_forward_real4 w0 w1 w2 w3 w4 w5 d0 ws (d1 :: d2 :: ds)
              p3 p4 p5 N h w)
    as [fpn [q3 [q4 [q5 [Ef [Ep [Q3 [Q4 Q5]]]]]]]]; try assumption.
  destruct (Head_init_shared nc w3 [w4; w5]) as [head [Eh _]].
  assert (Hfields : Head.nc head = nc /\ Head.no head = nc + 4).
  { unfold Head.init in Eh. cbn in Eh. injection Eh as <-. now split. }
  destruct (Head_forward_real4 nc w3 w4 w5 head q3 q4 q5 N
              (4 * h) (4 * w) (2 * h) (2 * w) h w Hnc Eh Q3 Q4 Q5)
    as [o0 [o1 [o2 [Eo [S0 [S1 S2]]]]]];
    try lia; try assumption; try (apply scaled_not_one; lia).
  exists {| YOLO.net := net; YOLO.fpn := fpn; YOLO.head := head;
            YOLO.stride := None |}, o0, o1, o2.
  split.
  { unfold YOLO.assembled. rewrite En, Ef; cbn [bind].
    unfold YOLO.img_dummy. getitems. now rewrite Eh. }
  split; [reflexivity|].
  split; [apply Hfields|]. split; [apply Hfields|].
  split; [|auto].
  unfold YOLO.forward. cbn [YOLO.net YOLO.fpn YOLO.head].
  rewrite Ed; cbn [bind]. rewrite Ep; cbn [bind]. now rewrite Eo.
Qed.

Lemma YOLO_init_any (w0 w1 w2 w3 w4 w5 d0 d1 d2 : Z)
  (ws ds : list Z) (nc : Z) :
  Z.even w2 = true -> Z.even w3 = true ->
  Z.even w4 = true -> Z.even w5 = true ->
  0 < w1 -> 0 < w2 -> 0 < w3 -> 0 < w4 -> 0 < w5 ->
  0 <= d0 -> 0 <= d1 -> 0 <= d2 -> 1 <= nc ->
  exists self0 m,
    YOLO.assembled (w0 :: w1 :: w2 :: w3 :: w4 :: w5 :: ws)
      (d0 :: d1 :: d2 :: ds) nc = Ok self0
    /\ YOLO.init (w0 :: w1 :: w2 :: w3 :: w4 :: w5 :: ws)
         (d0 :: d1 :: d2 :: ds) nc = Ok m
    /\ m = {| YOLO.net := YOLO.net self0; YOLO.fpn := YOLO.fpn self0;
              YOLO.head :=
                Head.set_stride (YOLO.head self0) [8%Q; 16%Q; 32%Q];
              YOLO.stride := Some [8%Q; 16%Q; 32%Q] |}
    /\ Head.nc (YOLO.head m) = nc
    /\ Head.no (YOLO.head m) = nc + 4.
Proof.
  intros E2 E3 E4 E5 P1 P2 P3 P4 P5 D0 D1 D2 Hnc.
  destruct (YOLO_assembled_forward w0 w1 w2 w3 w4 w5 d0 d1 d2 ws ds nc
              (zeros [1; w0; 256; 256]) 1 8 8)
    as [self0 [o0 [o1 [o2 [Ea [_ [Hnc' [Hno [Ef [[S0 _] [[S1 _] [S2 _]]]]]]]]]]]];
    try assumption; try lia; [split; reflexivity|].
  exists self0. eexists. split; [exact Ea|].
  split.
  { unfold YOLO.init. rewrite Ea; cbn [bind].
    unfold YOLO.img_dummy. getitems. rewrite Ef; cbn [bind].
    unfold YOLO.strides_of. cbn [mapM]. rewrite S0, S1, S2.
    rewrite !height_of_4d. cbn [bind]. reflexivity. }
  split; [reflexivity|].
  split; [exact Hnc' | exact Hno].
Qed.

End AnyConfiguration.

(** * Properties of the blocks, the trunk and the model

    Channel counts, kernel sizes and class counts are positive and depths
    are non-negative throughout, as the constructors of the tensor
    library require; each statement that asserts a result carries these
    bounds.  An
    operand is called valid when it is real-valued, 4-dimensional, at
    least 1 by 1, and holds more than one value per channel
    ([N * H * W <> 1]), as the normalization requires in training
    mode. *)

Ltac side := first [reflexivity | lia | (split; reflexivity)].

Section BlockProperties.

Import torch.

(** X1.  For positive [in_ch] and [out_ch], a block with an odd positive
    kernel and stride 1 maps a valid operand of shape (N, in_ch, H, W) to
    a real-valued tensor of shape (N, out_ch, H, W). *)
Theorem Conv_odd_kernel_keeps_size (in_ch out_ch k : Z) (x : Tensor)
  (N H W : Z) :
  0 < in_ch -> 0 < out_ch -> Z.odd k = true -> 0 < k ->
  real4 x N in_ch H W -> 1 <= H -> 1 <= W -> N * H * W <> 1 ->
  exists y,
    Conv.forward (Conv.init in_ch out_ch k 1) x = Ok y
    /\ real4 y N out_ch H W.
Proof. intros _. exact (Conv_forward_odd in_ch out_ch k x N H W). Qed.

Lemma Conv_odd_kernel_keeps_size_witness :
  exists y,
    Conv.forward (Conv.init 3 16 5 1)
      (mkTensor [2; 3; 8; 6] None (Input "x")) = Ok y
    /\ real4 y 2 16 8 6.
Proof. apply Conv_odd_kernel_keeps_size; side. Defined.

(** X2.  For positive [in_ch] and [out_ch], a block with an even positive
    kernel and stride 1 maps a real-valued operand of shape
    (N, in_ch, H, W) with [H, W >= 2] and [N * (H - 1) * (W - 1) <> 1] to
    a real-valued tensor of shape (N, out_ch, H - 1, W - 1): the derived
    padding [(k - 1) // 2] is one short. *)
Theorem Conv_even_kernel_shrinks (in_ch out_ch k : Z) (x : Tensor)
  (N H W : Z) :
  0 < in_ch -> 0 < out_ch -> Z.even k = true -> 0 < k ->
  real4 x N in_ch H W -> 2 <= H -> 2 <= W -> N * (H - 1) * (W - 1) <> 1 ->
  exists y,
    Conv.forward (Conv.init in_ch out_ch k 1) x = Ok y
    /\ real4 y N out_ch (H - 1) (W - 1).
Proof. intros _. exact (Conv_forward_even in_ch out_ch k x N H W). Qed.

Lemma Conv_even_kernel_shrinks_witness :
  exists y,
    Conv.forward (Conv.init 3 16 4 1)
      (mkTensor [2; 3; 8; 6] None (Input "x")) = Ok y
    /\ real4 y 2 16 (8 - 1) (6 - 1).
Proof. apply Conv_even_kernel_shrinks; side. Defined.

(** X3.  For positive [in_ch] and [out_ch], a 3 by 3 block of stride 2
    maps a real-valued operand of shape (N, in_ch, H, W) with
    [H, W >= 1] to a real-valued tensor of shape
    (N, out_ch, (H + 1) // 2, (W + 1) // 2), provided the result holds
    more than one value per channel
    ([N * ((H + 1) // 2) * ((W + 1) // 2) <> 1]). *)
Theorem Conv_stride2_halves (in_ch out_ch : Z) (x : Tensor) (N H W : Z) :
  0 < in_ch -> 0 < out_ch ->
  real4 x N in_ch H W -> 1 <= H -> 1 <= W ->
  N * ((H + 1) / 2) * ((W + 1) / 2) <> 1 ->
  exists y,
    Conv.forward (Conv.init in_ch out_ch 3 2) x = Ok y
    /\ real4 y N out_ch ((H + 1) / 2) ((W + 1) / 2).
Proof. intros _. exact (Conv_forward_halve in_ch out_ch x N H W). Qed.

Lemma Conv_stride2_halves_witness :
  exists y,
    Conv.forward (Conv.init 3 16 3 2)
      (mkTensor [1; 3; 9; 6] None (Input "x")) = Ok y
    /\ real4 y 1 16 5 3.
Proof.
  destruct (Conv_stride2_halves 3 16
              (mkTensor [1; 3; 9; 6] None (Input "x")) 1 9 6)
    as [y [E R]]; [side | side | side | side | side | cbn; lia |].
  exists y. split; [exact E | exact R].
Defined.

(** X4.  A block raises on a real-valued 4-dimensional input whose channel
    count is not its [in_ch], and on every quantized input. *)
Theorem Conv_refuses (in_ch out_ch k s : Z) (x : Tensor) :
  (forall N C H W,
     real4 x N C H W -> C <> in_ch ->
     Conv.forward (Conv.init in_ch out_ch k s) x = Raise RuntimeError)
  /\ (is_quantized x = true ->
      Conv.forward (Conv.init in_ch out_ch k s) x = Raise RuntimeError).
Proof.
  split.
  - intros N C H W. apply Conv_forward_mismatch.
  - apply Conv_forward_quantized.
Qed.

Lemma Conv_refuses_witness :
  Conv.forward (Conv.init 3 16 3 1) (mkTensor [1; 4; 8; 8] None (Input "x"))
  = Raise RuntimeError
  /\ Conv.forward (Conv.init 3 16 3 1)
       (mkTensor [1; 3; 8; 8] (Some ((1 # 2)%Q, 0)) (Input "x"))
     = Raise RuntimeError.
Proof.
  split.
  - apply (proj1 (Conv_refuses 3 16 3 1 _) 1 4 8 8); [side | lia].
  - apply (proj2 (Conv_refuses 3 16 3 1 _)). reflexivity.
Defined.

(** X5.  For a positive [ch], a residual unit keeps the shape of a valid
    operand of [ch] channels.  With the skip connection its output is the
    sum of the operand and of the second block's output; without it, that
    output alone. *)
Theorem Residual_adds_input (ch : Z) (add : bool) (x : Tensor) (N H W : Z) :
  0 < ch ->
  real4 x N ch H W -> 1 <= H -> 1 <= W -> N * H * W <> 1 ->
  exists y1 y2,
    Conv.forward (Conv.init ch ch 3 1) x = Ok y1
    /\ Conv.forward (Conv.init ch ch 3 1) y1 = Ok y2
    /\ real4 y2 N ch H W
    /\ Residual.forward (Residual.init ch add) x
       = Ok (if add
             then {| shape := [N; ch; H; W]; qparams := None;
                     data := AddOp (data x) (data y2) |}
             else y2).
Proof. exact (Residual_forward_sum ch add x N H W). Qed.

Lemma Residual_adds_input_witness :
  exists y,
    Residual.forward (Residual.init 8 true)
      (mkTensor [1; 8; 4; 4] None (Input "x")) = Ok y
    /\ shape y = [1; 8; 4; 4].
Proof.
  destruct (Residual_adds_input 8 true
              (mkTensor [1; 8; 4; 4] None (Input "x")) 1 4 4)
    as [y1 [y2 [_ [_ [_ E]]]]]; [side | side | side | side | side |].
  eexists. split; [exact E | reflexivity].
Defined.

(** X6.  For a positive [in_ch], an odd [out_ch >= 3] and a depth
    [n >= 0], on a valid operand of [in_ch] channels: the first block's
    output is split into halves of [(out_ch + 1) // 2] and [out_ch // 2]
    channels, one apart; the list gets [n] more tensors; the forward pass
    returns [out_ch] channels when [n <= 1] and raises RuntimeError when
    [n >= 2], the projection being sized [(2 + n) * out_ch // 2]. *)
Theorem CSP_odd_width (in_ch out_ch n : Z) (add : bool) (x : Tensor)
  (N H W : Z) :
  0 < in_ch -> Z.odd out_ch = true -> 3 <= out_ch -> 0 <= n ->
  real4 x N in_ch H W -> 1 <= H -> 1 <= W -> N * H * W <> 1 ->
  exists y0 a b rest,
    Conv.forward (Conv.init in_ch out_ch 1 1) x = Ok y0
    /\ chunk y0 2 1 = Ok [a; b]
    /\ channels a = (out_ch + 1) / 2
    /\ channels b = out_ch / 2
    /\ (out_ch + 1) / 2 = out_ch / 2 + 1
    /\ CSP.y_list (CSP.init in_ch out_ch n add) x = Ok (a :: b :: rest)
    /\ length rest = Z.to_nat n
    /\ (n <= 1 ->
        exists y,
          CSP.forward (CSP.init in_ch out_ch n add) x = Ok y
          /\ real4 y N out_ch H W)
    /\ (2 <= n ->
        CSP.forward (CSP.init in_ch out_ch n add) x = Raise RuntimeError).
Proof. intros _. exact (CSP_forward_odd in_ch out_ch n add x N H W). Qed.

Lemma CSP_odd_width_witness :
  let x := mkTensor [1; 4; 8; 8] None (Input "x") in
  (exists y, CSP.forward (CSP.init 4 5 1 true) x = Ok y
             /\ real4 y 1 5 8 8)
  /\ CSP.forward (CSP.init 4 5 3 true) x = Raise RuntimeError.
Proof.
  intros x. split.
  - destruct (CSP_odd_width 4 5 1 true x 1 8 8)
      as [y0 [a [b [rest [_ [_ [_ [_ [_ [_ [_ [H _]]]]]]]]]]]];
      [side | side | side | side | side | side | side | side |].
    apply H. lia.
  - destruct (CSP_odd_width 4 5 3 true x 1 8 8)
      as [y0 [a [b [rest [_ [_ [_ [_ [_ [_ [_ [_ H]]]]]]]]]]]];
      [side | side | side | side | side | side | side | side |].
    apply H. lia.
Defined.

(** X7.  For an even positive [in_ch], a positive [out_ch] and an odd
    positive pooling kernel, on a valid operand of shape
    (N, in_ch, H, W): the first block and the three chained poolings
    give four tensors of [in_ch // 2] channels at the size of the
    operand, their concatenation has [in_ch * 2] channels, the width the
    projection is built for, and the block returns the projection of that
    concatenation, of shape (N, out_ch, H, W). *)
Theorem SPP_keeps_size (in_ch out_ch k : Z) (x : Tensor) (N H W : Z) :
  Z.even in_ch = true -> 0 < in_ch -> 0 < out_ch ->
  Z.odd k = true -> 0 < k ->
  real4 x N in_ch H W -> 1 <= H -> 1 <= W -> N * H * W <> 1 ->
  let self := SPP.init in_ch out_ch k in
  exists x1 y1 y2 y3 c y,
    Conv.forward (SPP.conv1 self) x = Ok x1
    /\ MaxPool2d.forward (SPP.res_m self) x1 = Ok y1
    /\ MaxPool2d.forward (SPP.res_m self) y1 = Ok y2
    /\ MaxPool2d.forward (SPP.res_m self) y2 = Ok y3
    /\ Forall (fun t => real4 t N (in_ch / 2) H W) [x1; y1; y2; y3]
    /\ cat [x1; y1; y2; y3] 1 = Ok c
    /\ real4 c N (in_ch * 2) H W
    /\ Conv2d.in_channels (Conv.conv (SPP.conv2 self)) = in_ch * 2
    /\ SPP.forward self x = Conv.forward (SPP.conv2 self) c
    /\ SPP.forward self x = Ok y
    /\ real4 y N out_ch H W.
Proof.
  intros He Hin Hout Ho Hk Hx Hh Hw Hn self.
  assert (H2 : 2 <= in_ch).
  { apply Z.even_spec in He. destruct He as [h Eh]. lia. }
  destruct (SPP_concat in_ch out_ch k x N H W)
    as [x1 [y1 [y2 [y3 [c [E1 [F1 [F2 [F3 [Hall [Ec [Rc Ef]]]]]]]]]]]]; auto.
  rewrite (even_half_twice in_ch He) in Rc.
  destruct (Conv_forward_same (in_ch * 2) out_ch 1 c N H W) as [y [Ey Ry]];
    auto.
  exists x1, y1, y2, y3, c, y.
  split; [exact E1|]. split; [exact F1|]. split; [exact F2|].
  split; [exact F3|].
  split; [exact Hall|]. split; [exact Ec|]. split; [exact Rc|].
  split; [reflexivity|].
  split; [exact Ef|]. split; [|exact Ry].
  etransitivity; [exact Ef | exact Ey].
Qed.

Lemma SPP_keeps_size_witness :
  exists y,
    SPP.forward (SPP.init 8 8 5) (mkTensor [1; 8; 4; 4] None (Input "x"))
    = Ok y
    /\ real4 y 1 8 4 4.
Proof.
  destruct (SPP_keeps_size 8 8 5 (mkTensor [1; 8; 4; 4] None (Input "x"))
              1 4 4)
    as [x1 [y1 [y2 [y3 [c [y [_ [_ [_ [_ [_ [_ [_ [_ [_ [E R]]]]]]]]]]]]]]]];
    [side | side | side | side | side | side | side | side | side |].
  exists y. split; [exact E | exact R].
Defined.

(** X8.  For an odd [in_ch >= 3], a positive [out_ch] and an odd
    positive pooling kernel, on a valid operand of shape
    (N, in_ch, H, W), the pooling block raises RuntimeError: the first
    block and the three chained poolings return, their concatenation has
    [in_ch * 2 - 2] channels, and the projection is built for
    [in_ch * 2]. *)
Theorem SPP_odd_width_raises (in_ch out_ch k : Z) (x : Tensor) (N H W : Z) :
  Z.odd in_ch = true -> 3 <= in_ch -> 0 < out_ch ->
  Z.odd k = true -> 0 < k ->
  real4 x N in_ch H W -> 1 <= H -> 1 <= W -> N * H * W <> 1 ->
  let self := SPP.init in_ch out_ch k in
  exists x1 y1 y2 y3 c,
    Conv.forward (SPP.conv1 self) x = Ok x1
    /\ MaxPool2d.forward (SPP.res_m self) x1 = Ok y1
    /\ MaxPool2d.forward (SPP.res_m self) y1 = Ok y2
    /\ MaxPool2d.forward (SPP.res_m self) y2 = Ok y3
    /\ cat [x1; y1; y2; y3] 1 = Ok c
    /\ real4 c N (in_ch * 2 - 2) H W
    /\ Conv2d.in_channels (Conv.conv (SPP.conv2 self)) = in_ch * 2
    /\ SPP.forward self x = Conv.forward (SPP.conv2 self) c
    /\ SPP.forward self x = Raise RuntimeError.
Proof.
  intros He Hin _ Ho Hk Hx Hh Hw Hn self.
  destruct (SPP_concat in_ch out_ch k x N H W)
    as [x1 [y1 [y2 [y3 [c [E1 [F1 [F2 [F3 [_ [Ec [Rc Ef]]]]]]]]]]]];
    auto; try lia.
  exists x1, y1, y2, y3, c.
  split; [exact E1|]. split; [exact F1|]. split; [exact F2|].
  split; [exact F3|].
  split; [exact Ec|].
  split.
  { eapply real4_eq; [exact Rc | | reflexivity | reflexivity].
    apply Z.odd_spec in He. destruct He as [h ->].
    rewrite half_of_double. lia. }
  split; [reflexivity|]. split; [exact Ef|].
  exact (SPP_forward_odd_width in_ch out_ch k x N H W He Hin Ho Hk Hx Hh Hw
           Hn).
Qed.

Lemma SPP_odd_width_raises_witness :
  SPP.forward (SPP.init 7 8 5) (mkTensor [1; 7; 4; 4] None (Input "x"))
  = Raise RuntimeError.
Proof.
  destruct (SPP_odd_width_raises 7 8 5
              (mkTensor [1; 7; 4; 4] None (Input "x")) 1 4 4)
    as [x1 [y1 [y2 [y3 [c [_ [_ [_ [_ [_ [_ [_ [_ E]]]]]]]]]]]]];
    [side | side | side | side | side | side | side | side | side |].
  exact E.
Defined.

End BlockProperties.

Section TrunkProperties.

Import torch.

(** X9.  For every width list whose first six entries are positive with
    entries 2 to 5 even, and every non-negative depths, the backbone is
    built and maps a real-valued operand of shape
    (N, width[0], 32 h, 32 w) with [h, w >= 1] and [N * h * w <> 1] to
    real-valued tensors of shapes (N, width[3], 4 h, 4 w),
    (N, width[4], 2 h, 2 w) and (N, width[5], h, w): one 8th, one 16th
    and one 32nd of the input size. *)
Theorem DarkNet_strides (w0 w1 w2 w3 w4 w5 d0 d1 d2 : Z)
  (ws ds : list Z) (x : Tensor) (N h w : Z) :
  Z.even w2 = true -> Z.even w3 = true ->
  Z.even w4 = true -> Z.even w5 = true ->
  0 < w0 -> 0 < w1 -> 0 < w2 -> 0 < w3 -> 0 < w4 -> 0 < w5 ->
  0 <= d0 -> 0 <= d1 -> 0 <= d2 ->
  real4 x N w0 (32 * h) (32 * w) -> 1 <= h -> 1 <= w -> N * h * w <> 1 ->
  exists net p3 p4 p5,
    DarkNet.init (w0 :: w1 :: w2 :: w3 :: w4 :: w5 :: ws)
                 (d0 :: d1 :: d2 :: ds) = Ok net
    /\ DarkNet.forward net x = Ok (p3, p4, p5)
    /\ real4 p3 N w3 (4 * h) (4 * w)
    /\ real4 p4 N w4 (2 * h) (2 * w)
    /\ real4 p5 N w5 h w.
Proof.
  intros E2 E3 E4 E5 _.
  exact (DarkNet_forward_real4 w0 w1 w2 w3 w4 w5 d0 d1 d2 ws ds x N h w
           E2 E3 E4 E5).
Qed.

Lemma DarkNet_strides_witness :
  exists net p3 p4 p5,
    DarkNet.init [3; 16; 32; 64; 128; 256] [1; 2; 2] = Ok net
    /\ DarkNet.forward net (mkTensor [1; 3; 64; 96] None (Input "x"))
       = Ok (p3, p4, p5)
    /\ real4 p3 1 64 (4 * 2) (4 * 3)
    /\ real4 p4 1 128 (2 * 2) (2 * 3)
    /\ real4 p5 1 256 2 3.
Proof.
  apply (DarkNet_strides 3 16 32 64 128 256 1 2 2 [] []
           (mkTensor [1; 3; 64; 96] None (Input "x")) 1 2 3); side.
Defined.

(** X10.  For a width list of entries of at least 2 and a depth list of
    non-negative entries, the backbone is built when the width list has
    at least six entries and the depth list at least three (further
    entries are not read), and the constructor raises IndexError when
    either list is shorter. *)
Theorem DarkNet_init_lengths (width depth : list Z) :
  Forall (fun w => 2 <= w) width -> Forall (fun d => 0 <= d) depth ->
  ((6 <= length width)%nat /\ (3 <= length depth)%nat ->
   exists net, DarkNet.init width depth = Ok net)
  /\ ((length width < 6)%nat \/ (length depth < 3)%nat ->
      DarkNet.init width depth = Raise IndexError).
Proof.
  intros _ _. split.
  - intros [Hw Hd]. now apply DarkNet_init_long.
  - apply DarkNet_init_short.
Qed.

Lemma DarkNet_init_lengths_witness :
  (exists net, DarkNet.init [3; 16; 32; 64; 128; 256; 512] [1; 2; 2; 9]
               = Ok net)
  /\ DarkNet.init [3; 16; 32; 64; 128] [1; 2; 2] = Raise IndexError
  /\ DarkNet.init [3; 16; 32; 64; 128; 256] [1; 2] = Raise IndexError.
Proof.
  split; [|split].
  - apply (DarkNet_init_lengths [3; 16; 32; 64; 128; 256; 512] [1; 2; 2; 9]);
      [repeat (constructor; [lia|]); constructor
      | repeat (constructor; [lia|]); constructor
      | cbn; lia].
  - apply (DarkNet_init_lengths [3; 16; 32; 64; 128] [1; 2; 2]);
      [repeat (constructor; [lia|]); constructor
      | repeat (constructor; [lia|]); constructor
      | left; cbn; lia].
  - apply (DarkNet_init_lengths [3; 16; 32; 64; 128; 256] [1; 2]);
      [repeat (constructor; [lia|]); constructor
      | repeat (constructor; [lia|]); constructor
      | right; cbn; lia].
Defined.

(** X11.  A backbone as constructed raises on every quantized input. *)
Theorem DarkNet_refuses_quantized (width depth : list Z) (net : DarkNet.t)
  (x : Tensor) :
  DarkNet.init width depth = Ok net ->
  is_quantized x = true ->
  DarkNet.forward net x = Raise RuntimeError.
Proof.
  intros Hi Hq. unfold DarkNet.init in Hi.
  repeat (apply bind_ok in Hi; destruct Hi as [? [_ Hi]]).
  injection Hi as <-. unfold DarkNet.forward.
  cbn [DarkNet.p1 Sequential.forward Sequential.apply].
  now rewrite (Conv_forward_quantized _ x Hq).
Qed.

Lemma DarkNet_refuses_quantized_witness :
  exists net,
    DarkNet.init [3; 16; 32; 64; 128; 256] [1; 2; 2] = Ok net
    /\ DarkNet.forward net
         (mkTensor [1; 3; 64; 64] (Some ((1 # 8)%Q, 128)) (Input "x"))
       = Raise RuntimeError.
Proof.
  eexists. split; [reflexivity|].
  apply (DarkNet_refuses_quantized [3; 16; 32; 64; 128; 256] [1; 2; 2]);
    reflexivity.
Defined.

(** X12.  For even positive widths 3 to 5 and a non-negative [depth[0]],
    the pyramid is built and maps real-valued operands of shapes
    (N, width[3], 4 h, 4 w), (N, width[4], 2 h, 2 w) and
    (N, width[5], h, w), with [h, w >= 1] and [N * h * w <> 1], to three
    real-valued tensors of the same three shapes. *)
Theorem DarkFPN_keeps_shapes (w0 w1 w2 w3 w4 w5 d0 : Z) (ws ds : list Z)
  (p3 p4 p5 : Tensor) (N h w : Z) :
  Z.even w3 = true -> Z.even w4 = true -> Z.even w5 = true ->
  0 < w3 -> 0 < w4 -> 0 < w5 -> 0 <= d0 ->
  real4 p3 N w3 (4 * h) (4 * w) ->
  real4 p4 N w4 (2 * h) (2 * w) ->
  real4 p5 N w5 h w ->
  1 <= h -> 1 <= w -> N * h * w <> 1 ->
  exists fpn q3 q4 q5,
    DarkFPN.init (w0 :: w1 :: w2 :: w3 :: w4 :: w5 :: ws) (d0 :: ds) = Ok fpn
    /\ DarkFPN.forward fpn p3 p4 p5 = Ok (q3, q4, q5)
    /\ real4 q3 N w3 (4 * h) (4 * w)
    /\ real4 q4 N w4 (2 * h) (2 * w)
    /\ real4 q5 N w5 h w.
Proof.
  exact (DarkFPN_forward_real4 w0 w1 w2 w3 w4 w5 d0 ws ds p3 p4 p5 N h w).
Qed.

Lemma DarkFPN_keeps_shapes_witness :
  exists fpn q3 q4 q5,
    DarkFPN.init [3; 16; 32; 64; 128; 256] [1; 2; 2] = Ok fpn
    /\ DarkFPN.forward fpn
         (mkTensor [1; 64; 8; 8] None (Input "p3"))
         (mkTensor [1; 128; 4; 4] None (Input "p4"))
         (mkTensor [1; 256; 2; 2] None (Input "p5"))
       = Ok (q3, q4, q5)
    /\ real4 q3 1 64 (4 * 2) (4 * 2)
    /\ real4 q4 1 128 (2 * 2) (2 * 2)
    /\ real4 q5 1 256 2 2.
Proof.
  apply (DarkFPN_keeps_shapes 3 16 32 64 128 256 1 [] [2; 2]
           (mkTensor [1; 64; 8; 8] None (Input "p3"))
           (mkTensor [1; 128; 4; 4] None (Input "p4"))
           (mkTensor [1; 256; 2; 2] None (Input "p5")) 1 2 2); side.
Defined.

(** X13.  A pyramid raises when its coarsest input is not exactly half
    the height and width of the middle one: the upsampled tensor cannot
    be concatenated. *)
Theorem DarkFPN_refuses_unaligned (width depth : list Z) (fpn : DarkFPN.t)
  (p3 p4 p5 : Tensor) (N c4 c5 H4 W4 H5 W5 : Z) :
  DarkFPN.init width depth = Ok fpn ->
  real4 p4 N c4 H4 W4 -> real4 p5 N c5 H5 W5 ->
  2 * H5 <> H4 \/ 2 * W5 <> W4 ->
  DarkFPN.forward fpn p3 p4 p5 = Raise RuntimeError.
Proof.
  intros Hi R4 R5 Hne.
  apply (DarkFPN_forward_mismatch fpn p3 p4 p5 N c4 c5 H4 W4 H5 W5);
    try assumption.
  unfold DarkFPN.init in Hi.
  repeat (apply bind_ok in Hi; destruct Hi as [? [_ Hi]]).
  now injection Hi as <-.
Qed.

Lemma DarkFPN_refuses_unaligned_witness :
  exists fpn,
    DarkFPN.init [3; 16; 32; 64; 128; 256] [1; 2; 2] = Ok fpn
    /\ DarkFPN.forward fpn
         (mkTensor [1; 64; 13; 13] None (Input "p3"))
         (mkTensor [1; 128; 7; 7] None (Input "p4"))
         (mkTensor [1; 256; 4; 4] None (Input "p5"))
       = Raise RuntimeError.
Proof.
  eexists. split; [reflexivity|].
  apply (DarkFPN_refuses_unaligned [3; 16; 32; 64; 128; 256] [1; 2; 2]
           _ _ _ _ 1 128 256 7 7 4 4); [reflexivity | side | side | lia].
Defined.

End TrunkProperties.

Section ModelProperties.

Import torch.

(** X14.  For a class count of at least one and three positive input
    widths, the head is built and maps three valid operands of these
    widths to three real-valued tensors of [no = nc + 4] channels, each
    at the height and width of its operand. *)
Theorem Head_output_channels (nc c0 c1 c2 : Z) (p3 p4 p5 : Tensor)
  (N H3 W3 H4 W4 H5 W5 : Z) :
  1 <= nc -> 0 < c0 -> 0 < c1 -> 0 < c2 ->
  real4 p3 N c0 H3 W3 -> real4 p4 N c1 H4 W4 -> real4 p5 N c2 H5 W5 ->
  1 <= H3 -> 1 <= W3 -> N * H3 * W3 <> 1 ->
  1 <= H4 -> 1 <= W4 -> N * H4 * W4 <> 1 ->
  1 <= H5 -> 1 <= W5 -> N * H5 * W5 <> 1 ->
  exists head o0 o1 o2,
    Head.init nc [c0; c1; c2] = Ok head
    /\ Head.no head = nc + 4
    /\ Head.forward head p3 p4 p5 = Ok [o0; o1; o2]
    /\ real4 o0 N (Head.no head) H3 W3
    /\ real4 o1 N (Head.no head) H4 W4
    /\ real4 o2 N (Head.no head) H5 W5.
Proof.
  intros Hnc _ _ _ R3 R4 R5 ? ? ? ? ? ? ? ? ?.
  destruct (Head_init_shared nc c0 [c1; c2]) as [head [Eh _]].
  assert (Hno : Head.no head = nc + 4).
  { unfold Head.init in Eh. cbn in Eh. now injection Eh as <-. }
  destruct (Head_forward_real4 nc c0 c1 c2 head p3 p4 p5 N
              H3 W3 H4 W4 H5 W5 Hnc Eh R3 R4 R5)
    as [o0 [o1 [o2 [Eo [S0 [S1 S2]]]]]]; try assumption.
  exists head, o0, o1, o2. rewrite Hno.
  split; [exact Eh|]. split; [reflexivity|]. split; [exact Eo|].
  repeat split;
    first [apply S0 | apply S1 | apply S2
          | (eapply real4_eq; [eassumption | lia | reflexivity | reflexivity])].
Qed.

Lemma Head_output_channels_witness :
  exists head o0 o1 o2,
    Head.init 3 [64; 128; 256] = Ok head
    /\ Head.forward head
         (mkTensor [1; 64; 8; 8] None (Input "p3"))
         (mkTensor [1; 128; 4; 4] None (Input "p4"))
         (mkTensor [1; 256; 2; 2] None (Input "p5"))
       = Ok [o0; o1; o2]
    /\ map channels [o0; o1; o2] = [7; 7; 7].
Proof.
  destruct (Head_output_channels 3 64 128 256
              (mkTensor [1; 64; 8; 8] None (Input "p3"))
              (mkTensor [1; 128; 4; 4] None (Input "p4"))
              (mkTensor [1; 256; 2; 2] None (Input "p5"))
              1 8 8 4 4 2 2)
    as [head [o0 [o1 [o2 [Eh [Hno [Eo [[S0 _] [[S1 _] [S2 _]]]]]]]]]];
    [side | side | side | side | side | side | side | side | side | side
    | side | side | side | side | side | side |].
  exists head, o0, o1, o2. split; [exact Eh|]. split; [exact Eo|].
  unfold channels. cbn [map]. rewrite S0, S1, S2, Hno. reflexivity.
Defined.

(** X15.  For every class count, a head asked for no scale raises
    IndexError at construction.  For a class count of at least one and
    positive input widths, a head asked for one or two scales is built,
    but its forward pass on valid operands of these widths raises
    IndexError: it reads three branches. *)
Theorem Head_fewer_scales (nc c0 c1 : Z) (p3 p4 p5 : Tensor)
  (N H3 W3 H4 W4 : Z) :
  1 <= nc -> 0 < c0 -> 0 < c1 ->
  real4 p3 N c0 H3 W3 -> real4 p4 N c1 H4 W4 ->
  1 <= H3 -> 1 <= W3 -> N * H3 * W3 <> 1 ->
  1 <= H4 -> 1 <= W4 -> N * H4 * W4 <> 1 ->
  Head.init nc [] = Raise IndexError
  /\ (exists head,
        Head.init nc [c0] = Ok head
        /\ Head.forward head p3 p4 p5 = Raise IndexError)
  /\ (exists head,
        Head.init nc [c0; c1] = Ok head
        /\ Head.forward head p3 p4 p5 = Raise IndexError).
Proof.
  intros Hnc _ _ R3 R4 ? ? ? ? ? ?.
  split; [reflexivity|]. split.
  - destruct (Head_init_shared nc c0 []) as [head [Eh _]].
    exists head. split; [exact Eh|].
    destruct (Head_scale_any nc [c0] head 0 c0 p3 N H3 W3 Hnc Eh)
      as [o0 [E0 _]]; try assumption; try lia; [reflexivity|].
    unfold Head.forward. rewrite E0; cbn [bind].
    rewrite (Head_scale_missing nc [c0] head 1 p4 Eh); [reflexivity | lia|].
    cbn. lia.
  - destruct (Head_init_shared nc c0 [c1]) as [head [Eh _]].
    exists head. split; [exact Eh|].
    destruct (Head_scale_any nc [c0; c1] head 0 c0 p3 N H3 W3 Hnc Eh)
      as [o0 [E0 _]]; try assumption; try lia; [reflexivity|].
    destruct (Head_scale_any nc [c0; c1] head 1 c1 p4 N H4 W4 Hnc Eh)
      as [o1 [E1 _]]; try assumption; try lia; [reflexivity|].
    unfold Head.forward. rewrite E0; cbn [bind]. rewrite E1; cbn [bind].
    rewrite (Head_scale_missing nc [c0; c1] head 2 p5 Eh);
      [reflexivity | lia|].
    cbn. lia.
Qed.

Lemma Head_fewer_scales_witness :
  let p3 := mkTensor [1; 64; 8; 8] None (Input "p3") in
  let p4 := mkTensor [1; 128; 4; 4] None (Input "p4") in
  let p5 := mkTensor [1; 256; 2; 2] None (Input "p5") in
  exists head,
    Head.init 80 [64; 128] = Ok head
    /\ Head.forward head p3 p4 p5 = Raise IndexError.
Proof.
  intros p3 p4 p5.
  apply (Head_fewer_scales 80 64 128 p3 p4 p5 1 8 8 4 4); side.
Defined.

(** X16.  For every width list whose first six entries are positive with
    entries 2 to 5 even, every non-negative depths and every class count
    of at least one, the model is built: the dummy pass succeeds and the
    strides stored on the head and on the model are exactly 8, 16 and 32;
    the head records [nc] and [no = nc + 4]. *)
Theorem YOLO_init_any_configuration (w0 w1 w2 w3 w4 w5 d0 d1 d2 : Z)
  (ws ds : list Z) (nc : Z) :
  Z.even w2 = true -> Z.even w3 = true ->
  Z.even w4 = true -> Z.even w5 = true ->
  0 < w0 -> 0 < w1 -> 0 < w2 -> 0 < w3 -> 0 < w4 -> 0 < w5 ->
  0 <= d0 -> 0 <= d1 -> 0 <= d2 -> 1 <= nc ->
  exists m,
    YOLO.init (w0 :: w1 :: w2 :: w3 :: w4 :: w5 :: ws)
      (d0 :: d1 :: d2 :: ds) nc = Ok m
    /\ YOLO.stride m = Some [8%Q; 16%Q; 32%Q]
    /\ Head.stride (YOLO.head m) = [8%Q; 16%Q; 32%Q]
    /\ Head.nc (YOLO.head m) = nc
    /\ Head.no (YOLO.head m) = nc + 4.
Proof.
  intros E2 E3 E4 E5 _ P1 P2 P3 P4 P5 D0 D1 D2 Hnc.
  destruct (YOLO_init_any w0 w1 w2 w3 w4 w5 d0 d1 d2 ws ds nc)
    as [self0 [m [_ [Ei [Em [Hnc' Hno]]]]]]; try assumption.
  exists m. split; [exact Ei|]. rewrite Em at 1 2. cbn.
  split; [reflexivity|]. split; [reflexivity|]. split; assumption.
Qed.

Lemma YOLO_init_any_configuration_witness :
  exists m,
    YOLO.init [1; 8; 10; 12; 14; 18] [0; 1; 5] 3 = Ok m
    /\ YOLO.stride m = Some [8%Q; 16%Q; 32%Q]
    /\ Head.no (YOLO.head m) = 7.
Proof.
  destruct (YOLO_init_any_configuration 1 8 10 12 14 18 0 1 5 [] [] 3)
    as [m [E [S [_ [_ Hno]]]]];
    [side | side | side | side | side | side | side | side | side | side
    | side | side | side | side |].
  exists m. split; [exact E|]. split; [exact S | exact Hno].
Defined.

(** X17.  A model built from a configuration with positive widths, even
    stage widths 2 to 5, non-negative depths and a class count of at
    least one maps every real-valued operand of shape
    (N, width[0], 32 h, 32 w) with [h, w >= 1] and [N * h * w <> 1] to
    three real-valued tensors of shapes (N, 4 + nc, 4 h, 4 w),
    (N, 4 + nc, 2 h, 2 w) and (N, 4 + nc, h, w). *)
Theorem YOLO_forward_any_configuration (w0 w1 w2 w3 w4 w5 d0 d1 d2 : Z)
  (ws ds : list Z) (nc : Z) (m : YOLO.t) (x : Tensor) (N h w : Z) :
  Z.even w2 = true -> Z.even w3 = true ->
  Z.even w4 = true -> Z.even w5 = true ->
  0 < w0 -> 0 < w1 -> 0 < w2 -> 0 < w3 -> 0 < w4 -> 0 < w5 ->
  0 <= d0 -> 0 <= d1 -> 0 <= d2 -> 1 <= nc ->
  YOLO.init (w0 :: w1 :: w2 :: w3 :: w4 :: w5 :: ws)
    (d0 :: d1 :: d2 :: ds) nc = Ok m ->
  real4 x N w0 (32 * h) (32 * w) -> 1 <= h -> 1 <= w -> N * h * w <> 1 ->
  exists o0 o1 o2 m',
    YOLO.forward m x = Ok ([o0; o1; o2], m')
    /\ real4 o0 N (4 + nc) (4 * h) (4 * w)
    /\ real4 o1 N (4 + nc) (2 * h) (2 * w)
    /\ real4 o2 N (4 + nc) h w.
Proof.
  intros E2 E3 E4 E5 _ P1 P2 P3 P4 P5 D0 D1 D2 Hnc Hm Hx Hh Hw Hn.
  destruct (YOLO_init_any w0 w1 w2 w3 w4 w5 d0 d1 d2 ws ds nc)
    as [self0 [m' [Ea [Ei [Em _]]]]]; try assumption.
  rewrite Ei in Hm. injection Hm as <-.
  destruct (YOLO_assembled_forward w0 w1 w2 w3 w4 w5 d0 d1 d2 ws ds nc
              x N h w)
    as [self1 [o0 [o1 [o2 [Ea' [_ [_ [_ [Ef [S0 [S1 S2]]]]]]]]]]];
    try assumption.
  rewrite Ea in Ea'. injection Ea' as <-.
  exists o0, o1, o2, m'. split; [|auto].
  rewrite Em.
  rewrite (YOLO_forward_strides self0 [8%Q; 16%Q; 32%Q]
             (Some [8%Q; 16%Q; 32%Q]) x).
  now rewrite Ef.
Qed.

Lemma YOLO_forward_any_configuration_witness :
  exists m o0 o1 o2 m',
    YOLO.init [1; 8; 10; 12; 14; 18] [0; 1; 5] 3 = Ok m
    /\ YOLO.forward m (mkTensor [2; 1; 64; 32] None (Input "x"))
       = Ok ([o0; o1; o2], m')
    /\ real4 o0 2 (4 + 3) (4 * 2) (4 * 1)
    /\ real4 o1 2 (4 + 3) (2 * 2) (2 * 1)
    /\ real4 o2 2 (4 + 3) 2 1.
Proof.
  destruct (YOLO_init_any 1 8 10 12 14 18 0 1 5 [] [] 3)
    as [self0 [m [_ [Ei _]]]];
    [side | side | side | side | side | side | side | side | side | side
    | side | side | side |].
  exists m.
  destruct (YOLO_forward_any_configuration 1 8 10 12 14 18 0 1 5 [] [] 3 m
              (mkTensor [2; 1; 64; 32] None (Input "x")) 2 2 1)
    as [o0 [o1 [o2 [m' H]]]];
    [side | side | side | side | side | side | side | side | side | side
    | side | side | side | side | exact Ei | side | side | side | side |].
  exists o0, o1, o2, m'. split; [exact Ei | exact H].
Defined.

(** X18.  For a width list of entries of at least 2 and a depth list of
    non-negative entries, the model constructor raises IndexError when
    the width list has fewer than six entries or the depth list fewer
    than three. *)
Theorem YOLO_init_short_lists (width depth : list Z) (nc : Z) :
  Forall (fun w => 2 <= w) width -> Forall (fun d => 0 <= d) depth ->
  (length width < 6)%nat \/ (length depth < 3)%nat ->
  YOLO.init width depth nc = Raise IndexError.
Proof.
  intros _ _ Hs. unfold YOLO.init, YOLO.assembled.
  now rewrite (DarkNet_init_short width depth Hs).
Qed.

Lemma YOLO_init_short_lists_witness :
  YOLO.init [3; 16; 32; 64; 128; 256] [1; 2] 80 = Raise IndexError
  /\ YOLO.init [3; 16; 32; 64; 128] [1; 2; 2] 80 = Raise IndexError.
Proof.
  split.
  - apply (YOLO_init_short_lists [3; 16; 32; 64; 128; 256] [1; 2] 80);
      [repeat (constructor; [lia|]); constructor
      | repeat (constructor; [lia|]); constructor
      | right; cbn; lia].
  - apply (YOLO_init_short_lists [3; 16; 32; 64; 128] [1; 2; 2] 80);
      [repeat (constructor; [lia|]); constructor
      | repeat (constructor; [lia|]); constructor
      | left; cbn; lia].
Defined.

(** X19.  For every width list whose first six entries are positive with
    entries 2 to 5 even, every non-negative depths and every class count
    of at least one, wrapping the model built from them succeeds, and the
    wrapper mirrors the model: same class count, [no = nc + 4], and the
    strides 8, 16, 32. *)
Theorem QAT_init_mirrors (w0 w1 w2 w3 w4 w5 d0 d1 d2 : Z)
  (ws ds : list Z) (nc : Z) :
  Z.even w2 = true -> Z.even w3 = true ->
  Z.even w4 = true -> Z.even w5 = true ->
  0 < w0 -> 0 < w1 -> 0 < w2 -> 0 < w3 -> 0 < w4 -> 0 < w5 ->
  0 <= d0 -> 0 <= d1 -> 0 <= d2 -> 1 <= nc ->
  exists m q,
    YOLO.init (w0 :: w1 :: w2 :: w3 :: w4 :: w5 :: ws)
      (d0 :: d1 :: d2 :: ds) nc = Ok m
    /\ QAT.init m = Ok q
    /\ QAT.model q = m
    /\ QAT.nc q = nc
    /\ QAT.no q = nc + 4
    /\ QAT.stride q = [8%Q; 16%Q; 32%Q]
    /\ Some (QAT.stride q) = YOLO.stride m.
Proof.
  intros E2 E3 E4 E5 _ P1 P2 P3 P4 P5 D0 D1 D2 Hnc.
  destruct (YOLO_init_any w0 w1 w2 w3 w4 w5 d0 d1 d2 ws ds nc)
    as [self0 [m [_ [Ei [Em [Hnc' Hno]]]]]]; try assumption.
  exists m. eexists. split; [exact Ei|].
  unfold QAT.init. rewrite Em at 1. cbn [YOLO.stride bind].
  split; [reflexivity|]. cbn [QAT.model QAT.nc QAT.no QAT.stride].
  split; [reflexivity|]. split; [exact Hnc'|]. split; [exact Hno|].
  split; [reflexivity|]. now rewrite Em.
Qed.

Lemma QAT_init_mirrors_witness :
  exists m q,
    YOLO.init [1; 8; 10; 12; 14; 18] [0; 1; 5] 3 = Ok m
    /\ QAT.init m = Ok q
    /\ QAT.no q = 7
    /\ QAT.stride q = [8%Q; 16%Q; 32%Q].
Proof.
  destruct (QAT_init_mirrors 1 8 10 12 14 18 0 1 5 [] [] 3)
    as [m [q [E [Eq [_ [_ [Hno [Hs _]]]]]]]];
    [side | side | side | side | side | side | side | side | side | side
    | side | side | side | side |].
  exists m, q. split; [exact E|]. split; [exact Eq|].
  split; [exact Hno | exact Hs].
Defined.

End ModelProperties.
